(** * Orquestador_Model_IA: the extract / transform / load scripts

    A shallow embedding of [scripts/extract_data.py],
    [scripts/transform_data.py] and [scripts/load_data.py], together with the
    part of pandas those scripts call.

    - A DataFrame is a list of column labels and a list of rows; a row maps
      column labels to cells ([gmap string cell]).
    - A cell is a null (None / NaN / NaT), a number, a string or a timestamp.
      A number is a rational: a finite float64 value, or 2 ^ 1024 or its
      opposite for an infinity.
    - The arithmetic of the outlier filter (the interpolation of the two
      quartiles, Q3 - Q1, 3 * IQR and the two fences) and of the derived
      columns of [transform_data] is float64 arithmetic: an interface
      ([Float64]) of which nothing is assumed, and its IEEE 754 binary64
      instance ([Binary64], round to nearest even) for the evaluations on
      concrete batches.  Comparisons of floats are exact.  The sums, the
      means and the [round(2)] of [aggregate_data] are computed on the
      rationals: the rounding of float64 accumulation is not modelled.
    - Python exceptions are an error monad ([result]); the functions that
      touch the SQLite store or the CSV artifacts thread a [world].
    - A function that assigns to the DataFrame it is given returns the
      DataFrame as the call leaves it.
    - What the scripts write to their log is not kept, except the counts of
      [clean_data]; a log line that can raise is modelled by its exception.

    Not modelled: the dtype of a column (a cell carries its own kind, and a
    column counts as numeric when it holds numbers and NaN only), the
    [AttributeError] of the [.str] accessor on a column without text, the
    [TypeError] of a sort over cells of different kinds, failures of the
    file system and of the SQLite connection, and the fields of the summary
    and statistics payloads that only reformat what is read. *)

From Stdlib Require Import ZArith QArith Qround Qabs Lqa Lia.
From stdpp Require Import base option list strings gmap sorting.

(** ** Python exceptions *)

Module Py.

Inductive exn :=
| KeyError
| TypeError
| ValueError
| ZeroDivisionError
| DateParseError
| FileNotFoundError
| EmptyDataError
| OperationalError
| AttributeError.

Inductive result (A : Type) : Type :=
| Ok (a : A)
| Raise (e : exn).

Arguments Ok {A} a.
Arguments Raise {A} e.

Definition bind {A B} (m : result A) (k : A -> result B) : result B :=
  match m with
  | Ok a => k a
  | Raise e => Raise e
  end.

(** The value of a computation, or [d] when it raised. *)
Definition value_or {A} (d : A) (m : result A) : A :=
  match m with
  | Ok a => a
  | Raise _ => d
  end.

(** [for x in l: f x], collecting the values; the first exception escapes. *)
Fixpoint traverse {A B} (f : A -> result B) (l : list A) : result (list B) :=
  match l with
  | [] => Ok []
  | x :: l' =>
      bind (f x) (fun y => bind (traverse f l') (fun ys => Ok (y :: ys)))
  end.

End Py.

Import Py.

Notation "'let*' x ':=' m 'in' k" := (Py.bind m (fun x => k))
  (at level 10, x pattern, m at level 100, k at level 200).

(** ** The fragment of pandas used by the scripts *)

Module Pandas.

Inductive cell :=
| Null
| Num (q : Q)
| Str (s : string)
| Date (t : Z).

Abbreviation row := (gmap string cell).

Record DataFrame := mkDataFrame { columns : list string; rows : list row }.

(** What pandas leaves to its scalar parsers: [pd.to_datetime] on one string
    or one number, [pd.to_numeric] on one string, and
    [strftime('%Y-%m-%d')].  A timestamp is an integer that orders the way
    the instants do.  Everything below holds for every such parser. *)
Class Scalars := {
  parse_datetime : string -> option Z;
  datetime_of_number : Q -> option Z;
  parse_numeric : string -> option Q;
  strftime_ymd : Z -> string
}.

Definition cell_of (r : row) (c : string) : cell := default Null (r !! c).

Definition has_column (df : DataFrame) (c : string) : bool :=
  bool_decide (c ∈ columns df).

(** [len(df)] *)
Definition len (df : DataFrame) : nat := length (rows df).

(** [df.empty]: no rows or no columns. *)
Definition empty (df : DataFrame) : bool :=
  match rows df, columns df with
  | [], _ => true
  | _, [] => true
  | _, _ => false
  end.

(** [df[c]]: [KeyError] when the label is missing. *)
Definition getcol (df : DataFrame) (c : string) : result (list cell) :=
  if has_column df c then Ok (map (fun r => cell_of r c) (rows df))
  else Raise KeyError.

(** [df[cols]] for a list of labels, used only for its [KeyError]. *)
Definition check_columns (df : DataFrame) (cols : list string) : result unit :=
  if forallb (has_column df) cols then Ok tt else Raise KeyError.

(** [df[c] = values]: the column is replaced, or appended when new. *)
Definition setcol (df : DataFrame) (c : string) (vals : list cell) : DataFrame :=
  {| columns := if has_column df c then columns df else columns df ++ [c];
     rows := zip_with (fun r v => <[c := v]> r) (rows df) vals |}.

(** Boolean indexing [l[mask]]. *)
Fixpoint select {A} (mask : list bool) (l : list A) : list A :=
  match mask, l with
  | b :: mask', x :: l' => if b then x :: select mask' l' else select mask' l'
  | _, _ => []
  end.

(** [df[mask]] *)
Definition df_select (df : DataFrame) (mask : list bool) : DataFrame :=
  {| columns := columns df; rows := select mask (rows df) |}.

(** [mask.sum()] *)
Definition mask_sum (mask : list bool) : nat := length (List.filter id mask).

(** [mask.any()] *)
Definition mask_any (mask : list bool) : bool := existsb id mask.

Definition mask_or (m1 m2 : list bool) : list bool := zip_with orb m1 m2.
Definition mask_and (m1 m2 : list bool) : list bool := zip_with andb m1 m2.
Definition mask_not (m : list bool) : list bool := map negb m.

Definition is_null (c : cell) : bool :=
  match c with Null => true | _ => false end.

(** One comparison [x op k] of a cell with a float scalar ([None] is NaN):
    false on a null and against NaN, [TypeError] on a string or a
    timestamp. *)
Definition cell_cmp (op : Q -> Q -> bool) (k : option Q) (c : cell) : result bool :=
  match c with
  | Null => Ok false
  | Num x => Ok (match k with Some y => op x y | None => false end)
  | Str _ => Raise TypeError
  | Date _ => Raise TypeError
  end.

Definition Qlt_bool (x y : Q) : bool := negb (Qle_bool y x).
Definition Qgt_bool (x y : Q) : bool := Qlt_bool y x.
Definition Qge_bool (x y : Q) : bool := Qle_bool y x.

Definition series_lt (s : list cell) (k : option Q) := traverse (cell_cmp Qlt_bool k) s.
Definition series_le (s : list cell) (k : option Q) := traverse (cell_cmp Qle_bool k) s.
Definition series_gt (s : list cell) (k : option Q) := traverse (cell_cmp Qgt_bool k) s.
Definition series_ge (s : list cell) (k : option Q) := traverse (cell_cmp Qge_bool k) s.

(** [s.fillna(v)] *)
Definition fillna (v : cell) (s : list cell) : list cell :=
  map (fun c => if is_null c then v else c) s.

(** Equality of cells as [duplicated] and [groupby] see it: nulls are equal
    to each other, numbers are compared by value. *)
Definition cell_eqb (a b : cell) : bool :=
  match a, b with
  | Null, Null => true
  | Num x, Num y => Qeq_bool x y
  | Str s, Str t => String.eqb s t
  | Date x, Date y => Z.eqb x y
  | _, _ => false
  end.

Definition row_eqb (cols : list string) (r1 r2 : row) : bool :=
  forallb (fun c => cell_eqb (cell_of r1 c) (cell_of r2 c)) cols.

(** [duplicated(keep='first')]: a row is marked when an earlier row agrees
    with it on [cols]. *)
Fixpoint duplicated_from (cols : list string) (seen rs : list row) : list bool :=
  match rs with
  | [] => []
  | r :: rs' => existsb (row_eqb cols r) seen :: duplicated_from cols (seen ++ [r]) rs'
  end.

(** [df.duplicated()] *)
Definition duplicated (df : DataFrame) : list bool :=
  duplicated_from (columns df) [] (rows df).

(** [df.duplicated(subset=cols)] *)
Definition duplicated_subset (df : DataFrame) (cols : list string) : result (list bool) :=
  let* _ := check_columns df cols in
  Ok (duplicated_from cols [] (rows df)).

(** [df.drop_duplicates()] *)
Definition drop_duplicates (df : DataFrame) : DataFrame :=
  df_select df (mask_not (duplicated df)).

(** [df[cols].isnull().any(axis=1)] *)
Definition any_null (df : DataFrame) (cols : list string) : result (list bool) :=
  let* _ := check_columns df cols in
  Ok (map (fun r => existsb (fun c => is_null (cell_of r c)) cols) (rows df)).

(** [df.dropna(subset=cols)] *)
Definition dropna (df : DataFrame) (cols : list string) : result DataFrame :=
  let* m := any_null df cols in
  Ok (df_select df (mask_not m)).

(** *** Numeric reductions *)

(** The value of a cell inside a numeric reduction: nulls are skipped
    ([skipna=True]), a string or a timestamp is a [TypeError]. *)
Definition cell_number (c : cell) : result (option Q) :=
  match c with
  | Null => Ok None
  | Num x => Ok (Some x)
  | Str _ => Raise TypeError
  | Date _ => Raise TypeError
  end.

Definition numeric_values (s : list cell) : result (list Q) :=
  let* l := traverse cell_number s in
  Ok (omap id l).

Definition sumQ (l : list Q) : Q := foldr Qplus 0%Q l.

(** The number in a cell, zero when it holds none. *)
Definition number_or_zero (c : cell) : Q :=
  match c with
  | Num x => x
  | _ => 0%Q
  end.

Definition count_Q (n : nat) : Q := inject_Z (Z.of_nat n).

(** [s.sum()] *)
Definition series_sum (s : list cell) : result cell :=
  let* vals := numeric_values s in
  Ok (Num (sumQ vals)).

(** [s.mean()]: NaN when no value is left. *)
Definition series_mean (s : list cell) : result cell :=
  let* vals := numeric_values s in
  Ok (match vals with
      | [] => Null
      | _ => Num (sumQ vals / count_Q (length vals))
      end).

(** [s.count()]: the number of non-null cells. *)
Definition series_count (s : list cell) : cell :=
  Num (count_Q (length (List.filter (fun c => negb (is_null c)) s))).

Fixpoint insert_sorted (x : Q) (l : list Q) : list Q :=
  match l with
  | [] => [x]
  | y :: l' => if Qle_bool x y then x :: l else y :: insert_sorted x l'
  end.

Definition sort_values (l : list Q) : list Q := foldr insert_sorted [] l.

(** *** float64 arithmetic

    A float is NaN, written [None], or a rational: a finite value of the
    format or, for an infinity, 2 ^ 1024 or its opposite, so that the order
    of the floats that are not NaN is the order of the rationals.  The
    operations round as the machine does; [lerp a b t] is the interpolation
    of numpy's percentile between the order statistics [a] and [b] with the
    weight [t].  Nothing is assumed of them: what is proved of the outlier
    filter holds whatever they return. *)
Class Float64 := {
  float_add : option Q -> option Q -> option Q;
  float_sub : option Q -> option Q -> option Q;
  float_mul : option Q -> option Q -> option Q;
  float_div : option Q -> option Q -> option Q;
  lerp : Q -> Q -> Q -> option Q
}.

(** [s.quantile(q)], linear interpolation between the two order statistics
    around the position [q * (n - 1)]; NaN on a series without values.  The
    position and the weight are exact for the quartiles; the interpolation
    is computed in float64. *)
Definition quantile `{Float64} (s : list cell) (q : Q) : result (option Q) :=
  let* vals := numeric_values s in
  let sorted := sort_values vals in
  match sorted with
  | [] => Ok None
  | v0 :: _ =>
      let n := length sorted in
      let pos := (q * count_Q (n - 1))%Q in
      let lo := Z.to_nat (Qfloor pos) in
      let hi := Nat.min (lo + 1) (n - 1) in
      let gamma := (pos - inject_Z (Qfloor pos))%Q in
      let a := nth lo sorted v0 in
      let b := nth hi sorted v0 in
      Ok (lerp a b gamma)
  end.

(** Round half to even, the rule of [numpy.rint]. *)
Definition rint (x : Q) : Z :=
  let f := Qfloor x in
  match (x - inject_Z f ?= 1 # 2)%Q with
  | Lt => f
  | Gt => (f + 1)%Z
  | Eq => if Z.even f then f else (f + 1)%Z
  end.

(** [round(x, d)] *)
Definition round_to (d : nat) (x : Q) : Q :=
  let scale := inject_Z (10 ^ Z.of_nat d) in
  (inject_Z (rint (x * scale)) / scale)%Q.

Definition round_cell (d : nat) (c : cell) : cell :=
  match c with
  | Num x => Num (round_to d x)
  | _ => c
  end.

(** [s.round(d)] *)
Definition series_round (d : nat) (s : list cell) : list cell :=
  map (round_cell d) s.

(** *** Conversions *)

Section Conversions.
Context `{Scalars}.

Definition to_datetime_cell (c : cell) : result cell :=
  match c with
  | Null => Ok Null
  | Date t => Ok (Date t)
  | Str s =>
      match parse_datetime s with
      | Some t => Ok (Date t)
      | None => Raise DateParseError
      end
  | Num x =>
      match datetime_of_number x with
      | Some t => Ok (Date t)
      | None => Raise DateParseError
      end
  end.

(** [pd.to_datetime(s)] with the default [errors='raise']. *)
Definition to_datetime (s : list cell) : result (list cell) :=
  traverse to_datetime_cell s.

Inductive errors_mode := errors_raise | errors_coerce.

Definition to_numeric_cell (errors : errors_mode) (c : cell) : result cell :=
  let invalid :=
    match errors with
    | errors_raise => Raise ValueError
    | errors_coerce => Ok Null
    end in
  match c with
  | Null => Ok Null
  | Num x => Ok (Num x)
  | Str t =>
      match parse_numeric t with
      | Some x => Ok (Num x)
      | None => invalid
      end
  | Date _ => invalid
  end.

(** [pd.to_numeric(s, errors=...)]: with [errors='coerce'] what does not
    parse becomes NaN and nothing is raised. *)
Definition to_numeric (errors : errors_mode) (s : list cell) : result (list cell) :=
  traverse (to_numeric_cell errors) s.

(** [s.dt.strftime('%Y-%m-%d')] *)
Definition strftime (s : list cell) : list cell :=
  map (fun c => match c with Date t => Str (strftime_ymd t) | _ => Null end) s.

End Conversions.

(** [pd.api.types.is_numeric_dtype(s)]: a column read from SQLite or from a
    CSV file has a numeric dtype when it holds numbers and NaN only. *)
Definition is_numeric_dtype (s : list cell) : bool :=
  forallb (fun c => match c with Null | Num _ => true | _ => false end) s.

(** *** Text: [.str.strip().str.title()] on ASCII text *)

Definition is_space (a : Ascii.ascii) : bool :=
  let n := Ascii.nat_of_ascii a in
  ((9 <=? n) && (n <=? 13)) || ((28 <=? n) && (n <=? 32)).

Definition is_upper (a : Ascii.ascii) : bool :=
  let n := Ascii.nat_of_ascii a in (65 <=? n) && (n <=? 90).

Definition is_lower (a : Ascii.ascii) : bool :=
  let n := Ascii.nat_of_ascii a in (97 <=? n) && (n <=? 122).

Definition to_upper (a : Ascii.ascii) : Ascii.ascii :=
  if is_lower a then Ascii.ascii_of_nat (Ascii.nat_of_ascii a - 32) else a.

Definition to_lower (a : Ascii.ascii) : Ascii.ascii :=
  if is_upper a then Ascii.ascii_of_nat (Ascii.nat_of_ascii a + 32) else a.

Fixpoint lstrip (s : string) : string :=
  match s with
  | String a s' => if is_space a then lstrip s' else s
  | EmptyString => EmptyString
  end.

Definition strip (s : string) : string :=
  String.rev (lstrip (String.rev (lstrip s))).

(** [str.title]: a letter that follows a cased character is lowered, any
    other letter is raised.  A byte above 127 belongs to a letter outside
    ASCII: it is left as it is and counts as cased. *)
Fixpoint title_from (previous_is_cased : bool) (s : string) : string :=
  match s with
  | EmptyString => EmptyString
  | String a s' =>
      if is_upper a || is_lower a
      then String (if previous_is_cased then to_lower a else to_upper a)
                  (title_from true s')
      else String a (title_from (128 <=? Ascii.nat_of_ascii a) s')
  end.

Definition title (s : string) : string := title_from false s.

(** The [.str] accessor gives NaN on a cell that is not a string. *)
Definition str_strip_title (s : list cell) : list cell :=
  map (fun c => match c with Str t => Str (title (strip t)) | _ => Null end) s.

(** *** Group by *)

(** The key of a row; [groupby] drops the rows with a null in a key column
    ([dropna=True]). *)
Definition key_of (keys : list string) (r : row) : option (list cell) :=
  let k := map (cell_of r) keys in
  if existsb is_null k then None else Some k.

Fixpoint key_eqb (k1 k2 : list cell) : bool :=
  match k1, k2 with
  | [], [] => true
  | a :: k1', b :: k2' => cell_eqb a b && key_eqb k1' k2'
  | _, _ => false
  end.

Definition same_key (keys : list string) (k : list cell) (r : row) : bool :=
  match key_of keys r with
  | Some k' => key_eqb k' k
  | None => false
  end.

(** The distinct keys, in order of first appearance. *)
Fixpoint uniq (ks : list (list cell)) : list (list cell) :=
  match ks with
  | [] => []
  | k :: ks' => k :: List.filter (fun k' => negb (key_eqb k' k)) (uniq ks')
  end.

Definition cell_rank (c : cell) : nat :=
  match c with Null => 0 | Num _ => 1 | Str _ => 2 | Date _ => 3 end.

Definition cell_compare (a b : cell) : comparison :=
  match a, b with
  | Num x, Num y => (x ?= y)%Q
  | Str s, Str t => String.compare s t
  | Date x, Date y => (x ?= y)%Z
  | _, _ => Nat.compare (cell_rank a) (cell_rank b)
  end.

Fixpoint key_compare (k1 k2 : list cell) : comparison :=
  match k1, k2 with
  | [], [] => Eq
  | [], _ :: _ => Lt
  | _ :: _, [] => Gt
  | a :: k1', b :: k2' =>
      match cell_compare a b with
      | Eq => key_compare k1' k2'
      | o => o
      end
  end.

Definition key_leb (k1 k2 : list cell) : bool :=
  match key_compare k1 k2 with Gt => false | _ => true end.

Definition key_le (k1 k2 : list cell) : Prop := Is_true (key_leb k1 k2).

(** [df.groupby(keys)] with the defaults [sort=True], [dropna=True]: the
    groups in key order, each with its rows in batch order. *)
Definition groupby (df : DataFrame) (keys : list string)
  : result (list (list cell * list row)) :=
  let* _ := check_columns df keys in
  let ks := merge_sort key_le (uniq (omap (key_of keys) (rows df))) in
  Ok (map (fun k => (k, List.filter (same_key keys k) (rows df))) ks).

(** A row from labels and cells. *)
Definition make_row (labels : list string) (cells : list cell) : row :=
  list_to_map (zip labels cells).

(** [df.rename(columns={old: new})] *)
Definition rename_row (old new : string) (r : row) : row :=
  match r !! old with
  | Some v => <[new := v]> (delete old r)
  | None => r
  end.

Definition rename (old new : string) (df : DataFrame) : DataFrame :=
  {| columns := map (fun c => if String.eqb c old then new else c) (columns df);
     rows := map (rename_row old new) (rows df) |}.

(** [df.drop(columns=cols)] *)
Definition drop_columns (cols : list string) (df : DataFrame) : DataFrame :=
  {| columns := List.filter (fun c => negb (bool_decide (c ∈ cols))) (columns df);
     rows := map (fun r => foldr delete r cols) (rows df) |}.

(** *** Arithmetic on columns, the [.dt] accessor, the median *)

(** The float in a cell of a numeric column, and back. *)
Definition cell_of_float (x : option Q) : cell :=
  match x with
  | Some q => Num q
  | None => Null
  end.

(** [a op b] on two cells, in float64: a text or a timestamp is a
    [TypeError].  (Python repeats a text that is multiplied by an integer;
    here the product is a [TypeError], as it is with a float.) *)
Definition cell_arith (op : option Q -> option Q -> option Q) (a b : cell)
  : result cell :=
  let* x := cell_number a in
  let* y := cell_number b in
  Ok (cell_of_float (op x y)).

(** [s1 op s2] for two columns of one DataFrame. *)
Definition series_arith (op : option Q -> option Q -> option Q)
  (s1 s2 : list cell) : result (list cell) :=
  traverse (fun p => cell_arith op (fst p) (snd p)) (zip s1 s2).

(** [s * k] for a float [k]. *)
Definition series_scale `{Float64} (k : Q) (s : list cell) : result (list cell) :=
  traverse (fun c => cell_arith float_mul c (Num k)) s.

(** A boolean cell is the number pandas counts it as. *)
Definition bool_cell (b : bool) : cell := Num (if b then 1 else 0).

(** The calendar fields of a timestamp; [dayofweek] counts from Monday,
    which is 0. *)
Class Calendar := {
  year_of : Z -> Z;
  month_of : Z -> Z;
  day_of : Z -> Z;
  dayofweek_of : Z -> Z
}.

Definition day_names : list string :=
  ["Monday"; "Tuesday"; "Wednesday"; "Thursday"; "Friday"; "Saturday"; "Sunday"].

Section Accessors.
Context `{Calendar}.

(** [.dt.day_name()] *)
Definition day_name_of (t : Z) : string :=
  nth (Z.to_nat (dayofweek_of t)) day_names "".

(** [.dt.quarter] *)
Definition quarter_of (t : Z) : Z := ((month_of t - 1) / 3 + 1)%Z.

End Accessors.

(** A column that went through [pd.to_datetime] holds timestamps and NaT
    only; a column without cells counts as one. *)
Definition is_datetime_dtype (s : list cell) : bool :=
  forallb (fun c => match c with Null | Date _ => true | _ => false end) s.

(** [s.dt.field]: [AttributeError] on a column that is not datetime-like,
    NaN on NaT. *)
Definition dt (field : Z -> cell) (s : list cell) : result (list cell) :=
  if is_datetime_dtype s
  then Ok (map (fun c => match c with Date t => field t | _ => Null end) s)
  else Raise AttributeError.

(** [s.median()]: the middle of the sorted values, the mean of the two
    middle ones when their number is even; NaN on a series without
    values. *)
Definition median `{Float64} (s : list cell) : result (option Q) :=
  let* vals := numeric_values s in
  let sorted := sort_values vals in
  let n := length sorted in
  match sorted with
  | [] => Ok None
  | v0 :: _ =>
      if Nat.even n
      then Ok (float_div
                 (float_add (Some (nth (n / 2 - 1) sorted v0))
                            (Some (nth (n / 2) sorted v0)))
                 (Some 2%Q))
      else Ok (Some (nth (n / 2) sorted v0))
  end.

End Pandas.

Import Pandas.

(** ** scripts/transform_data.py *)

Module Transform.

Section Clean.
Context `{Scalars} `{Float64}.

(** What [clean_data] writes to its log: the rows it received, the count
    each step reports, the rows it returns. *)
Record clean_log := mkCleanLog {
  initial_rows : nat;
  duplicates : nat;
  null_discounts : nat;
  null_critical : nat;
  invalid_qty : nat;
  invalid_price : nat;
  outliers_removed : nat;
  final_rows : nat
}.

Definition critical_columns : list string :=
  ["fecha"; "producto"; "cantidad"; "precio_unitario"].

Definition text_columns : list string := ["producto"; "categoria"; "region"].

(** Steps 1 to 4 of [clean_data] (lines 67-106): dates, duplicates, nulls,
    quantities and prices.  Returns the batch and the five counts
    [duplicates], [null_discounts], [null_critical], [invalid_qty],
    [invalid_price]. *)
Definition clean_before_outliers (df : DataFrame)
  : result (DataFrame * (nat * nat * nat * nat * nat)) :=
  let df_clean := df in
  (* 1. fecha to datetime *)
  let* fecha := getcol df_clean "fecha" in
  let* fecha := to_datetime fecha in
  let df_clean := setcol df_clean "fecha" fecha in
  (* 2. full duplicates *)
  let duplicates := mask_sum (duplicated df_clean) in
  let df_clean :=
    if 0 <? duplicates then drop_duplicates df_clean else df_clean in
  (* 3. nulls: descuento is filled with 0 *)
  let* (df_clean, null_discounts) :=
    (if has_column df_clean "descuento" then
       let* descuento := getcol df_clean "descuento" in
       let null_discounts := mask_sum (map is_null descuento) in
       Ok (if 0 <? null_discounts
           then setcol df_clean "descuento" (fillna (Num 0) descuento)
           else df_clean, null_discounts)
     else Ok (df_clean, 0)) in
  (* rows with a null in a critical column are dropped *)
  let* nulls := any_null df_clean critical_columns in
  let null_critical := mask_sum nulls in
  let* df_clean :=
    (if 0 <? null_critical then dropna df_clean critical_columns
     else Ok df_clean) in
  (* 4. cantidad <= 0 *)
  let* cantidad := getcol df_clean "cantidad" in
  let* bad_qty := series_le cantidad (Some 0%Q) in
  let invalid_qty := mask_sum bad_qty in
  let* df_clean :=
    (if 0 <? invalid_qty then
       let* good_qty := series_gt cantidad (Some 0%Q) in
       Ok (df_select df_clean good_qty)
     else Ok df_clean) in
  (* precio_unitario <= 0 *)
  let* precio := getcol df_clean "precio_unitario" in
  let* bad_price := series_le precio (Some 0%Q) in
  let invalid_price := mask_sum bad_price in
  let* df_clean :=
    (if 0 <? invalid_price then
       let* good_price := series_gt precio (Some 0%Q) in
       Ok (df_select df_clean good_price)
     else Ok df_clean) in
  Ok (df_clean,
      (duplicates, null_discounts, null_critical, invalid_qty, invalid_price)).

(** The fences of [remove_outliers], [Q1 - 3 * IQR] and [Q3 + 3 * IQR], as
    the function computes them: in float64. *)
Definition outlier_bounds (s : list cell) : result (option Q * option Q) :=
  let* Q1 := quantile s 0.25 in
  let* Q3 := quantile s 0.75 in
  let IQR := float_sub Q3 Q1 in
  let lower_bound := float_sub Q1 (float_mul (Some 3%Q) IQR) in
  let upper_bound := float_add Q3 (float_mul (Some 3%Q) IQR) in
  Ok (lower_bound, upper_bound).

(** The local function [remove_outliers] (lines 109-119): the count uses
    [<] and [>], the filter uses [>=] and [<=]. *)
Definition remove_outliers (df : DataFrame) (column : string)
  : result (DataFrame * nat) :=
  let* s := getcol df column in
  let* (lower_bound, upper_bound) := outlier_bounds s in
  let* below := series_lt s lower_bound in
  let* above := series_gt s upper_bound in
  let outliers := mask_sum (mask_or below above) in
  let* not_below := series_ge s lower_bound in
  let* not_above := series_le s upper_bound in
  let df_filtered := df_select df (mask_and not_below not_above) in
  Ok (df_filtered, outliers).

(** Step 6: [df[col] = df[col].str.strip().str.title()] for the text
    columns that are present. *)
Fixpoint normalize_text (cols : list string) (df : DataFrame) : result DataFrame :=
  match cols with
  | [] => Ok df
  | col :: cols' =>
      if has_column df col then
        let* s := getcol df col in
        normalize_text cols' (setcol df col (str_strip_title s))
      else normalize_text cols' df
  end.

(** [clean_data] with its log.  The last log line divides by the number of
    rows received, which raises on a batch without rows. *)
Definition clean_data_logged (df : DataFrame) : result (DataFrame * clean_log) :=
  let initial_rows := len df in
  let* (df_clean, counts) := clean_before_outliers df in
  let '(duplicates, null_discounts, null_critical, invalid_qty, invalid_price) :=
    counts in
  (* 5. outliers of total_venta *)
  let* (df_clean, outliers_removed) :=
    (if has_column df_clean "total_venta"
     then remove_outliers df_clean "total_venta"
     else Ok (df_clean, 0)) in
  (* 6. text *)
  let* df_clean := normalize_text text_columns df_clean in
  let final_rows := len df_clean in
  if initial_rows =? 0 then Raise ZeroDivisionError
  else Ok (df_clean,
           {| initial_rows := initial_rows;
              duplicates := duplicates;
              null_discounts := null_discounts;
              null_critical := null_critical;
              invalid_qty := invalid_qty;
              invalid_price := invalid_price;
              outliers_removed := outliers_removed;
              final_rows := final_rows |}).

Definition clean_data (df : DataFrame) : result DataFrame :=
  let* (df_clean, _) := clean_data_logged df in
  Ok df_clean.

End Clean.

Definition group_keys : list string := ["fecha"; "producto"; "categoria"; "region"].

Definition agg_columns : list string :=
  ["cantidad"; "precio_unitario"; "descuento"; "total_venta"; "id"].

(** The [agg] dictionary of [aggregate_data] on one group, followed by
    [reset_index]: the key cells become columns again. *)
Definition agg_group (g : list cell * list row) : result row :=
  let '(k, rs) := g in
  let col c := map (fun r => cell_of r c) rs in
  let* cantidad := series_sum (col "cantidad") in
  let* precio_unitario := series_mean (col "precio_unitario") in
  let* descuento := series_mean (col "descuento") in
  let* total_venta := series_sum (col "total_venta") in
  let id := series_count (col "id") in
  Ok (make_row (group_keys ++ agg_columns)
        (k ++ [cantidad; precio_unitario; descuento; total_venta; id])).

(** [df[c] = df[c].round(d)] *)
Definition round_column (c : string) (d : nat) (df : DataFrame) : result DataFrame :=
  let* s := getcol df c in
  Ok (setcol df c (series_round d s)).

(** [aggregate_data] (lines 213-237).  The log line divides by [len(df)]. *)
Definition aggregate_data (df : DataFrame) : result DataFrame :=
  let* groups := groupby df group_keys in
  let* _ := check_columns df agg_columns in
  let* agg_rows := traverse agg_group groups in
  let df_aggregated :=
    {| columns := group_keys ++ agg_columns; rows := agg_rows |} in
  (* rename *)
  let df_aggregated := rename "cantidad" "cantidad_total" df_aggregated in
  let df_aggregated := rename "precio_unitario" "precio_promedio" df_aggregated in
  let df_aggregated := rename "descuento" "descuento_promedio" df_aggregated in
  let df_aggregated := rename "id" "num_transacciones" df_aggregated in
  (* round *)
  let* df_aggregated := round_column "precio_promedio" 2 df_aggregated in
  let* df_aggregated := round_column "descuento_promedio" 4 df_aggregated in
  let* df_aggregated := round_column "total_venta" 2 df_aggregated in
  if len df =? 0 then Raise ZeroDivisionError else Ok df_aggregated.

(** What the renamings and the roundings of [aggregate_data] do to one
    row of the grouped table. *)
Definition aggregated_row (r : row) : row :=
  let r := rename_row "cantidad" "cantidad_total" r in
  let r := rename_row "precio_unitario" "precio_promedio" r in
  let r := rename_row "descuento" "descuento_promedio" r in
  let r := rename_row "id" "num_transacciones" r in
  let r := <["precio_promedio" := round_cell 2 (cell_of r "precio_promedio")]> r in
  let r := <["descuento_promedio" := round_cell 4 (cell_of r "descuento_promedio")]> r in
  <["total_venta" := round_cell 2 (cell_of r "total_venta")]> r.

(** The rows of the batch [df] that belong to the group of the aggregated
    row [a]: those that agree with [a] on the four key columns. *)
Definition rows_of_group (df : DataFrame) (a : row) : list row :=
  List.filter (same_key group_keys (map (cell_of a) group_keys)) (rows df).

(** [df['total_venta'].sum()] *)
Definition total_venta_sum (df : DataFrame) : result cell :=
  let* s := getcol df "total_venta" in
  series_sum s.

(** [total < k] on a float; [None] is NaN, on which it is false. *)
Definition float_lt (total : option Q) (k : Q) : bool :=
  match total with
  | Some x => Qlt_bool x k
  | None => false
  end.

(** The local function [categorize_sale] of [transform_data]
    (lines 177-185). *)
Definition categorize_sale (total : option Q) : string :=
  if float_lt total 100 then "Pequeña"
  else if float_lt total 500 then "Mediana"
  else if float_lt total 1000 then "Grande"
  else "Premium".

(** [.apply(categorize_sale)] on one cell: comparing a text or a timestamp
    with a number is a [TypeError]. *)
Definition apply_categorize_sale (c : cell) : result cell :=
  match c with
  | Null => Ok (Str (categorize_sale None))
  | Num x => Ok (Str (categorize_sale (Some x)))
  | Str _ => Raise TypeError
  | Date _ => Raise TypeError
  end.

(** The columns [transform_data] adds, in the order it adds them. *)
Definition derived_columns : list string :=
  ["año"; "mes"; "dia"; "dia_semana"; "nombre_dia"; "trimestre";
   "ingreso_bruto"; "descuento_total"; "margen";
   "categoria_venta"; "tiene_descuento"; "venta_alta"].

Section TransformData.
Context `{Calendar} `{Float64}.

(** [df[target] = df['fecha'].dt.field] *)
Definition date_column (field : Z -> cell) (target : string) (df : DataFrame)
  : result DataFrame :=
  let* fecha := getcol df "fecha" in
  let* values := dt field fecha in
  Ok (setcol df target values).

(** [transform_data] (lines 159-197). *)
Definition transform_data (df : DataFrame) : result DataFrame :=
  let df_transformed := df in
  (* 1. the components of the date *)
  let* df_transformed :=
    date_column (fun t => Num (inject_Z (year_of t))) "año" df_transformed in
  let* df_transformed :=
    date_column (fun t => Num (inject_Z (month_of t))) "mes" df_transformed in
  let* df_transformed :=
    date_column (fun t => Num (inject_Z (day_of t))) "dia" df_transformed in
  let* df_transformed :=
    date_column (fun t => Num (inject_Z (dayofweek_of t))) "dia_semana"
      df_transformed in
  let* df_transformed :=
    date_column (fun t => Str (day_name_of t)) "nombre_dia" df_transformed in
  let* df_transformed :=
    date_column (fun t => Num (inject_Z (quarter_of t))) "trimestre"
      df_transformed in
  (* 2. derived metrics *)
  let* cantidad := getcol df_transformed "cantidad" in
  let* precio_unitario := getcol df_transformed "precio_unitario" in
  let* ingreso_bruto := series_arith float_mul cantidad precio_unitario in
  let df_transformed := setcol df_transformed "ingreso_bruto" ingreso_bruto in
  let* ingreso_bruto := getcol df_transformed "ingreso_bruto" in
  let* descuento := getcol df_transformed "descuento" in
  let* descuento_total := series_arith float_mul ingreso_bruto descuento in
  let df_transformed := setcol df_transformed "descuento_total" descuento_total in
  let* total_venta := getcol df_transformed "total_venta" in
  let* ingreso_bruto := getcol df_transformed "ingreso_bruto" in
  let* cost := series_scale 0.6 ingreso_bruto in
  let* margen := series_arith float_sub total_venta cost in
  let df_transformed := setcol df_transformed "margen" margen in
  (* 3. the category of the sale *)
  let* total_venta := getcol df_transformed "total_venta" in
  let* categoria_venta := traverse apply_categorize_sale total_venta in
  let df_transformed := setcol df_transformed "categoria_venta" categoria_venta in
  (* 4. flags *)
  let* descuento := getcol df_transformed "descuento" in
  let* tiene_descuento := series_gt descuento (Some 0%Q) in
  let df_transformed :=
    setcol df_transformed "tiene_descuento" (map bool_cell tiene_descuento) in
  let* total_venta := getcol df_transformed "total_venta" in
  let* middle := median total_venta in
  let* venta_alta := series_gt total_venta middle in
  let df_transformed :=
    setcol df_transformed "venta_alta" (map bool_cell venta_alta) in
  Ok df_transformed.

End TransformData.

End Transform.

(** ** The SQLite store, the CSV artifacts and the configuration *)

Module Store.

(** [config/db_config.py] and the [DATA_OUTPUT_PATH] variable. *)
Record config := mkConfig {
  table_source : string;
  table_target : string;
  data_output_path : string
}.

Definition default_config : config :=
  {| table_source := "sales_data";
     table_target := "sales_transformed";
     data_output_path := "data/output" |}.

(** The tables of the database (backups are tables too), the indexed
    columns of each table, and the CSV files by path.  A file holds the
    table that [pd.read_csv] finds in it. *)
Record world := mkWorld {
  tables : gmap string DataFrame;
  indexes : gmap string (gset string);
  files : gmap string DataFrame
}.

(** [db_config.table_exists] *)
Definition table_exists (w : world) (name : string) : bool :=
  bool_decide (is_Some (tables w !! name)).

Fixpoint ends_with_slash (s : string) : bool :=
  match s with
  | EmptyString => false
  | String a s' =>
      match s' with
      | EmptyString => Ascii.eqb a (Ascii.ascii_of_nat 47)
      | _ => ends_with_slash s'
      end
  end.

(** [os.path.join(a, b)] for a relative [b]. *)
Definition path_join (a b : string) : string :=
  match a with
  | EmptyString => b
  | _ => if ends_with_slash a then a +:+ b else a +:+ "/" +:+ b
  end.

Section CSV.
Context `{Scalars}.

(** [df.to_csv(path, index=False)]: a timestamp is written as its date, and
    read back as text. *)
Definition csv_cell (c : cell) : cell :=
  match c with
  | Date t => Str (strftime_ymd t)
  | _ => c
  end.

Definition to_csv (df : DataFrame) (path : string) (w : world) : world :=
  {| tables := tables w;
     indexes := indexes w;
     files := <[path := {| columns := columns df;
                           rows := map (fmap csv_cell) (rows df) |}]> (files w) |}.

End CSV.

(** [pd.read_csv(path)] *)
Definition read_csv (path : string) (w : world) : result DataFrame :=
  match files w !! path with
  | None => Raise FileNotFoundError
  | Some df =>
      match columns df with
      | [] => Raise EmptyDataError
      | _ => Ok df
      end
  end.

End Store.

Import Store.

(** ** scripts/extract_data.py *)

Module Extract.

Section Extract.
Context `{Scalars}.

(** [extract_data_from_db()] as [extract] calls it: the whole source table;
    the log line reads [df['fecha']]. *)
Definition extract_data_from_db (cfg : config) (w : world) : result DataFrame :=
  match tables w !! table_source cfg with
  | None => Raise OperationalError
  | Some df =>
      let* _ := getcol df "fecha" in
      Ok df
  end.

Definition required_columns : list string :=
  ["id"; "fecha"; "producto"; "cantidad"; "precio_unitario"; "total_venta"].

Definition numeric_columns : list string :=
  ["cantidad"; "precio_unitario"; "total_venta"].

(** Check 4 of [validate_extracted_data] on one column (lines 130-137). *)
Definition check_numeric (st : DataFrame * list bool) (col : string)
  : DataFrame * list bool :=
  let '(df, validations) := st in
  if has_column df col then
    match getcol df col with
    | Ok s =>
        if negb (is_numeric_dtype s) then
          match to_numeric errors_coerce s with
          | Ok s' => (setcol df col s', validations ++ [true])
          | Raise _ => (df, validations ++ [false])
          end
        else (df, validations)
    | Raise _ => (df, validations)
    end
  else (df, validations).

(** [validate_extracted_data]: the batch as the call leaves it, and the
    list [validations].  The function assigns to the columns of the batch it
    is given. *)
Definition validate_extracted_data_checks (df : DataFrame)
  : DataFrame * list bool :=
  let validations := [] in
  (* 1. not empty *)
  let validations := validations ++ [negb (empty df)] in
  (* 2. required columns *)
  let missing_columns :=
    List.filter (fun col => negb (has_column df col)) required_columns in
  let validations :=
    validations ++ [match missing_columns with [] => true | _ => false end] in
  (* 3. fecha to datetime, inside try/except *)
  let '(df, validations) :=
    match (let* fecha := getcol df "fecha" in to_datetime fecha) with
    | Ok fecha => (setcol df "fecha" fecha, validations ++ [true])
    | Raise _ => (df, validations ++ [false])
    end in
  (* 4. numeric columns *)
  foldl check_numeric (df, validations) numeric_columns.

Definition validate_extracted_data (df : DataFrame) : bool * DataFrame :=
  let '(df', validations) := validate_extracted_data_checks df in
  (forallb id validations, df').

(** [save_extracted_data] *)
Definition save_extracted_data (df : DataFrame) (output_path filename : string)
  (w : world) : world :=
  to_csv df (path_join output_path filename) w.

(** The part of [get_extraction_summary] that can raise. *)
Record extraction_summary := mkExtractionSummary {
  total_records : nat;
  total_columns : nat;
  total_sales : cell;
  null_values : nat
}.

Definition get_extraction_summary (df : DataFrame) : result extraction_summary :=
  let* _ := getcol df "fecha" in
  let* total_venta := getcol df "total_venta" in
  let* total_sales := series_sum total_venta in
  Ok {| total_records := len df;
        total_columns := length (columns df);
        total_sales := total_sales;
        null_values :=
          sum_list (map (fun r =>
            length (List.filter (fun c => is_null (cell_of r c)) (columns df)))
            (rows df)) |}.

(** [extract()] *)
Definition extract (cfg : config) (w : world) : result string * world :=
  match extract_data_from_db cfg w with
  | Raise e => (Raise e, w)
  | Ok df =>
      let '(valid, df) := validate_extracted_data df in
      if negb valid then (Raise ValueError, w)
      else
        let output_path := data_output_path cfg in
        let filename := "extracted_data.csv" in
        let w := save_extracted_data df output_path filename w in
        match get_extraction_summary df with
        | Raise e => (Raise e, w)
        | Ok _ => (Ok (path_join output_path filename), w)
        end
  end.

End Extract.

End Extract.

(** ** scripts/load_data.py *)

Module Load.

Section Load.
Context `{Scalars}.

(** [load_transformed_data()] *)
Definition load_transformed_data (cfg : config) (w : world) : result DataFrame :=
  read_csv (path_join (data_output_path cfg) "transformed_data.csv") w.

Definition required_columns : list string :=
  ["fecha"; "producto"; "categoria"; "region";
   "cantidad_total"; "precio_promedio"; "total_venta"; "num_transacciones"].

Definition critical_columns : list string := ["fecha"; "producto"; "total_venta"].

(** The columns check 4 of [validate_data_before_load] looks at. *)
Definition numeric_columns : list string :=
  ["cantidad_total"; "precio_promedio"; "total_venta"; "num_transacciones"].

(** [df[cols].isnull().sum().sum()] *)
Definition null_count (df : DataFrame) (cols : list string) : result nat :=
  let* _ := check_columns df cols in
  Ok (sum_list (map (fun r =>
        length (List.filter (fun c => is_null (cell_of r c)) cols)) (rows df))).

(** Check 4 on one column (lines 105-110). *)
Definition check_non_negative (df : DataFrame) (validations : list bool)
  (col : string) : result (list bool) :=
  if has_column df col then
    let* s := getcol df col in
    let* negative := series_lt s (Some 0%Q) in
    if mask_any negative then Ok (validations ++ [false])
    else Ok (validations ++ [true])
  else Ok validations.

Fixpoint check_all_non_negative (df : DataFrame) (validations : list bool)
  (cols : list string) : result (list bool) :=
  match cols with
  | [] => Ok validations
  | col :: cols' =>
      let* validations := check_non_negative df validations col in
      check_all_non_negative df validations cols'
  end.

(** The list [validations] of [validate_data_before_load] on a batch that is
    not empty. *)
Definition validate_data_before_load_checks (df : DataFrame) : result (list bool) :=
  let validations := [true] in
  (* 2. required columns *)
  let missing_columns :=
    List.filter (fun col => negb (has_column df col)) required_columns in
  let validations :=
    validations ++ [match missing_columns with [] => true | _ => false end] in
  (* 3. nulls in the critical columns *)
  let* null_counts := null_count df critical_columns in
  let validations := validations ++ [negb (0 <? null_counts)] in
  (* 4. negative values *)
  let* validations := check_all_non_negative df validations numeric_columns in
  (* 5. duplicates: a warning *)
  let* _ := duplicated_subset df Transform.group_keys in
  Ok validations.

(** [validate_data_before_load]: the verdict, and the batch as the call
    leaves it; the function only reads the batch. *)
Definition validate_data_before_load (df : DataFrame) : result bool * DataFrame :=
  if empty df then (Ok false, df)
  else
    (let* validations := validate_data_before_load_checks df in
     Ok (forallb id validations), df).

Definition prepared_numeric_columns : list string :=
  ["cantidad_total"; "precio_promedio"; "descuento_promedio";
   "total_venta"; "num_transacciones"].

Fixpoint coerce_numeric (cols : list string) (df : DataFrame) : result DataFrame :=
  match cols with
  | [] => Ok df
  | col :: cols' =>
      if has_column df col then
        let* s := getcol df col in
        let* s := to_numeric errors_coerce s in
        coerce_numeric cols' (setcol df col s)
      else coerce_numeric cols' df
  end.

(** Order of [sort_values]: by value, nulls last. *)
Definition cell_leb_na_last (a b : cell) : bool :=
  match a, b with
  | Null, Null => true
  | Null, _ => false
  | _, Null => true
  | _, _ => match cell_compare a b with Gt => false | _ => true end
  end.

(** [df.sort_values(by)] *)
Definition sort_values_by (df : DataFrame) (by_col : string) : result DataFrame :=
  let* _ := getcol df by_col in
  Ok {| columns := columns df;
        rows := merge_sort
                  (fun r1 r2 => Is_true (cell_leb_na_last (cell_of r1 by_col)
                                                          (cell_of r2 by_col)))
                  (rows df) |}.

(** [prepare_data_for_load] *)
Definition prepare_data_for_load (df : DataFrame) : result DataFrame :=
  let df_prepared := df in
  (* 1. fecha as text *)
  let* df_prepared :=
    (if has_column df_prepared "fecha" then
       let* fecha := getcol df_prepared "fecha" in
       let* fecha := to_datetime fecha in
       Ok (setcol df_prepared "fecha" (strftime fecha))
     else Ok df_prepared) in
  (* 2. numeric types *)
  let* df_prepared := coerce_numeric prepared_numeric_columns df_prepared in
  (* 3. index-like columns *)
  let columns_to_drop := ["Unnamed: 0"; "index"] in
  let df_prepared :=
    drop_columns (List.filter (has_column df_prepared) columns_to_drop)
      df_prepared in
  (* 4. by date *)
  sort_values_by df_prepared "fecha".

Inductive if_exists_mode := if_exists_fail | if_exists_replace | if_exists_append.

(** [df.to_sql(name, conn, if_exists=mode, index=False)].  Replacing drops
    the table, and with it the indexes on it. *)
Definition to_sql (df : DataFrame) (name : string) (mode : if_exists_mode)
  (w : world) : result unit * world :=
  let create :=
    {| tables := <[name := df]> (tables w);
       indexes := delete name (indexes w);
       files := files w |} in
  match tables w !! name with
  | None => (Ok tt, create)
  | Some old =>
      match mode with
      | if_exists_fail => (Raise ValueError, w)
      | if_exists_replace => (Ok tt, create)
      | if_exists_append =>
          if forallb (has_column old) (columns df) then
            (Ok tt,
             {| tables := <[name := {| columns := columns old;
                                       rows := rows old ++ rows df |}]> (tables w);
                indexes := indexes w;
                files := files w |})
          else (Raise OperationalError, w)
      end
  end.

(** [load_to_database]: returns [len(df)]. *)
Definition load_to_database (cfg : config) (df : DataFrame)
  (table_name : option string) (if_exists : if_exists_mode) (w : world)
  : result nat * world :=
  let table_name := default (table_target cfg) table_name in
  match to_sql df table_name if_exists w with
  | (Raise e, w) => (Raise e, w)
  | (Ok _, w) => (Ok (len df), w)
  end.

Definition indexed_columns : list string :=
  ["fecha"; "producto"; "categoria"; "region"].

Fixpoint index_while (t : DataFrame) (cols : list string) : gset string :=
  match cols with
  | [] => ∅
  | c :: cols' => if has_column t c then {[c]} ∪ index_while t cols' else ∅
  end.

(** [create_indexes()]: [CREATE INDEX IF NOT EXISTS] column after column;
    the first failure ends the loop and is only logged. *)
Definition create_indexes (cfg : config) (w : world) : world :=
  let table_name := table_target cfg in
  match tables w !! table_name with
  | None => w
  | Some t =>
      {| tables := tables w;
         indexes := <[table_name := default ∅ (indexes w !! table_name)
                                      ∪ index_while t indexed_columns]> (indexes w);
         files := files w |}
  end.

(** [backup_existing_data()]: [stamp] is the clock read as
    [%Y%m%d_%H%M%S].  [CREATE TABLE ... AS SELECT] fails when the name is
    taken; the failure is only logged. *)
Definition backup_existing_data (cfg : config) (stamp : string) (w : world) : world :=
  let table_name := table_target cfg in
  match tables w !! table_name with
  | None => w
  | Some t =>
      let backup_table := table_name +:+ "_backup_" +:+ stamp in
      match tables w !! backup_table with
      | Some _ => w
      | None =>
          {| tables := <[backup_table := t]> (tables w);
             indexes := indexes w;
             files := files w |}
      end
  end.

(** The counts of [generate_load_statistics]; its queries read the columns
    [total_venta], [fecha], [producto] and [region] of the table. *)
Record load_statistics := mkLoadStatistics {
  total_records : nat;
  total_sales : Q
}.

Definition sql_sum (s : list cell) : Q :=
  sumQ (omap (fun c => match c with Num x => Some x | _ => None end) s).

(** What the queries give on the table [t]. *)
Definition table_statistics (t : DataFrame) : result load_statistics :=
  if forallb (has_column t) ["total_venta"; "fecha"; "producto"; "region"]
  then Ok {| total_records := len t;
             total_sales :=
               sql_sum (map (fun r => cell_of r "total_venta") (rows t)) |}
  else Raise OperationalError.

Definition generate_load_statistics (cfg : config) (w : world)
  : result load_statistics :=
  match tables w !! table_target cfg with
  | None => Raise OperationalError
  | Some t => table_statistics t
  end.

(** [load()] *)
Definition load (cfg : config) (stamp : string) (w : world)
  : result load_statistics * world :=
  match load_transformed_data cfg w with
  | Raise e => (Raise e, w)
  | Ok df =>
      match validate_data_before_load df with
      | (Raise e, _) => (Raise e, w)
      | (Ok valid, df) =>
          if negb valid then (Raise ValueError, w)
          else
            match prepare_data_for_load df with
            | Raise e => (Raise e, w)
            | Ok df_prepared =>
                let w := backup_existing_data cfg stamp w in
                match load_to_database cfg df_prepared None if_exists_replace w with
                | (Raise e, w) => (Raise e, w)
                | (Ok records_loaded, w) =>
                    let w := create_indexes cfg w in
                    match generate_load_statistics cfg w with
                    | Raise e => (Raise e, w)
                    | Ok statistics => (Ok statistics, w)
                    end
                end
            end
      end
  end.

End Load.

End Load.

(** ** scripts/transform_data.py: the stage around the pure functions *)

Module TransformStage.

Section TransformStage.
Context `{Scalars} `{Calendar} `{Float64}.

(** [load_extracted_data()] *)
Definition load_extracted_data (cfg : config) (w : world) : result DataFrame :=
  read_csv (path_join (data_output_path cfg) "extracted_data.csv") w.

(** [save_transformed_data] *)
Definition save_transformed_data (df : DataFrame) (output_path filename : string)
  (w : world) : world :=
  to_csv df (path_join output_path filename) w.

(** The summary of [get_transformation_summary], without its time stamp. *)
Record transformation_summary := mkTransformationSummary {
  original_records : nat;
  transformed_records : nat;
  reduction_percentage : Q;
  original_columns : nat;
  transformed_columns : nat;
  total_sales : cell
}.

(** [get_transformation_summary]: the percentage divides by
    [len(df_original)]. *)
Definition get_transformation_summary (df_original df_transformed : DataFrame)
  : result transformation_summary :=
  if len df_original =? 0 then Raise ZeroDivisionError
  else
    let* total_venta := getcol df_transformed "total_venta" in
    let* total_sales := series_sum total_venta in
    Ok {| original_records := len df_original;
          transformed_records := len df_transformed;
          reduction_percentage :=
            (inject_Z (Z.of_nat (len df_original) - Z.of_nat (len df_transformed))
             / count_Q (len df_original) * 100)%Q;
          original_columns := length (columns df_original);
          transformed_columns := length (columns df_transformed);
          total_sales := total_sales |}.

(** Steps 1 to 4 of [transform()]: nothing is written before the four
    batches exist. *)
Definition transform_batches (cfg : config) (w : world)
  : result (DataFrame * DataFrame * DataFrame) :=
  let* df_original := load_extracted_data cfg w in
  let* df_clean := Transform.clean_data df_original in
  let* df_transformed_full := Transform.transform_data df_clean in
  let* df_aggregated := Transform.aggregate_data df_clean in
  Ok (df_original, df_transformed_full, df_aggregated).

(** [transform()] *)
Definition transform (cfg : config) (w : world) : result string * world :=
  match transform_batches cfg w with
  | Raise e => (Raise e, w)
  | Ok (df_original, df_transformed_full, df_aggregated) =>
      let output_path := data_output_path cfg in
      let w := save_transformed_data df_aggregated output_path
                 "transformed_data.csv" w in
      let w := save_transformed_data df_transformed_full output_path
                 "transformed_data_full.csv" w in
      match get_transformation_summary df_original df_aggregated with
      | Raise e => (Raise e, w)
      | Ok _ => (Ok (path_join output_path "transformed_data.csv"), w)
      end
  end.

End TransformStage.

End TransformStage.

(** ** IEEE 754 binary64

    The float64 operations the batches below are run with: rounding to the
    nearest value of the format, ties to the even significand, with the
    subnormal values and the overflow to the infinities.  The sign of zero
    is not kept. *)

Module Binary64.

(** 2 ^ e *)
Definition pow2 (e : Z) : Q :=
  if (0 <=? e)%Z then inject_Z (2 ^ e) else (1 # Z.to_pos (2 ^ (- e)))%Q.

(** 2 ^ 1024, which stands for the infinity. *)
Definition infinity : Q := pow2 1024.

(** The binary exponent of a positive rational: 2 ^ e <= x < 2 ^ (e + 1). *)
Definition exponent (x : Q) : Z :=
  let e := (Z.log2 (Qnum x) - Z.log2 (Zpos (Qden x)))%Z in
  if Qle_bool (pow2 e) x then e else (e - 1)%Z.

(** The float nearest to a positive rational, ties to the even significand;
    the infinity from 2 ^ 1024 - 2 ^ 970 on. *)
Definition round_positive (x : Q) : Q :=
  let e := Z.max (exponent x) (-1022) in
  if (1023 <? e)%Z then infinity
  else
    let ulp := pow2 (e - 52) in
    Qred (inject_Z (rint (x / ulp)) * ulp).

Definition round (x : Q) : Q :=
  match Qnum x with
  | Z0 => 0
  | Zpos _ => round_positive x
  | Zneg _ => - round_positive (- x)
  end.

Definition is_inf (x : Q) : bool := Qle_bool infinity (Qabs x).

Definition sign (x : Q) : Z := Z.sgn (Qnum x).

Definition inf_of_sign (s : Z) : option Q :=
  match s with
  | Z0 => None
  | Zpos _ => Some infinity
  | Zneg _ => Some (- infinity)%Q
  end.

Definition add (a b : option Q) : option Q :=
  match a, b with
  | Some x, Some y =>
      if is_inf x then
        if is_inf y then (if (sign x =? sign y)%Z then inf_of_sign (sign x) else None)
        else inf_of_sign (sign x)
      else if is_inf y then inf_of_sign (sign y)
      else Some (round (x + y))
  | _, _ => None
  end.

Definition opp (a : option Q) : option Q := option_map Qopp a.

Definition sub (a b : option Q) : option Q := add a (opp b).

Definition mul (a b : option Q) : option Q :=
  match a, b with
  | Some x, Some y =>
      if is_inf x || is_inf y then inf_of_sign (sign x * sign y)
      else Some (round (x * y))
  | _, _ => None
  end.

Definition div (a b : option Q) : option Q :=
  match a, b with
  | Some x, Some y =>
      if is_inf x then (if is_inf y then None
                        else inf_of_sign (sign x * (if (sign y =? 0)%Z then 1 else sign y)))
      else if is_inf y then Some 0%Q
      else if (sign y =? 0)%Z then inf_of_sign (sign x)
      else Some (round (x / y))
  | _, _ => None
  end.

(** numpy's [_lerp]: [a + (b - a) * t], and [b - (b - a) * (1 - t)] from
    [t = 0.5] on. *)
Definition numpy_lerp (a b t : Q) : option Q :=
  let diff_b_a := sub (Some b) (Some a) in
  if Qle_bool (1 # 2) t
  then sub (Some b) (mul diff_b_a (sub (Some 1%Q) (Some t)))
  else add (Some a) (mul diff_b_a (Some t)).

#[global] Instance float64 : Float64 :=
  {| float_add := add;
     float_sub := sub;
     float_mul := mul;
     float_div := div;
     lerp := numpy_lerp |}.

End Binary64.

(** ** A concrete scalar parser: ISO dates and plain decimals

    Enough of pandas' parsers to run the scripts on concrete batches: a
    date is [YYYY-MM-DD], held as the integer yyyymmdd; a number is an
    optional sign, digits, and an optional fraction. *)

Module Iso.

Definition digit (a : Ascii.ascii) : option Z :=
  let n := Ascii.nat_of_ascii a in
  if (48 <=? n) && (n <=? 57) then Some (Z.of_nat (n - 48)) else None.

(** Value and number of digits of a run of digits. *)
Fixpoint digits (acc : Z) (count : nat) (s : string) : option (Z * nat) :=
  match s with
  | EmptyString => Some (acc, count)
  | String a s' =>
      match digit a with
      | Some d => digits (10 * acc + d) (S count) s'
      | None => None
      end
  end.

Definition natural (s : string) : option (Z * nat) :=
  match s with
  | EmptyString => None
  | _ => digits 0 0 s
  end.

Fixpoint split_at (sep : Ascii.ascii) (s : string) : string * option string :=
  match s with
  | EmptyString => (EmptyString, None)
  | String a s' =>
      if Ascii.eqb a sep then (EmptyString, Some s')
      else let '(l, r) := split_at sep s' in (String a l, r)
  end.

Definition is_leap (y : Z) : bool :=
  ((y mod 4 =? 0) && negb (y mod 100 =? 0) || (y mod 400 =? 0))%Z.

Definition days_in_month (y m : Z) : Z :=
  if (m =? 2)%Z then (if is_leap y then 29 else 28)%Z
  else if ((m =? 4) || (m =? 6) || (m =? 9) || (m =? 11))%Z then 30%Z
  else 31%Z.

Definition parse_date (s : string) : option Z :=
  let '(ys, rest) := split_at (Ascii.ascii_of_nat 45) s in
  match natural ys, rest with
  | Some (y, 4), Some rest =>
      let '(ms, ds) := split_at (Ascii.ascii_of_nat 45) rest in
      match natural ms, ds with
      | Some (m, 2), Some ds =>
          match natural ds with
          | Some (d, 2) =>
              if ((1 <=? m) && (m <=? 12) && (1 <=? d) && (d <=? days_in_month y m))%Z
              then Some (y * 10000 + m * 100 + d)%Z
              else None
          | _ => None
          end
      | _, _ => None
      end
  | _, _ => None
  end.

Definition digit_char (d : Z) : Ascii.ascii :=
  Ascii.ascii_of_nat (48 + Z.to_nat (d mod 10)).

Definition two_digits (n : Z) : string :=
  String (digit_char (n / 10)) (String (digit_char n) EmptyString).

Definition format_date (t : Z) : string :=
  two_digits (t / 1000000) +:+ two_digits (t / 10000) +:+ "-"
    +:+ two_digits (t / 100) +:+ "-" +:+ two_digits t.

Definition unsigned_decimal (s : string) : option Q :=
  let '(int_part, frac_part) := split_at (Ascii.ascii_of_nat 46) s in
  match natural int_part, frac_part with
  | Some (i, _), None => Some (inject_Z i)
  | Some (i, _), Some fs =>
      match natural fs with
      | Some (f, n) =>
          Some (inject_Z i + inject_Z f / inject_Z (10 ^ Z.of_nat n))%Q
      | None => None
      end
  | None, _ => None
  end.

Definition parse_decimal (s : string) : option Q :=
  match s with
  | String a s' =>
      if Ascii.eqb a (Ascii.ascii_of_nat 45)
      then option_map Qopp (unsigned_decimal s')
      else unsigned_decimal s
  | EmptyString => None
  end.

#[global] Instance scalars : Scalars :=
  {| parse_datetime := parse_date;
     datetime_of_number := fun _ => None;
     parse_numeric := parse_decimal;
     strftime_ymd := format_date |}.

(** The days from 1970-01-01 to the day [d] of month [m] of year [y]. *)
Definition days_from_civil (y m d : Z) : Z :=
  let y' := (if m <=? 2 then y - 1 else y)%Z in
  let era := (y' / 400)%Z in
  let yoe := (y' - era * 400)%Z in
  let mp := ((m + 9) mod 12)%Z in
  let doy := ((153 * mp + 2) / 5 + d - 1)%Z in
  let doe := (yoe * 365 + yoe / 4 - yoe / 100 + doy)%Z in
  (era * 146097 + doe - 719468)%Z.

Definition date_year (t : Z) : Z := (t / 10000)%Z.
Definition date_month (t : Z) : Z := ((t / 100) mod 100)%Z.
Definition date_day (t : Z) : Z := (t mod 100)%Z.

(** 1970-01-01 was a Thursday. *)
Definition date_dayofweek (t : Z) : Z :=
  ((days_from_civil (date_year t) (date_month t) (date_day t) + 3) mod 7)%Z.

#[global] Instance calendar : Calendar :=
  {| year_of := date_year;
     month_of := date_month;
     day_of := date_day;
     dayofweek_of := date_dayofweek |}.

End Iso.

(** ** Concrete batches *)

Module Batches.

Definition sales_columns : list string :=
  ["id"; "fecha"; "producto"; "categoria"; "region";
   "cantidad"; "precio_unitario"; "descuento"; "total_venta"].

(** A row of the source table [sales_data]. *)
Definition sale (id fecha producto categoria region
                 cantidad precio_unitario descuento total_venta : cell) : row :=
  make_row sales_columns
    [id; fecha; producto; categoria; region;
     cantidad; precio_unitario; descuento; total_venta].

(** What is read of a batch: the cells of the given columns, row by row. *)
Definition view (cols : list string) (df : DataFrame) : list (list cell) :=
  map (fun r => map (cell_of r) cols) (rows df).

(** The outlier scenario: total_venta 100, 105 and 1000000. *)
Definition outlier_batch : DataFrame :=
  {| columns := sales_columns;
     rows :=
       [sale (Num 1) (Date 20230101) (Str "Laptop") (Str "Computadoras") (Str "Norte")
             (Num 1) (Num 100) (Num 0) (Num 100);
        sale (Num 2) (Date 20230102) (Str "Mouse") (Str "Accesorios") (Str "Sur")
             (Num 1) (Num 105) (Num 0) (Num 105);
        sale (Num 3) (Date 20230103) (Str "Teclado") (Str "Accesorios") (Str "Este")
             (Num 1) (Num 1000000) (Num 0) (Num 1000000)] |}.

(** Five sales whose [total_venta] are the floats nearest to 0.5, 0.9, 1.7,
    3.7 and 12.100000000000001. *)
Definition float_fence_batch : DataFrame :=
  {| columns := sales_columns;
     rows :=
       [sale (Num 1) (Date 20230101) (Str "Laptop") (Str "Computadoras") (Str "Norte")
             (Num 1) (Num 1) (Num 0) (Num (Binary64.round 0.5));
        sale (Num 2) (Date 20230102) (Str "Mouse") (Str "Accesorios") (Str "Sur")
             (Num 1) (Num 1) (Num 0) (Num (Binary64.round 0.9));
        sale (Num 3) (Date 20230103) (Str "Teclado") (Str "Accesorios") (Str "Este")
             (Num 1) (Num 2) (Num 0) (Num (Binary64.round 1.7));
        sale (Num 4) (Date 20230104) (Str "Monitor") (Str "Computadoras") (Str "Oeste")
             (Num 1) (Num 4) (Num 0) (Num (Binary64.round 3.7));
        sale (Num 5) (Date 20230105) (Str "Webcam") (Str "Accesorios") (Str "Centro")
             (Num 1) (Num 12) (Num 0) (Num (Binary64.round 12.100000000000001))] |}.

(** Two sales, the second without a total_venta. *)
Definition null_total_batch : DataFrame :=
  {| columns := sales_columns;
     rows :=
       [sale (Num 1) (Date 20230101) (Str "Laptop") (Str "Computadoras") (Str "Norte")
             (Num 1) (Num 100) (Num 0) (Num 100);
        sale (Num 2) (Date 20230102) (Str "Mouse") (Str "Accesorios") (Str "Sur")
             (Num 2) (Num 25) (Num 0) Null] |}.

(** Two sales of 100 each, the second without a region. *)
Definition null_region_batch : DataFrame :=
  {| columns := sales_columns;
     rows :=
       [sale (Num 1) (Date 20230101) (Str "Laptop") (Str "Computadoras") (Str "Norte")
             (Num 1) (Num 100) (Num 0) (Num 100);
        sale (Num 2) (Date 20230102) (Str "Mouse") (Str "Accesorios") Null
             (Num 4) (Num 25) (Num 0) (Num 100)] |}.

(** Two sales in one group, the second without an id. *)
Definition null_id_batch : DataFrame :=
  {| columns := sales_columns;
     rows :=
       [sale (Num 1) (Date 20230101) (Str "Laptop") (Str "Computadoras") (Str "Norte")
             (Num 1) (Num 100) (Num 0) (Num 100);
        sale Null (Date 20230101) (Str "Laptop") (Str "Computadoras") (Str "Norte")
             (Num 2) (Num 100) (Num 0) (Num 200)] |}.

(** What [aggregate_data] makes of it. *)
Definition null_id_aggregated : DataFrame :=
  value_or null_id_batch (Transform.aggregate_data null_id_batch).

(** What [clean_data] returns on a batch (the batch itself when it raises),
    with its log, and what [aggregate_data] makes of a batch. *)
Definition cleaned_logged (df : DataFrame) : DataFrame * Transform.clean_log :=
  value_or (df, Transform.mkCleanLog 0 0 0 0 0 0 0 0)
    (Transform.clean_data_logged df).

Definition cleaned (df : DataFrame) : DataFrame :=
  value_or df (Transform.clean_data df).

Definition aggregated (df : DataFrame) : DataFrame :=
  value_or df (Transform.aggregate_data df).

Definition first_row (df : DataFrame) : row := default ∅ (head (rows df)).

(** The row of a batch at a position (the empty row past the end). *)
Definition nth_row (i : nat) (df : DataFrame) : row := default ∅ (rows df !! i).

Definition null_id_group : row :=
  default ∅ (head (rows null_id_aggregated)).

(** The source table with a text that is no number in [cantidad]. *)
Definition text_quantity_batch : DataFrame :=
  {| columns := sales_columns;
     rows :=
       [sale (Num 1) (Str "2023-01-01") (Str "Laptop") (Str "Computadoras") (Str "Norte")
             (Str "abc") (Num 1000) (Num 0) (Num 1000)] |}.

(** The batch of [tests/test_extract.py]. *)
Definition extract_columns : list string :=
  ["id"; "fecha"; "producto"; "cantidad"; "precio_unitario"; "total_venta"].

Definition sample_dataframe : DataFrame :=
  {| columns := extract_columns;
     rows :=
       [make_row extract_columns
          [Num 1; Str "2023-01-01"; Str "Laptop"; Num 1; Num 1000; Num 1000];
        make_row extract_columns
          [Num 2; Str "2023-01-02"; Str "Mouse"; Num 2; Num 25; Num 50];
        make_row extract_columns
          [Num 3; Str "2023-01-03"; Str "Teclado"; Num 3; Num 75; Num 225]] |}.

Definition aggregated_columns : list string :=
  ["fecha"; "producto"; "categoria"; "region"; "cantidad_total";
   "precio_promedio"; "descuento_promedio"; "total_venta"; "num_transacciones"].

(** The batch of [tests/test_load.py], with a choice of the second
    [cantidad_total] and [descuento_promedio]. *)
Definition transformed_dataframe (cantidad_2 descuento_2 : Q) : DataFrame :=
  {| columns := aggregated_columns;
     rows :=
       [make_row aggregated_columns
          [Str "2023-01-01"; Str "Laptop"; Str "Computadoras"; Str "Norte";
           Num 10; Num 1000; Num 0.1; Num 9000; Num 5];
        make_row aggregated_columns
          [Str "2023-01-02"; Str "Mouse"; Str "Accesorios"; Str "Sur";
           Num cantidad_2; Num 25; Num descuento_2; Num 475; Num 10];
        make_row aggregated_columns
          [Str "2023-01-03"; Str "Teclado"; Str "Accesorios"; Str "Este";
           Num 30; Num 75; Num 0; Num 2250; Num 15]] |}.

(** The batches of [tests/test_transform.py]: the fixture, a duplicated
    row, and quantities 1, 0, -1. *)
Definition transform_fixture : DataFrame :=
  {| columns := sales_columns;
     rows :=
       [sale (Num 1) (Date 20230101) (Str "Laptop") (Str "Computadoras") (Str "Norte")
             (Num 1) (Num 1000) (Num 0.1) (Num 900);
        sale (Num 2) (Date 20230102) (Str "Mouse") (Str "Accesorios") (Str "Sur")
             (Num 2) (Num 25) (Num 0) (Num 50);
        sale (Num 3) (Date 20230103) (Str "Teclado") (Str "Accesorios") (Str "Este")
             (Num 3) (Num 75) Null (Num 225);
        sale (Num 4) (Date 20230104) (Str "Monitor") (Str "Computadoras") (Str "Oeste")
             (Num 1) (Num 500) (Num 0.05) (Num 475);
        sale (Num 5) (Date 20230105) (Str "Webcam") (Str "Accesorios") (Str "Centro")
             (Num 2) (Num 100) (Num 0) (Num 200)] |}.

Definition duplicate_batch : DataFrame :=
  {| columns := sales_columns;
     rows :=
       [sale (Num 1) (Date 20230101) (Str "Laptop") (Str "Computadoras") (Str "Norte")
             (Num 1) (Num 1000) (Num 0.1) (Num 900);
        sale (Num 1) (Date 20230101) (Str "Laptop") (Str "Computadoras") (Str "Norte")
             (Num 1) (Num 1000) (Num 0.1) (Num 900);
        sale (Num 2) (Date 20230102) (Str "Mouse") (Str "Accesorios") (Str "Sur")
             (Num 2) (Num 25) (Num 0) (Num 50)] |}.

Definition invalid_quantity_batch : DataFrame :=
  {| columns := sales_columns;
     rows :=
       [sale (Num 1) (Date 20230101) (Str "Laptop") (Str "Computadoras") (Str "Norte")
             (Num 1) (Num 1000) (Num 0.1) (Num 900);
        sale (Num 2) (Date 20230102) (Str "Mouse") (Str "Accesorios") (Str "Sur")
             (Num 0) (Num 25) (Num 0) (Num 50);
        sale (Num 3) (Date 20230103) (Str "Teclado") (Str "Accesorios") (Str "Este")
             (Num (-1)) (Num 75) (Num 0) (Num 225)] |}.

(** The source table without rows. *)
Definition no_rows_batch : DataFrame :=
  {| columns := sales_columns; rows := [] |}.

(** The source table of [test_validate_extracted_data_missing_columns]. *)
Definition id_fecha_batch : DataFrame :=
  {| columns := ["id"; "fecha"];
     rows :=
       [make_row ["id"; "fecha"] [Num 1; Str "2023-01-01"];
        make_row ["id"; "fecha"] [Num 2; Str "2023-01-02"];
        make_row ["id"; "fecha"] [Num 3; Str "2023-01-03"]] |}.

(** The aggregated batch without its [producto] column. *)
Definition no_producto_batch : DataFrame :=
  drop_columns ["producto"] (transformed_dataframe 20 0.05).

(** What [prepare_data_for_load] returns on a batch (the batch itself when
    it raises). *)
Definition prepared (df : DataFrame) : DataFrame :=
  value_or df (Load.prepare_data_for_load df).

(** The aggregated batch as [to_csv] with its default [index=True] would
    have left it: with the column [Unnamed: 0]. *)
Definition indexed_batch : DataFrame :=
  setcol (transformed_dataframe 20 0.05) "Unnamed: 0" [Num 0; Num 1; Num 2].

(** An aggregated batch read with its [cantidad_total] as text, the second
    of which is no number. *)
Definition text_total_batch : DataFrame :=
  {| columns := aggregated_columns;
     rows :=
       [make_row aggregated_columns
          [Str "2023-01-01"; Str "Laptop"; Str "Computadoras"; Str "Norte";
           Str "10"; Num 1000; Num 0.1; Num 9000; Num 5];
        make_row aggregated_columns
          [Str "2023-01-02"; Str "Mouse"; Str "Accesorios"; Str "Sur";
           Str "many"; Num 25; Num 0.05; Num 475; Num 10]] |}.

Definition empty_world : world :=
  {| tables := ∅; indexes := ∅; files := ∅ |}.

(** A store whose source table is [df]. *)
Definition source_world (df : DataFrame) : world :=
  {| tables := {[ table_source default_config := df ]};
     indexes := ∅;
     files := ∅ |}.

(** A store whose aggregated artifact is [df]. *)
Definition artifact_world (df : DataFrame) : world :=
  {| tables := ∅;
     indexes := ∅;
     files := {[ path_join (data_output_path default_config) "transformed_data.csv" := df ]} |}.

End Batches.

Import Batches.

(** * Properties *)

Example parse_date_2023 : Iso.parse_date "2023-01-15" = Some 20230115%Z.
Proof. reflexivity. Qed.

Example parse_date_bad : Iso.parse_date "2023-02-30" = None.
Proof. reflexivity. Qed.

Example format_date_2023 : Iso.format_date 20230115 = "2023-01-15".
Proof. reflexivity. Qed.

Example parse_decimal_abc : Iso.parse_decimal "abc" = None.
Proof. reflexivity. Qed.

Example parse_decimal_neg : (Iso.parse_decimal "-12.50" = Some (- (12 + 50 / 100)))%Q.
Proof. reflexivity. Qed.

Example title_strip : title (strip "  lAPTOP pro 15  ") = "Laptop Pro 15".
Proof. reflexivity. Qed.

(** ** The error monad and the list primitives *)

(** Membership in a list that is written out. *)
Ltac in_list := repeat first [apply list_elem_of_here | apply list_elem_of_further].
Ltac not_in_list :=
  rewrite ?not_elem_of_cons; split_and?; try discriminate; apply not_elem_of_nil.

Lemma bind_ok {A B} (m : result A) (k : A -> result B) (b : B) :
  Py.bind m k = Ok b -> exists a, m = Ok a /\ k a = Ok b.
Proof. destruct m as [a|e]; simpl; [eauto | discriminate]. Qed.

(** Inverts the successful [let*] of hypothesis [Hb], which is left as the
    hypothesis on the continuation. *)
Ltac bind_inv_in Hb pat Ha :=
  match type of Hb with
  | Py.bind ?m ?k = Ok ?b =>
      let Hk := fresh "Hk" in
      destruct (bind_ok m k b Hb) as (pat & Ha & Hk); clear Hb;
      cbv beta iota zeta in Hk; rename Hk into Hb
  end.

Tactic Notation "bind_inv" hyp(Hb) "as" simple_intropattern(pat) ident(Ha) :=
  bind_inv_in Hb pat Ha.

Lemma traverse_length {A B} (f : A -> result B) (l : list A) (l' : list B) :
  traverse f l = Ok l' -> length l' = length l.
Proof.
  revert l'. induction l as [|x l IH]; intros l' Ht; simpl in Ht.
  - by inversion Ht.
  - destruct (f x) as [y|]; simpl in Ht; [|discriminate].
    destruct (traverse f l) as [ys|]; simpl in Ht; [|discriminate].
    inversion Ht; subst. simpl. by rewrite (IH ys).
Qed.

Lemma traverse_lookup {A B} (f : A -> result B) (l : list A) (l' : list B) i y :
  traverse f l = Ok l' -> l' !! i = Some y ->
  exists x, l !! i = Some x /\ f x = Ok y.
Proof.
  revert l' i. induction l as [|x l IH]; intros l' i Ht Hy; simpl in Ht.
  - inversion Ht; subst. by rewrite lookup_nil in Hy.
  - destruct (f x) as [y0|] eqn:Hf; simpl in Ht; [|discriminate].
    destruct (traverse f l) as [ys|] eqn:Hys; simpl in Ht; [|discriminate].
    inversion Ht; subst. destruct i as [|i]; simpl in *.
    + inversion Hy; subst. eauto.
    + eapply IH; eauto.
Qed.

Lemma traverse_all_ok {A B} (f : A -> result B) (l : list A) :
  (forall x, x ∈ l -> exists y, f x = Ok y) -> exists l', traverse f l = Ok l'.
Proof.
  induction l as [|x l IH]; intros Hall; cbn [traverse]; [by eexists|].
  destruct (Hall x) as [y Hy]; [apply list_elem_of_here|].
  destruct IH as [l' Hl'].
  { intros z Hz. apply Hall. by apply list_elem_of_further. }
  rewrite Hy, Hl'. simpl. by eexists.
Qed.

Lemma select_elem {A} (mask : list bool) (l : list A) (x : A) :
  x ∈ select mask l ->
  exists i, mask !! i = Some true /\ l !! i = Some x.
Proof.
  revert l. induction mask as [|b mask IH]; intros l Hx; simpl in Hx.
  - by apply elem_of_nil in Hx.
  - destruct l as [|y l]; [by apply elem_of_nil in Hx|].
    destruct b.
    + apply elem_of_cons in Hx as [->|Hx].
      * exists 0. by simpl.
      * destruct (IH _ Hx) as (i & Hm & Hl). by exists (S i).
    + destruct (IH _ Hx) as (i & Hm & Hl). by exists (S i).
Qed.

Lemma select_length_le {A} (mask : list bool) (l : list A) :
  length (select mask l) <= length l.
Proof.
  revert l. induction mask as [|b mask IH]; intros [|x l]; simpl; try lia.
  destruct b; simpl; specialize (IH l); lia.
Qed.

(** ** Frame facts of the DataFrame primitives *)

Lemma has_column_setcol (df : DataFrame) (c : string) (vals : list cell) :
  has_column df c = true -> columns (setcol df c vals) = columns df.
Proof. intros Hc. unfold setcol. simpl. by rewrite Hc. Qed.

Lemma getcol_ok (df : DataFrame) (c : string) (s : list cell) :
  getcol df c = Ok s ->
  has_column df c = true /\ s = map (fun r => cell_of r c) (rows df).
Proof.
  unfold getcol. destruct (has_column df c); [|discriminate].
  intros Hs. by inversion Hs.
Qed.

Lemma cell_of_insert_ne (r : row) (c c' : string) (v : cell) :
  c <> c' -> cell_of (<[c := v]> r) c' = cell_of r c'.
Proof. intros Hne. unfold cell_of. by rewrite lookup_insert_ne. Qed.

Lemma cell_of_insert_eq (r : row) (c : string) (v : cell) :
  cell_of (<[c := v]> r) c = v.
Proof. unfold cell_of. by rewrite lookup_insert_eq. Qed.

(** A row of [df[c] = vals] is a row of [df] with one cell replaced. *)
Lemma setcol_elem (df : DataFrame) (c : string) (vals : list cell) (r' : row) :
  r' ∈ rows (setcol df c vals) ->
  exists r v, r ∈ rows df /\ v ∈ vals /\ r' = <[c := v]> r.
Proof.
  unfold setcol. simpl. intros Hr.
  apply elem_of_lookup_zip_with in Hr as (i & r & v & -> & Hr & Hv).
  exists r, v. split_and!; [by eapply list_elem_of_lookup_2 | by eapply list_elem_of_lookup_2 | done].
Qed.

Lemma df_select_elem (df : DataFrame) (mask : list bool) (r : row) :
  r ∈ rows (df_select df mask) -> r ∈ rows df.
Proof.
  unfold df_select. simpl. intros Hr.
  destruct (select_elem _ _ _ Hr) as (i & _ & Hl).
  by eapply list_elem_of_lookup_2.
Qed.

(** ** The cleaning stage *)

Section CleanFacts.
Context `{Scalars} `{Float64}.

Lemma dropna_columns (df d : DataFrame) (cols : list string) :
  dropna df cols = Ok d -> columns d = columns df.
Proof.
  unfold dropna. intros Hd. bind_inv Hd as m Hm. by inversion Hd.
Qed.

Lemma clean_before_outliers_columns (df pre : DataFrame) counts :
  Transform.clean_before_outliers df = Ok (pre, counts) ->
  columns pre = columns df.
Proof.
  unfold Transform.clean_before_outliers. intros Hc.
  bind_inv Hc as fecha0 Hfecha0. bind_inv Hc as fecha Hfecha.
  apply getcol_ok in Hfecha0 as [Hhas _].
  set (df1 := setcol df "fecha" fecha) in *.
  assert (Hc1 : columns df1 = columns df) by by apply has_column_setcol.
  set (df2 := if 0 <? mask_sum (duplicated df1)
              then drop_duplicates df1 else df1) in *.
  assert (Hc2 : columns df2 = columns df).
  { unfold df2. by destruct (0 <? _). }
  clearbody df2. bind_inv Hc as [df3 nd] Hdesc.
  assert (Hc3 : columns df3 = columns df).
  { destruct (has_column df2 "descuento") eqn:Hd.
    - bind_inv Hdesc as s Hs. inversion Hdesc; subst.
      destruct (0 <? _); [|done]. by rewrite has_column_setcol.
    - by inversion Hdesc; subst. }
  clear Hdesc. bind_inv Hc as nulls Hnulls. bind_inv Hc as df4 Hdrop.
  assert (Hc4 : columns df4 = columns df).
  { destruct (0 <? mask_sum nulls).
    - apply dropna_columns in Hdrop. congruence.
    - by inversion Hdrop; subst. }
  clear Hdrop. bind_inv Hc as cantidad Hcantidad.
  bind_inv Hc as bad_qty Hbad_qty. bind_inv Hc as df5 Hqty.
  assert (Hc5 : columns df5 = columns df).
  { destruct (0 <? mask_sum bad_qty).
    - bind_inv Hqty as good Hgood. by inversion Hqty; subst.
    - by inversion Hqty; subst. }
  clear Hqty. bind_inv Hc as precio Hprecio.
  bind_inv Hc as bad_price Hbad_price. bind_inv Hc as df6 Hprice.
  inversion Hc; subst; clear Hc.
  destruct (0 <? mask_sum bad_price).
  - bind_inv Hprice as good Hgood. by inversion Hprice; subst.
  - by inversion Hprice; subst.
Qed.

Lemma cell_cmp_true (op : Q -> Q -> bool) (k : option Q) (c : cell) :
  cell_cmp op k c = Ok true ->
  exists v y, c = Num v /\ k = Some y /\ op v y = true.
Proof.
  destruct c as [|v| |]; simpl; try discriminate.
  destruct k as [y|]; [|discriminate].
  intros Hop. inversion Hop. eauto.
Qed.

(** The fences, from the two quartiles. *)
Lemma outlier_bounds_ok (s : list cell) (lower upper : option Q) :
  Transform.outlier_bounds s = Ok (lower, upper) ->
  exists Q1 Q3,
    quantile s 0.25 = Ok Q1 /\ quantile s 0.75 = Ok Q3 /\
    lower = float_sub Q1 (float_mul (Some 3%Q) (float_sub Q3 Q1)) /\
    upper = float_add Q3 (float_mul (Some 3%Q) (float_sub Q3 Q1)).
Proof.
  unfold Transform.outlier_bounds. intros Hb.
  bind_inv Hb as q1 Hq1. bind_inv Hb as q3 Hq3.
  inversion Hb; subst. by exists q1, q3.
Qed.

(** Every row that [remove_outliers] keeps holds a number between the two
    fences computed on the batch it was given, which are numbers. *)
Lemma remove_outliers_bound (df d : DataFrame) (column : string) (n : nat) :
  Transform.remove_outliers df column = Ok (d, n) ->
  exists s lower upper,
    getcol df column = Ok s /\
    Transform.outlier_bounds s = Ok (lower, upper) /\
    forall r, r ∈ rows d ->
      exists v lo hi,
        lower = Some lo /\ upper = Some hi /\
        cell_of r column = Num v /\ (lo <= v)%Q /\ (v <= hi)%Q.
Proof.
  unfold Transform.remove_outliers. intros Hr.
  bind_inv Hr as s Hs. bind_inv Hr as [lower upper] Hbounds.
  bind_inv Hr as below Hbelow. bind_inv Hr as above Habove.
  bind_inv Hr as ge Hge. bind_inv Hr as le Hle.
  inversion Hr; subst; clear Hr.
  exists s, lower, upper. split_and!; [done..|]. intros r Hin. simpl in Hin.
  destruct (select_elem _ _ _ Hin) as (i & Hm & Hrow).
  unfold mask_and in Hm. apply lookup_zip_with_Some in Hm
    as (b1 & b2 & Hb & Hb1 & Hb2).
  symmetry in Hb. apply andb_true_iff in Hb as [-> ->].
  destruct (traverse_lookup _ _ _ _ _ Hge Hb1) as (x & Hx & Hcmp1).
  destruct (traverse_lookup _ _ _ _ _ Hle Hb2) as (x' & Hx' & Hcmp2).
  rewrite Hx in Hx'. inversion Hx'; subst x'.
  apply getcol_ok in Hs as [_ ->].
  rewrite list_lookup_fmap, Hrow in Hx. simpl in Hx. inversion Hx; subst x.
  destruct (cell_cmp_true _ _ _ Hcmp1) as (v & lo & Hv & -> & Hlo).
  destruct (cell_cmp_true _ _ _ Hcmp2) as (v' & hi & Hv' & -> & Hhi).
  rewrite Hv in Hv'. inversion Hv'; subst v'.
  exists v, lo, hi. split_and!; try done.
  - unfold Qge_bool in Hlo. by apply Qle_bool_iff in Hlo.
  - by apply Qle_bool_iff in Hhi.
Qed.

(** Text normalisation touches the text columns only. *)
Lemma normalize_text_elem (cols : list string) (df d : DataFrame) (r' : row) :
  Transform.normalize_text cols df = Ok d ->
  r' ∈ rows d ->
  exists r, r ∈ rows df /\ forall c, c ∉ cols -> cell_of r' c = cell_of r c.
Proof.
  revert df. induction cols as [|col cols IH]; intros df Hn Hin; simpl in Hn.
  - inversion Hn; subst. eauto.
  - destruct (has_column df col).
    + bind_inv Hn as s Hs. destruct (IH _ Hn Hin) as (r1 & Hr1 & Hsame).
      apply setcol_elem in Hr1 as (r & v & Hr & _ & ->).
      exists r. split; [done|]. intros c Hc.
      apply not_elem_of_cons in Hc as [Hne Hc].
      rewrite (Hsame c Hc). by apply cell_of_insert_ne.
    + destruct (IH _ Hn Hin) as (r & Hr & Hsame).
      exists r. split; [done|]. intros c Hc.
      apply not_elem_of_cons in Hc as [_ Hc]. by apply Hsame.
Qed.

End CleanFacts.

(** C2. Outlier bound: when the batch has a [total_venta] column, every
    row that [clean_data] returns holds a [total_venta] between
    [Q1 - 3 * IQR] and [Q3 + 3 * IQR], where Q1 and Q3 are the quartiles of
    [total_venta] over the batch as steps 1 to 4 of the function leave it
    (after the duplicate, null, quantity and price steps, before the outlier
    filter), [IQR = Q3 - Q1], and the two fences are the floats the function
    computes, each operation rounded as float64 rounds it: the statement
    holds for every float arithmetic. *)
Theorem clean_data_outlier_bound `{Scalars} `{Float64} (df cleaned : DataFrame) :
  has_column df "total_venta" = true ->
  Transform.clean_data df = Ok cleaned ->
  exists pre counts s Q1 Q3,
    Transform.clean_before_outliers df = Ok (pre, counts) /\
    getcol pre "total_venta" = Ok s /\
    quantile s 0.25 = Ok Q1 /\ quantile s 0.75 = Ok Q3 /\
    forall r, r ∈ rows cleaned ->
      exists v lower upper,
        float_sub Q1 (float_mul (Some 3%Q) (float_sub Q3 Q1)) = Some lower /\
        float_add Q3 (float_mul (Some 3%Q) (float_sub Q3 Q1)) = Some upper /\
        cell_of r "total_venta" = Num v /\
        (lower <= v)%Q /\ (v <= upper)%Q.
Proof.
  intros Hcol Hclean. unfold Transform.clean_data in Hclean.
  bind_inv Hclean as [d log] Hlogged. inversion Hclean; subst d; clear Hclean.
  unfold Transform.clean_data_logged in Hlogged.
  bind_inv Hlogged as [pre counts] Hpre.
  destruct counts as [[[[n1 n2] n3] n4] n5].
  bind_inv Hlogged as [filtered n6] Hout.
  bind_inv Hlogged as normalized Hnorm.
  destruct (len df =? 0); [discriminate|].
  inversion Hlogged; subst; clear Hlogged.
  assert (Hpre_col : has_column pre "total_venta" = true).
  { unfold has_column in *.
    by rewrite (clean_before_outliers_columns _ _ _ Hpre). }
  rewrite Hpre_col in Hout.
  destruct (remove_outliers_bound _ _ _ _ Hout)
    as (s & lower & upper & Hs & Hbounds & Hbound).
  destruct (outlier_bounds_ok _ _ _ Hbounds) as (Q1 & Q3 & HQ1 & HQ3 & Hlo & Hhi).
  exists pre, (n1, n2, n3, n4, n5), s, Q1, Q3. split_and!; [done..|].
  intros r Hr.
  destruct (normalize_text_elem _ _ _ _ Hnorm Hr) as (r0 & Hr0 & Hsame).
  destruct (Hbound r0 Hr0) as (v & lo & hi & Elo & Ehi & Hv & Hle & Hge).
  exists v, lo, hi. split_and!; try done; [congruence..|].
  rewrite Hsame; [done|]. unfold Transform.text_columns.
  rewrite !not_elem_of_cons. split_and!; try discriminate.
  apply not_elem_of_nil.
Qed.

Lemma clean_data_outlier_bound_witness :
  exists pre counts s Q1 Q3,
    Transform.clean_before_outliers float_fence_batch = Ok (pre, counts) /\
    getcol pre "total_venta" = Ok s /\
    quantile s 0.25 = Ok Q1 /\ quantile s 0.75 = Ok Q3 /\
    forall r, r ∈ rows float_fence_batch ->
      exists v lower upper,
        float_sub Q1 (float_mul (Some 3%Q) (float_sub Q3 Q1)) = Some lower /\
        float_add Q3 (float_mul (Some 3%Q) (float_sub Q3 Q1)) = Some upper /\
        cell_of r "total_venta" = Num v /\
        (lower <= v)%Q /\ (v <= upper)%Q.
Proof.
  apply (clean_data_outlier_bound float_fence_batch float_fence_batch).
  - vm_compute. reflexivity.
  - vm_compute. reflexivity.
Defined.

(** The batch of the witness: the fifth sale is kept, its [total_venta] is
    the upper fence the function computes, 3.7 + 8.4 rounded to the nearest
    float, and is above the same fence computed without rounding. *)
Example float_fence_kept :
  Transform.clean_data_logged float_fence_batch
    = Ok (float_fence_batch, Transform.mkCleanLog 5 0 0 0 0 0 0 5) /\
  Transform.outlier_bounds
    (map (fun r => cell_of r "total_venta") (rows float_fence_batch))
    = Ok (Some (Binary64.round (-7.5)), Some (Binary64.round 12.100000000000001)) /\
  (Binary64.round 3.7 + 3 * (Binary64.round 3.7 - Binary64.round 0.9)
     < Binary64.round 12.100000000000001)%Q.
Proof. split_and!; vm_compute; reflexivity. Qed.

(** ** The outlier scenario *)

(** C6, as stated, fails: on the three rows with [total_venta] 100, 105
    and 1000000 the cleaning stage does not end with the two rows 100 and
    105 and one outlier removed. *)
Lemma outlier_scenario_not_dropped :
  ~ (exists cleaned log,
       Transform.clean_data_logged outlier_batch = Ok (cleaned, log) /\
       view ["total_venta"] cleaned = [[Num 100]; [Num 105]] /\
       Transform.outliers_removed log = 1).
Proof.
  intros (cleaned & log & Hclean & Hview & Hcount).
  assert (Hrun : Transform.clean_data_logged outlier_batch =
                 Ok (outlier_batch,
                     Transform.mkCleanLog 3 0 0 0 0 0 0 3))
    by (vm_compute; reflexivity).
  rewrite Hrun in Hclean. inversion Hclean; subst. discriminate Hcount.
Qed.

(** C6, amended.  On every batch whose [total_venta] column reads 100, 105,
    1000000, the quartiles by linear interpolation are Q1 = 102.5 and
    Q3 = 500052.5, so IQR = 499950 and the fences are -1499747.5 and
    1999902.5; [remove_outliers] counts no outlier and returns the batch
    with its three rows. *)
Theorem outlier_scenario_keeps_all (df : DataFrame) :
  getcol df "total_venta" = Ok [Num 100; Num 105; Num 1000000] ->
  (exists Q1 Q3 lower upper,
     quantile [Num 100; Num 105; Num 1000000] 0.25 = Ok (Some Q1) /\
     quantile [Num 100; Num 105; Num 1000000] 0.75 = Ok (Some Q3) /\
     Transform.outlier_bounds [Num 100; Num 105; Num 1000000]
       = Ok (Some lower, Some upper) /\
     (Q1 == 102.5)%Q /\ (Q3 == 500052.5)%Q /\ (Q3 - Q1 == 499950)%Q /\
     (lower == -1499747.5)%Q /\ (upper == 1999902.5)%Q) /\
  Transform.remove_outliers df "total_venta" = Ok (df, 0).
Proof.
  intros Hcol. split.
  - eexists _, _, _, _. split_and!; try (vm_compute; reflexivity).
  - unfold Transform.remove_outliers. rewrite Hcol.
    apply getcol_ok in Hcol as [_ Hrows].
    destruct df as [cols rs]. simpl in Hrows.
    destruct rs as [|r1 [|r2 [|r3 [|r4 rs]]]]; try discriminate.
    vm_compute. reflexivity.
Qed.

Lemma outlier_scenario_keeps_all_witness :
  (exists Q1 Q3 lower upper,
     quantile [Num 100; Num 105; Num 1000000] 0.25 = Ok (Some Q1) /\
     quantile [Num 100; Num 105; Num 1000000] 0.75 = Ok (Some Q3) /\
     Transform.outlier_bounds [Num 100; Num 105; Num 1000000]
       = Ok (Some lower, Some upper) /\
     (Q1 == 102.5)%Q /\ (Q3 == 500052.5)%Q /\ (Q3 - Q1 == 499950)%Q /\
     (lower == -1499747.5)%Q /\ (upper == 1999902.5)%Q) /\
  Transform.remove_outliers outlier_batch "total_venta" = Ok (outlier_batch, 0).
Proof.
  apply (outlier_scenario_keeps_all outlier_batch).
  vm_compute. reflexivity.
Defined.

(** ** Conservation of the cleaning stage *)

(** C1 fails on the code.  A sale without a [total_venta] passes steps 1 to
    4, is dropped by the filter of [remove_outliers] (a NaN is neither
    [>= lower] nor [<= upper]) and is not counted by it (a NaN is neither
    [< lower] nor [> upper]): one row is left of two and every step
    reports zero. *)
Theorem clean_data_null_total_venta_uncounted :
  exists cleaned log,
    Transform.clean_data_logged null_total_batch = Ok (cleaned, log) /\
    len null_total_batch = 2 /\
    len cleaned = 1 /\
    Transform.duplicates log = 0 /\
    Transform.null_critical log = 0 /\
    Transform.invalid_qty log = 0 /\
    Transform.invalid_price log = 0 /\
    Transform.outliers_removed log = 0 /\
    len cleaned + Transform.duplicates log + Transform.null_critical log
      + Transform.invalid_qty log + Transform.invalid_price log
      + Transform.outliers_removed log <> len null_total_batch.
Proof.
  exists (fst (cleaned_logged null_total_batch)),
         (snd (cleaned_logged null_total_batch)).
  split_and!; try (vm_compute; reflexivity). vm_compute. discriminate.
Qed.

(** ** Aggregation on concrete batches *)

(** C3 fails on the code.  [groupby] drops the rows with a null key: of two
    cleaned sales of 100 each, the one without a region is in no group, the
    aggregated batch has one row with [total_venta] 100, and the two sums
    differ by 100. *)
Theorem aggregate_data_null_region_lost :
  exists cleaned aggregated sum_cleaned sum_aggregated,
    Transform.clean_data null_region_batch = Ok cleaned /\
    Transform.aggregate_data cleaned = Ok aggregated /\
    len cleaned = 2 /\
    len aggregated = 1 /\
    Transform.total_venta_sum cleaned = Ok (Num sum_cleaned) /\
    Transform.total_venta_sum aggregated = Ok (Num sum_aggregated) /\
    (sum_cleaned == 200)%Q /\
    (sum_aggregated == 100)%Q /\
    ~ (Qabs (sum_aggregated - sum_cleaned) <= 0.01 * count_Q (len aggregated))%Q.
Proof.
  exists (cleaned null_region_batch), (aggregated (cleaned null_region_batch)),
         200%Q, (10000 # 100)%Q.
  split_and!; try (vm_compute; reflexivity).
  intros Hle. apply Qle_bool_iff in Hle. vm_compute in Hle. discriminate.
Qed.

(** C10 fails on the code.  Two cleaned sales share one key and the second
    has no id: the aggregated batch has one row, its group has two rows, and
    its [num_transacciones], the [count] of the ids, is 1. *)
Theorem num_transacciones_null_id :
  exists cleaned aggregated a,
    Transform.clean_data null_id_batch = Ok cleaned /\
    Transform.aggregate_data cleaned = Ok aggregated /\
    view ["id"] cleaned = [[Num 1]; [Null]] /\
    rows aggregated = [a] /\
    length (Transform.rows_of_group cleaned a) = 2 /\
    cell_of a "num_transacciones" = Num 1 /\
    ~ (1 == count_Q (length (Transform.rows_of_group cleaned a)))%Q.
Proof.
  exists (cleaned null_id_batch), (aggregated (cleaned null_id_batch)),
         (first_row (aggregated (cleaned null_id_batch))).
  split_and!; try (vm_compute; reflexivity).
  vm_compute. discriminate.
Qed.

(** ** Extraction-side validation on concrete batches *)

(** C8 fails on the code.  The source table holds the text "abc" in
    [cantidad]; [pd.to_numeric(errors='coerce')] turns it into NaN without
    raising, the check is recorded as [True], the four recorded checks are
    all true and the validation passes. *)
Theorem validate_extracted_data_text_quantity :
  exists df',
    Extract.validate_extracted_data_checks text_quantity_batch
      = (df', [true; true; true; true]) /\
    Extract.validate_extracted_data text_quantity_batch = (true, df') /\
    view ["cantidad"] text_quantity_batch = [[Str "abc"]] /\
    parse_numeric "abc" = None /\
    view ["cantidad"] df' = [[Null]].
Proof.
  eexists. split; [vm_compute; reflexivity|].
  split_and!; vm_compute; reflexivity.
Qed.

(** ** What the validators do to the batch they are given *)

Lemma cell_of_lookup_eq (r r' : row) (c : string) :
  r' !! c = r !! c -> cell_of r' c = cell_of r c.
Proof. unfold cell_of. by intros ->. Qed.

(** Assigning to a column its cell-wise conversion sets, in every row, the
    cell of the column to the image of the cell that was there. *)
Lemma setcol_traverse (c : string) (f : cell -> result cell)
  (rs : list row) (s' : list cell) :
  traverse f (map (fun r => cell_of r c) rs) = Ok s' ->
  Forall2 (fun r r' => exists v, f (cell_of r c) = Ok v /\ r' = <[c := v]> r)
    rs (zip_with (fun r v => <[c := v]> r) rs s').
Proof.
  revert s'. induction rs as [|r rs IH]; intros s' Ht; simpl in Ht.
  - inversion Ht; subst. constructor.
  - bind_inv Ht as v Hv. bind_inv Ht as vs Hvs.
    inversion Ht; subst. simpl. constructor; [|by apply IH].
    eauto.
Qed.

Lemma Forall2_diag {A} (P : A -> A -> Prop) (l : list A) :
  (forall x, P x x) -> Forall2 P l l.
Proof. intros HP. apply Forall_Forall2_diag, Forall_forall. intros x _. apply HP. Qed.

Lemma Forall2_compose {A B C} (P : A -> B -> Prop) (Q : B -> C -> Prop)
  (l : list A) (k : list B) (m : list C) :
  Forall2 P l k -> Forall2 Q k m ->
  Forall2 (fun x z => exists y, P x y /\ Q y z) l m.
Proof.
  intros HP. revert m. induction HP as [|x y l k Hxy HP IH]; intros m HQ.
  - inversion HQ. constructor.
  - inversion HQ as [|y' z k' m' Hyz HQ']; subst.
    constructor; [by exists y | by apply IH].
Qed.

(** A column reads the same in two batches with the same labels whose rows
    agree on it. *)
Lemma getcol_agree (df df' : DataFrame) (c : string) :
  columns df' = columns df ->
  Forall2 (fun r r' => r' !! c = r !! c) (rows df) (rows df') ->
  getcol df' c = getcol df c.
Proof.
  intros Hc Hr. unfold getcol, has_column. rewrite Hc.
  destruct (bool_decide (c ∈ columns df)); [|done]. f_equal.
  induction Hr as [|r r' rs rs' Hrr Hr IH]; [done|]. simpl.
  by rewrite (cell_of_lookup_eq _ _ _ Hrr), IH.
Qed.

Section ValidatorFrame.
Context `{Scalars}.

(** [validate_data_before_load] only reads the batch. *)
Lemma validate_data_before_load_frame (df : DataFrame) :
  snd (Load.validate_data_before_load df) = df.
Proof. unfold Load.validate_data_before_load. by destruct (empty df). Qed.

(** With [errors='coerce'], [pd.to_numeric] returns on every series. *)
Lemma to_numeric_coerce_ok (s : list cell) :
  exists s', to_numeric errors_coerce s = Ok s'.
Proof.
  apply traverse_all_ok. intros c _. unfold to_numeric_cell.
  destruct c as [|x|t|d]; try by eexists.
  destruct (parse_numeric t); by eexists.
Qed.

(** What one step of check 4 leaves of each row: the row itself when the
    column is missing or of numeric dtype, and otherwise the row with the
    cell of the column set to its [errors='coerce'] conversion. *)
Lemma check_numeric_rows (df df' : DataFrame) (v v' : list bool) (col : string) :
  Extract.check_numeric (df, v) col = (df', v') ->
  columns df' = columns df /\
  Forall2
    (fun r r' =>
       match getcol df col with
       | Ok s =>
           if is_numeric_dtype s then r' = r
           else exists x, to_numeric_cell errors_coerce (cell_of r col) = Ok x /\
                          r' = <[col := x]> r
       | Raise _ => r' = r
       end) (rows df) (rows df').
Proof.
  unfold Extract.check_numeric.
  destruct (has_column df col) eqn:Hcol.
  2:{ intros Heq; inversion Heq; subst. split; [done|].
      unfold getcol. rewrite Hcol. by apply Forall2_diag. }
  destruct (getcol df col) as [s|] eqn:Hs.
  2:{ intros Heq; inversion Heq; subst. split; [done|by apply Forall2_diag]. }
  destruct (is_numeric_dtype s); simpl.
  { intros Heq; inversion Heq; subst. split; [done|by apply Forall2_diag]. }
  destruct (to_numeric_coerce_ok s) as [s' Hs']. rewrite Hs'.
  intros Heq; inversion Heq; subst. split.
  - by apply has_column_setcol.
  - apply getcol_ok in Hs as [_ ->]. simpl. by apply setcol_traverse.
Qed.

(** What check 3 leaves of each row: the row with its [fecha] set to its
    [pd.to_datetime] conversion when the conversion of the column succeeds,
    and the row itself when it raises. *)
Lemma to_datetime_rows (df df' : DataFrame) (v v' : list bool) :
  match (let* fecha := getcol df "fecha" in to_datetime fecha) with
  | Ok fecha => (setcol df "fecha" fecha, v ++ [true])
  | Raise _ => (df, v ++ [false])
  end = (df', v') ->
  columns df' = columns df /\
  Forall2
    (fun r r' =>
       match (let* fecha := getcol df "fecha" in to_datetime fecha) with
       | Ok _ => exists t, to_datetime_cell (cell_of r "fecha") = Ok t /\
                           r' = <["fecha" := t]> r
       | Raise _ => r' = r
       end) (rows df) (rows df').
Proof.
  destruct (getcol df "fecha") as [s|] eqn:Hs; simpl.
  2:{ intros Heq; inversion Heq; subst. split; [done|by apply Forall2_diag]. }
  destruct (to_datetime s) as [s'|] eqn:Hs'.
  2:{ intros Heq; inversion Heq; subst. split; [done|by apply Forall2_diag]. }
  intros Heq; inversion Heq; subst.
  apply getcol_ok in Hs as [Hcol ->]. split.
  - by apply has_column_setcol.
  - simpl. by apply setcol_traverse.
Qed.

(** Both steps leave the other columns of every row as they were. *)
Lemma check_numeric_other (df df' : DataFrame) (v v' : list bool) (col c : string) :
  Extract.check_numeric (df, v) col = (df', v') -> c <> col ->
  Forall2 (fun r r' => r' !! c = r !! c) (rows df) (rows df').
Proof.
  intros Hstep Hne. apply check_numeric_rows in Hstep as [_ Hr].
  eapply Forall2_impl; [exact Hr|]. intros r r' Hrr. simpl in Hrr.
  destruct (getcol df col) as [s|]; [|by subst].
  destruct (is_numeric_dtype s); [by subst|].
  destruct Hrr as (x & _ & ->). by rewrite lookup_insert_ne.
Qed.

Lemma to_datetime_other (df df' : DataFrame) (v v' : list bool) (c : string) :
  match (let* fecha := getcol df "fecha" in to_datetime fecha) with
  | Ok fecha => (setcol df "fecha" fecha, v ++ [true])
  | Raise _ => (df, v ++ [false])
  end = (df', v') -> c <> "fecha" ->
  Forall2 (fun r r' => r' !! c = r !! c) (rows df) (rows df').
Proof.
  intros Hstep Hne. apply to_datetime_rows in Hstep as [_ Hr].
  eapply Forall2_impl; [exact Hr|]. intros r r' Hrr. simpl in Hrr.
  destruct (let* fecha := getcol df "fecha" in to_datetime fecha); [|by subst].
  destruct Hrr as (x & _ & ->). by rewrite lookup_insert_ne.
Qed.

End ValidatorFrame.

(** C9, as stated, fails: [validate_extracted_data] leaves the batch of
    [tests/test_extract.py] with its [fecha] texts replaced by timestamps. *)
Lemma validate_extracted_data_converts_fecha :
  snd (Extract.validate_extracted_data sample_dataframe) <> sample_dataframe /\
  view ["fecha"] sample_dataframe
    = [[Str "2023-01-01"]; [Str "2023-01-02"]; [Str "2023-01-03"]] /\
  view ["fecha"] (snd (Extract.validate_extracted_data sample_dataframe))
    = [[Date 20230101]; [Date 20230102]; [Date 20230103]].
Proof.
  split_and!; [|vm_compute; reflexivity..].
  intros Heq. apply (f_equal (view ["fecha"])) in Heq.
  vm_compute in Heq. discriminate.
Qed.

(** C9, amended.  [validate_data_before_load] leaves the batch as it
    received it.  [validate_extracted_data] keeps the column labels and the
    number and order of the rows, and leaves every cell outside [fecha],
    [cantidad], [precio_unitario] and [total_venta] as it was.  When
    [pd.to_datetime] succeeds on the [fecha] column, every [fecha] cell is
    replaced by its conversion; when it raises (or the column is missing),
    [fecha] is left as it was.  Each of [cantidad], [precio_unitario] and
    [total_venta] that is present and not of numeric dtype has every cell
    replaced by its [pd.to_numeric(errors='coerce')] conversion; a column
    that is missing or of numeric dtype is left as it was. *)
Theorem validators_frame `{Scalars} (df : DataFrame) :
  snd (Load.validate_data_before_load df) = df /\
  columns (snd (Extract.validate_extracted_data df)) = columns df /\
  length (rows (snd (Extract.validate_extracted_data df))) = length (rows df) /\
  Forall2
    (fun r r' =>
       (forall c, c ∉ ["fecha"; "cantidad"; "precio_unitario"; "total_venta"] ->
                  r' !! c = r !! c) /\
       match (let* fecha := getcol df "fecha" in to_datetime fecha) with
       | Ok _ => exists t, to_datetime_cell (cell_of r "fecha") = Ok t /\
                           r' !! "fecha" = Some t
       | Raise _ => r' !! "fecha" = r !! "fecha"
       end /\
       (forall c, c ∈ Extract.numeric_columns ->
          match getcol df c with
          | Ok s =>
              if is_numeric_dtype s then r' !! c = r !! c
              else exists x, to_numeric_cell errors_coerce (cell_of r c) = Ok x /\
                             r' !! c = Some x
          | Raise _ => r' !! c = r !! c
          end))
    (rows df) (rows (snd (Extract.validate_extracted_data df))).
Proof.
  split; [apply validate_data_before_load_frame|].
  unfold Extract.validate_extracted_data, Extract.validate_extracted_data_checks.
  cbv zeta.
  destruct (match (let* fecha := getcol df "fecha" in to_datetime fecha) with
            | Ok fecha => (setcol df "fecha" fecha, _)
            | Raise _ => _ end) as [df1 v1] eqn:H1.
  unfold Extract.numeric_columns. cbn [foldl].
  destruct (Extract.check_numeric (df1, v1) "cantidad") as [df2 v2] eqn:H2.
  destruct (Extract.check_numeric (df2, v2) "precio_unitario") as [df3 v3] eqn:H3.
  destruct (Extract.check_numeric (df3, v3) "total_venta") as [df4 v4] eqn:H4.
  simpl snd.
  destruct (to_datetime_rows _ _ _ _ H1) as [Hc1 Hr1].
  destruct (check_numeric_rows _ _ _ _ _ H2) as [Hc2 Hr2].
  destruct (check_numeric_rows _ _ _ _ _ H3) as [Hc3 Hr3].
  destruct (check_numeric_rows _ _ _ _ _ H4) as [Hc4 Hr4].
  (* each column is read, at its step, as it is in the batch received *)
  assert (G2 : getcol df1 "cantidad" = getcol df "cantidad").
  { apply getcol_agree; [done|]. by eapply to_datetime_other. }
  assert (G3 : getcol df2 "precio_unitario" = getcol df "precio_unitario").
  { rewrite (getcol_agree df1 df2); [|done|by eapply check_numeric_other].
    apply getcol_agree; [done|]. by eapply to_datetime_other. }
  assert (G4 : getcol df3 "total_venta" = getcol df "total_venta").
  { rewrite (getcol_agree df2 df3); [|done|by eapply check_numeric_other].
    rewrite (getcol_agree df1 df2); [|done|by eapply check_numeric_other].
    apply getcol_agree; [done|]. by eapply to_datetime_other. }
  rewrite G2 in Hr2. rewrite G3 in Hr3. rewrite G4 in Hr4.
  assert (Hall : Forall2
    (fun r r' => exists r1 r2 r3,
       (match (let* fecha := getcol df "fecha" in to_datetime fecha) with
        | Ok _ => exists t, to_datetime_cell (cell_of r "fecha") = Ok t /\
                            r1 = <["fecha" := t]> r
        | Raise _ => r1 = r
        end) /\
       (match getcol df "cantidad" with
        | Ok s =>
            if is_numeric_dtype s then r2 = r1
            else exists x, to_numeric_cell errors_coerce (cell_of r1 "cantidad") = Ok x /\
                           r2 = <["cantidad" := x]> r1
        | Raise _ => r2 = r1
        end) /\
       (match getcol df "precio_unitario" with
        | Ok s =>
            if is_numeric_dtype s then r3 = r2
            else exists x, to_numeric_cell errors_coerce (cell_of r2 "precio_unitario") = Ok x /\
                           r3 = <["precio_unitario" := x]> r2
        | Raise _ => r3 = r2
        end) /\
       (match getcol df "total_venta" with
        | Ok s =>
            if is_numeric_dtype s then r' = r3
            else exists x, to_numeric_cell errors_coerce (cell_of r3 "total_venta") = Ok x /\
                           r' = <["total_venta" := x]> r3
        | Raise _ => r' = r3
        end))
    (rows df) (rows df4)).
  { pose proof (Forall2_compose _ _ _ _ _ Hr1
                  (Forall2_compose _ _ _ _ _ Hr2
                     (Forall2_compose _ _ _ _ _ Hr3 Hr4))) as Hchain.
    eapply Forall2_impl; [exact Hchain|].
    intros r r' (r1 & U1 & r2 & U2 & r3 & U3 & U4). by exists r1, r2, r3. }
  split; [congruence|]. split; [symmetry; by eapply Forall2_length|].
  eapply Forall2_impl; [exact Hall|].
  intros r r' (r1 & r2 & r3 & U1 & U2 & U3 & U4).
  (* what each step leaves of the columns of the others *)
  assert (O1 : forall c, c <> "fecha" -> r1 !! c = r !! c).
  { intros c Hne. destruct (let* fecha := getcol df "fecha" in to_datetime fecha);
      [|by subst]. destruct U1 as (t & _ & ->). by rewrite lookup_insert_ne. }
  assert (O2 : forall c, c <> "cantidad" -> r2 !! c = r1 !! c).
  { intros c Hne. destruct (getcol df "cantidad") as [s|]; [|by subst].
    destruct (is_numeric_dtype s); [by subst|].
    destruct U2 as (x & _ & ->). by rewrite lookup_insert_ne. }
  assert (O3 : forall c, c <> "precio_unitario" -> r3 !! c = r2 !! c).
  { intros c Hne. destruct (getcol df "precio_unitario") as [s|]; [|by subst].
    destruct (is_numeric_dtype s); [by subst|].
    destruct U3 as (x & _ & ->). by rewrite lookup_insert_ne. }
  assert (O4 : forall c, c <> "total_venta" -> r' !! c = r3 !! c).
  { intros c Hne. destruct (getcol df "total_venta") as [s|]; [|by subst].
    destruct (is_numeric_dtype s); [by subst|].
    destruct U4 as (x & _ & ->). by rewrite lookup_insert_ne. }
  split_and!.
  - intros c Hc. rewrite !not_elem_of_cons in Hc.
    destruct Hc as (N1 & N2 & N3 & N4 & _).
    by rewrite O4, O3, O2, O1.
  - assert (E : r' !! "fecha" = r1 !! "fecha") by (by rewrite O4, O3, O2).
    rewrite E.
    destruct (let* fecha := getcol df "fecha" in to_datetime fecha); [|by subst].
    destruct U1 as (t & Ht & ->). exists t. split; [done|].
    by rewrite lookup_insert_eq.
  - intros c Hc. rewrite !elem_of_cons in Hc.
    destruct Hc as [->|[->|[->|Hc]]]; [| | |by apply elem_of_nil in Hc].
    + assert (E : r' !! "cantidad" = r2 !! "cantidad") by (by rewrite O4, O3).
      rewrite E, <-(O1 "cantidad") by done.
      destruct (getcol df "cantidad") as [s|]; [|by subst].
      destruct (is_numeric_dtype s); [by subst|].
      destruct U2 as (x & Hx & ->). exists x.
      rewrite <-(cell_of_lookup_eq _ _ _ (O1 "cantidad" ltac:(done))).
      split; [done|]. by rewrite lookup_insert_eq.
    + assert (E : r' !! "precio_unitario" = r3 !! "precio_unitario")
        by (by rewrite O4).
      assert (E0 : r2 !! "precio_unitario" = r !! "precio_unitario")
        by (by rewrite O2, O1).
      rewrite E, <-E0.
      destruct (getcol df "precio_unitario") as [s|]; [|by subst].
      destruct (is_numeric_dtype s); [by subst|].
      destruct U3 as (x & Hx & ->). exists x.
      rewrite <-(cell_of_lookup_eq _ _ _ E0).
      split; [done|]. by rewrite lookup_insert_eq.
    + assert (E0 : r3 !! "total_venta" = r !! "total_venta")
        by (by rewrite O3, O2, O1).
      rewrite <-E0.
      destruct (getcol df "total_venta") as [s|]; [|by subst].
      destruct (is_numeric_dtype s); [by subst|].
      destruct U4 as (x & Hx & ->). exists x.
      rewrite <-(cell_of_lookup_eq _ _ _ E0).
      split; [done|]. by rewrite lookup_insert_eq.
Qed.

(** ** Rejection at the two validation gates *)

Lemma traverse_elem {A B} (f : A -> result B) (l : list A) (l' : list B) (x : A) :
  traverse f l = Ok l' -> x ∈ l -> exists y, y ∈ l' /\ f x = Ok y.
Proof.
  intros Ht Hx. apply list_elem_of_lookup in Hx as [i Hi].
  assert (Hlen : i < length l') by
    (rewrite (traverse_length _ _ _ Ht); by eapply lookup_lt_Some).
  apply lookup_lt_is_Some in Hlen as [y Hy].
  destruct (traverse_lookup _ _ _ _ _ Ht Hy) as (x' & Hx' & Hf).
  rewrite Hi in Hx'. inversion Hx'; subst x'.
  exists y. split; [by eapply list_elem_of_lookup_2 | done].
Qed.

Lemma forallb_app_false_l (v suffix : list bool) :
  forallb id v = false -> forallb id (v ++ suffix) = false.
Proof. intros Hv. rewrite forallb_app, Hv. done. Qed.

Lemma filter_nonempty {A} (f : A -> bool) (l : list A) (x : A) :
  x ∈ l -> f x = true -> List.filter f l <> [].
Proof.
  intros Hx Hf Hnil.
  assert (Hin : In x (List.filter f l)).
  { apply filter_In. split; [by apply list_elem_of_In | done]. }
  rewrite Hnil in Hin. destruct Hin.
Qed.

Section Gates.
Context `{Scalars}.

Lemma check_numeric_false (df df' : DataFrame) (v v' : list bool) (col : string) :
  Extract.check_numeric (df, v) col = (df', v') ->
  forallb id v = false -> forallb id v' = false.
Proof.
  unfold Extract.check_numeric. intros Heq Hv.
  destruct (has_column df col); [|by inversion Heq; subst].
  destruct (getcol df col) as [s|]; [|by inversion Heq; subst].
  destruct (negb (is_numeric_dtype s)); [|by inversion Heq; subst].
  destruct (to_numeric errors_coerce s);
    inversion Heq; subst; by apply forallb_app_false_l.
Qed.

Lemma check_numeric_all_false (cols : list string) (df df' : DataFrame)
  (v v' : list bool) :
  foldl Extract.check_numeric (df, v) cols = (df', v') ->
  forallb id v = false -> forallb id v' = false.
Proof.
  revert df v. induction cols as [|col cols IH]; intros df v Heq Hv;
    cbn [foldl] in Heq.
  - by inversion Heq; subst.
  - destruct (Extract.check_numeric (df, v) col) as [df1 v1] eqn:H1.
    eapply IH; [exact Heq|]. by eapply check_numeric_false.
Qed.

(** An empty batch, or one without the [producto] column, does not pass
    [validate_extracted_data]. *)
Lemma validate_extracted_data_rejects (df : DataFrame) :
  empty df = true \/ has_column df "producto" = false ->
  fst (Extract.validate_extracted_data df) = false.
Proof.
  intros Hbad.
  unfold Extract.validate_extracted_data, Extract.validate_extracted_data_checks.
  cbv zeta.
  set (v0 := ([] ++ [negb (empty df)]) ++
     [match List.filter (fun col => negb (has_column df col))
              Extract.required_columns with
      | [] => true
      | _ :: _ => false
      end]).
  assert (Hfirst : forallb id v0 = false).
  { unfold v0. destruct Hbad as [Hempty|Hprod].
    - rewrite Hempty. done.
    - destruct (List.filter _ Extract.required_columns) eqn:Hf.
      + exfalso. eapply (filter_nonempty _ _ "producto"); [| |exact Hf].
        * unfold Extract.required_columns. set_solver.
        * simpl. by rewrite Hprod.
      + simpl. by rewrite andb_false_r. }
  clearbody v0.
  destruct (let* fecha := getcol df "fecha" in to_datetime fecha) as [fecha|e].
  - destruct (foldl Extract.check_numeric (setcol df "fecha" fecha, v0 ++ [true])
                Extract.numeric_columns) as [df2 v2] eqn:H2.
    simpl. eapply check_numeric_all_false; [exact H2|].
    by apply forallb_app_false_l.
  - destruct (foldl Extract.check_numeric (df, v0 ++ [false])
                Extract.numeric_columns) as [df2 v2] eqn:H2.
    simpl. eapply check_numeric_all_false; [exact H2|].
    by apply forallb_app_false_l.
Qed.

(** [extract] writes only after the validation has passed. *)
Lemma extract_rejects (cfg : config) (w : world) (df : DataFrame) :
  tables w !! table_source cfg = Some df ->
  fst (Extract.validate_extracted_data df) = false ->
  exists e, Extract.extract cfg w = (Raise e, w).
Proof.
  intros Hsrc Hval. unfold Extract.extract, Extract.extract_data_from_db.
  rewrite Hsrc. destruct (getcol df "fecha") as [s|e]; simpl; [|eauto].
  destruct (Extract.validate_extracted_data df) as [valid df'].
  simpl in Hval. subst valid. simpl. eauto.
Qed.

Lemma check_non_negative_false (df : DataFrame) (v v' : list bool) (col : string) :
  Load.check_non_negative df v col = Ok v' ->
  forallb id v = false -> forallb id v' = false.
Proof.
  unfold Load.check_non_negative. intros Hc Hv.
  destruct (has_column df col); [|by inversion Hc; subst].
  bind_inv Hc as s Hs. bind_inv Hc as negative Hneg.
  destruct (mask_any negative); inversion Hc; subst;
    by apply forallb_app_false_l.
Qed.

Lemma check_all_non_negative_false (cols : list string) (df : DataFrame)
  (v v' : list bool) :
  Load.check_all_non_negative df v cols = Ok v' ->
  forallb id v = false -> forallb id v' = false.
Proof.
  revert v. induction cols as [|col cols IH]; intros v Hc Hv; simpl in Hc.
  - by inversion Hc; subst.
  - bind_inv Hc as v1 H1. eapply IH; [exact Hc|].
    by eapply check_non_negative_false.
Qed.

(** Check 4 records a failure for a checked column with a negative
    number. *)
Lemma check_non_negative_detects (df : DataFrame) (v v' : list bool)
  (col : string) (r : row) (q : Q) :
  has_column df col = true ->
  r ∈ rows df -> cell_of r col = Num q -> (q < 0)%Q ->
  Load.check_non_negative df v col = Ok v' ->
  forallb id v' = false.
Proof.
  intros Hcol Hr Hq Hneg. unfold Load.check_non_negative. rewrite Hcol.
  intros Hc. bind_inv Hc as s Hs. bind_inv Hc as negative Hmask.
  apply getcol_ok in Hs as [_ ->].
  assert (Hcell : cell_of r col ∈ map (fun r => cell_of r col) (rows df)).
  { apply (list_elem_of_fmap_2 (fun r => cell_of r col)), Hr. }
  destruct (traverse_elem _ _ _ _ Hmask Hcell) as (b & Hb & Hcmp).
  rewrite Hq in Hcmp. simpl in Hcmp.
  assert (Hlt : Qlt_bool q 0 = true).
  { unfold Qlt_bool. apply negb_true_iff.
    destruct (Qle_bool 0 q) eqn:Hle; [|done].
    apply Qle_bool_iff in Hle. exfalso. by apply (Qlt_not_le q 0). }
  rewrite Hlt in Hcmp. inversion Hcmp; subst b.
  assert (Hany : mask_any negative = true).
  { unfold mask_any. apply existsb_exists. exists true.
    split; [by apply list_elem_of_In | done]. }
  rewrite Hany in Hc. inversion Hc; subst.
  rewrite forallb_app. simpl. by rewrite andb_false_r.
Qed.

Lemma check_all_non_negative_detects (cols : list string) (df : DataFrame)
  (v v' : list bool) (col : string) (r : row) (q : Q) :
  col ∈ cols -> has_column df col = true ->
  r ∈ rows df -> cell_of r col = Num q -> (q < 0)%Q ->
  Load.check_all_non_negative df v cols = Ok v' ->
  forallb id v' = false.
Proof.
  intros Hin Hcol Hr Hq Hneg. revert v.
  induction cols as [|c cols IH]; intros v Hc; [by apply elem_of_nil in Hin|].
  simpl in Hc. bind_inv Hc as v1 H1.
  apply elem_of_cons in Hin as [->|Hin].
  - eapply check_all_non_negative_false; [exact Hc|].
    by eapply check_non_negative_detects.
  - by eapply IH.
Qed.

(** A negative number in one of the four checked columns: the verdict of
    [validate_data_before_load] is not [True]. *)
Lemma validate_data_before_load_negative (df : DataFrame) (col : string)
  (r : row) (q : Q) :
  col ∈ Load.numeric_columns -> has_column df col = true ->
  r ∈ rows df -> cell_of r col = Num q -> (q < 0)%Q ->
  fst (Load.validate_data_before_load df) <> Ok true.
Proof.
  intros Hin Hcol Hr Hq Hneg. unfold Load.validate_data_before_load.
  destruct (empty df); [discriminate|]. simpl.
  destruct (Load.validate_data_before_load_checks df) as [v|e] eqn:Hv;
    simpl; [|discriminate].
  unfold Load.validate_data_before_load_checks in Hv.
  bind_inv Hv as nulls Hnulls. bind_inv Hv as v1 Hv1. bind_inv Hv as dups Hdups.
  inversion Hv; subst v1.
  rewrite (check_all_non_negative_detects _ _ _ _ _ _ _ Hin Hcol Hr Hq Hneg Hv1).
  discriminate.
Qed.

(** A batch without the [producto] column, or an empty one, is not passed
    by [validate_data_before_load]. *)
Lemma validate_data_before_load_rejects (df : DataFrame) :
  empty df = true \/ has_column df "producto" = false ->
  fst (Load.validate_data_before_load df) <> Ok true.
Proof.
  intros Hbad. unfold Load.validate_data_before_load.
  destruct (empty df) eqn:Hempty; [discriminate|]. simpl.
  destruct Hbad as [Hbad|Hprod]; [discriminate|].
  unfold Load.validate_data_before_load_checks, Load.null_count, check_columns.
  assert (Hcrit : forallb (has_column df) Load.critical_columns = false).
  { unfold Load.critical_columns. simpl. rewrite Hprod.
    by rewrite andb_false_r. }
  rewrite Hcrit. simpl. discriminate.
Qed.

(** [load] writes only after the validation has passed. *)
Lemma load_rejects (cfg : config) (stamp : string) (w : world) (df : DataFrame) :
  Load.load_transformed_data cfg w = Ok df ->
  fst (Load.validate_data_before_load df) <> Ok true ->
  exists e, Load.load cfg stamp w = (Raise e, w).
Proof.
  intros Hread Hval. unfold Load.load. rewrite Hread.
  destruct (Load.validate_data_before_load df) as [[valid|e] df']; simpl in *;
    [|eauto].
  destruct valid; [done|]. simpl. eauto.
Qed.

End Gates.

(** C5.  Validation rejects without writing.  When the source table is
    empty or has no [producto] column, [extract] raises and leaves the
    store and the artifacts as they were.  When the aggregated artifact is
    empty, has no [producto] column, or holds a [cantidad_total] of -5,
    [load] raises and leaves the store and the artifacts as they were. *)
Theorem invalid_batch_raises_without_write `{Scalars}
  (cfg : config) (stamp : string) (w : world) (df : DataFrame) :
  (tables w !! table_source cfg = Some df ->
   empty df = true \/ has_column df "producto" = false ->
   exists e, Extract.extract cfg w = (Raise e, w)) /\
  (files w !! path_join (data_output_path cfg) "transformed_data.csv" = Some df ->
   empty df = true \/ has_column df "producto" = false \/
   (has_column df "cantidad_total" = true /\
    exists r, r ∈ rows df /\ cell_of r "cantidad_total" = Num (-5)) ->
   exists e, Load.load cfg stamp w = (Raise e, w)).
Proof.
  split.
  - intros Hsrc Hbad. eapply extract_rejects; [exact Hsrc|].
    by apply validate_extracted_data_rejects.
  - intros Hfile Hbad.
    destruct (Load.load_transformed_data cfg w) as [df0|e] eqn:Hread.
    2:{ exists e. unfold Load.load. by rewrite Hread. }
    assert (df0 = df) as ->.
    { unfold Load.load_transformed_data, read_csv in Hread.
      rewrite Hfile in Hread. destruct (columns df); by inversion Hread. }
    eapply load_rejects; [exact Hread|].
    destruct Hbad as [Hempty|[Hprod|(Hcol & r & Hr & Hneg)]].
    + apply validate_data_before_load_rejects. by left.
    + apply validate_data_before_load_rejects. by right.
    + eapply (validate_data_before_load_negative df "cantidad_total" r (-5));
        try done.
      unfold Load.numeric_columns. set_solver.
Qed.

Lemma invalid_batch_raises_without_write_witness :
  (exists e, Extract.extract default_config (source_world no_rows_batch)
             = (Raise e, source_world no_rows_batch)) /\
  (exists e, Extract.extract default_config (source_world id_fecha_batch)
             = (Raise e, source_world id_fecha_batch)) /\
  (exists e, Load.load default_config "20230101_000000"
               (artifact_world no_rows_batch)
             = (Raise e, artifact_world no_rows_batch)) /\
  (exists e, Load.load default_config "20230101_000000"
               (artifact_world no_producto_batch)
             = (Raise e, artifact_world no_producto_batch)) /\
  (exists e, Load.load default_config "20230101_000000"
               (artifact_world (transformed_dataframe (-5) 0.05))
             = (Raise e, artifact_world (transformed_dataframe (-5) 0.05))).
Proof.
  split_and!.
  - apply (proj1 (invalid_batch_raises_without_write default_config ""
                    (source_world no_rows_batch) no_rows_batch)).
    + vm_compute. reflexivity.
    + left. reflexivity.
  - apply (proj1 (invalid_batch_raises_without_write default_config ""
                    (source_world id_fecha_batch) id_fecha_batch)).
    + vm_compute. reflexivity.
    + right. vm_compute. reflexivity.
  - apply (proj2 (invalid_batch_raises_without_write default_config _
                    (artifact_world no_rows_batch) no_rows_batch)).
    + vm_compute. reflexivity.
    + left. reflexivity.
  - apply (proj2 (invalid_batch_raises_without_write default_config _
                    (artifact_world no_producto_batch) no_producto_batch)).
    + vm_compute. reflexivity.
    + right. left. vm_compute. reflexivity.
  - apply (proj2 (invalid_batch_raises_without_write default_config _
                    (artifact_world (transformed_dataframe (-5) 0.05))
                    (transformed_dataframe (-5) 0.05))).
    + vm_compute. reflexivity.
    + right. right. split; [vm_compute; reflexivity|].
      eexists. split; [apply list_elem_of_further, list_elem_of_here|].
      vm_compute. reflexivity.
Defined.

(** C7 fails on the code.  [prepare_data_for_load] counts
    [descuento_promedio] among the numeric columns of the aggregated batch,
    and check 4 of [validate_data_before_load] is there to refuse negative
    numeric values, but its own list of columns leaves [descuento_promedio]
    out: an aggregated batch whose second row has [descuento_promedio] = -0.5
    passes the validation, and [load] writes it to the target table with the
    negative value. *)
Theorem negative_descuento_promedio_is_loaded :
  ("descuento_promedio" ∈ Load.prepared_numeric_columns) /\
  ("descuento_promedio" ∉ Load.numeric_columns) /\
  view ["descuento_promedio"] (transformed_dataframe 20 (-0.5))
    = [[Num 0.1]; [Num (-0.5)]; [Num 0]] /\
  fst (Load.validate_data_before_load (transformed_dataframe 20 (-0.5))) = Ok true /\
  exists statistics w',
    Load.load default_config "20230101_000000"
      (artifact_world (transformed_dataframe 20 (-0.5))) = (Ok statistics, w') /\
    option_map (view ["descuento_promedio"]) (tables w' !! "sales_transformed")
      = Some [[Num 0.1]; [Num (-0.5)]; [Num 0]].
Proof.
  split; [unfold Load.prepared_numeric_columns; in_list|].
  split; [unfold Load.numeric_columns; not_in_list|].
  split; [vm_compute; reflexivity|]. split; [vm_compute; reflexivity|].
  eexists _, _. split; [vm_compute; reflexivity|]. vm_compute. reflexivity.
Qed.

(** What check 4 does refuse.  When one of the four columns that the
    validation lists ([cantidad_total], [precio_promedio], [total_venta],
    [num_transacciones]) is present and holds a negative number, the
    validation does not pass, and [load] raises and leaves the store and the
    artifacts as they were.  [descuento_promedio] is not in the list. *)
Theorem negative_checked_column_rejected `{Scalars}
  (cfg : config) (stamp : string) (w : world) (df : DataFrame)
  (col : string) (r : row) (q : Q) :
  col ∈ Load.numeric_columns ->
  has_column df col = true ->
  r ∈ rows df -> cell_of r col = Num q -> (q < 0)%Q ->
  Load.load_transformed_data cfg w = Ok df ->
("descuento_promedio" ∉ Load.numeric_columns) /\
  fst (Load.validate_data_before_load df) <> Ok true /\
  exists e, Load.load cfg stamp w = (Raise e, w).
Proof.
  intros Hin Hcol Hr Hq Hneg Hread.
  assert (Hval := validate_data_before_load_negative df col r q Hin Hcol Hr Hq Hneg).
  split_and!; [|done|by eapply load_rejects].
  unfold Load.numeric_columns. rewrite !not_elem_of_cons.
  split_and!; try discriminate. apply not_elem_of_nil.
Qed.

Lemma negative_checked_column_rejected_witness :
("descuento_promedio" ∉ Load.numeric_columns) /\
  fst (Load.validate_data_before_load (transformed_dataframe (-20) 0.05)) <> Ok true /\
  exists e, Load.load default_config "20230101_000000"
              (artifact_world (transformed_dataframe (-20) 0.05))
            = (Raise e, artifact_world (transformed_dataframe (-20) 0.05)).
Proof.
  apply (negative_checked_column_rejected default_config "20230101_000000"
           (artifact_world (transformed_dataframe (-20) 0.05))
           (transformed_dataframe (-20) 0.05) "cantidad_total"
           (make_row aggregated_columns
              [Str "2023-01-02"; Str "Mouse"; Str "Accesorios"; Str "Sur";
               Num (-20); Num 25; Num 0.05; Num 475; Num 10])
           (-20)).
  - unfold Load.numeric_columns. apply list_elem_of_here.
  - vm_compute. reflexivity.
  - apply list_elem_of_further, list_elem_of_here.
  - vm_compute. reflexivity.
  - reflexivity.
  - vm_compute. reflexivity.
Defined.

(** ** Replace-mode load *)

Lemma string_length_app (s1 s2 : string) :
  String.length (s1 +:+ s2) = String.length s1 + String.length s2.
Proof.
  induction s1 as [|a s1 IH]; [done|].
  change (String a s1 +:+ s2) with (String a (s1 +:+ s2)).
  simpl. by rewrite IH.
Qed.

(** The name of a backup is never the name of the table. *)
Lemma backup_name_ne (t stamp : string) : t +:+ "_backup_" +:+ stamp <> t.
Proof.
  intros Heq. apply (f_equal String.length) in Heq.
  rewrite !string_length_app in Heq. simpl in Heq. lia.
Qed.

Lemma traverse_to_length {A B} (f : A -> result B) (l : list A) (l' : list B) :
  traverse f l = Ok l' -> length l = length l'.
Proof. intros Ht. symmetry. by eapply traverse_length. Qed.

Lemma setcol_len (df : DataFrame) (c : string) (vals : list cell) :
  length vals = len df -> len (setcol df c vals) = len df.
Proof.
  unfold len, setcol. simpl. intros Hlen.
  by rewrite length_zip_with_l_eq.
Qed.

Lemma getcol_length (df : DataFrame) (c : string) (s : list cell) :
  getcol df c = Ok s -> length s = len df.
Proof.
  intros Hs. apply getcol_ok in Hs as [_ ->]. unfold len.
  by rewrite length_map.
Qed.

Section Replace.
Context `{Scalars}.

Lemma coerce_numeric_len (cols : list string) (df d : DataFrame) :
  Load.coerce_numeric cols df = Ok d -> len d = len df.
Proof.
  revert df. induction cols as [|col cols IH]; intros df Hc; simpl in Hc.
  - by inversion Hc.
  - destruct (has_column df col); [|by apply IH].
    bind_inv Hc as s Hs. bind_inv Hc as s' Hs'.
    rewrite (IH _ Hc). apply setcol_len.
    rewrite (traverse_length _ _ _ Hs'). by eapply getcol_length.
Qed.

(** [prepare_data_for_load] keeps the number of rows. *)
Lemma prepare_data_for_load_len (df prepared : DataFrame) :
  Load.prepare_data_for_load df = Ok prepared -> len prepared = len df.
Proof.
  unfold Load.prepare_data_for_load. intros Hp.
  bind_inv Hp as df1 H1. bind_inv Hp as df2 H2.
  assert (L1 : len df1 = len df).
  { destruct (has_column df "fecha"); [|by inversion H1].
    bind_inv H1 as fecha0 Hf0. bind_inv H1 as fecha Hf.
    inversion H1; subst. apply setcol_len.
    unfold strftime. rewrite length_map.
    rewrite (traverse_length _ _ _ Hf). by eapply getcol_length. }
  apply coerce_numeric_len in H2.
  unfold Load.sort_values_by in Hp. bind_inv Hp as s Hs.
  inversion Hp; subst. unfold len in *. simpl.
  rewrite merge_sort_Permutation, length_map. congruence.
Qed.

Lemma load_to_database_replace (cfg : config) (df : DataFrame)
  (name : option string) (w : world) :
  Load.load_to_database cfg df name Load.if_exists_replace w
  = (Ok (len df),
     {| tables := <[default (table_target cfg) name := df]> (tables w);
        indexes := delete (default (table_target cfg) name) (indexes w);
        files := files w |}).
Proof.
  unfold Load.load_to_database, Load.to_sql.
  by destruct (tables w !! default (table_target cfg) name).
Qed.

Lemma backup_existing_data_files (cfg : config) (stamp : string) (w : world) :
  files (Load.backup_existing_data cfg stamp w) = files w.
Proof.
  unfold Load.backup_existing_data.
  destruct (tables w !! table_target cfg); [|done].
  by destruct (tables w !! _).
Qed.

Lemma create_indexes_tables (cfg : config) (w : world) :
  tables (Load.create_indexes cfg w) = tables w /\
  files (Load.create_indexes cfg w) = files w.
Proof.
  unfold Load.create_indexes. by destruct (tables w !! table_target cfg).
Qed.

(** [load] once the artifact is read, validated and prepared. *)
Lemma load_prepared (cfg : config) (stamp : string) (w : world)
  (df prepared : DataFrame) :
  Load.load_transformed_data cfg w = Ok df ->
  fst (Load.validate_data_before_load df) = Ok true ->
  Load.prepare_data_for_load df = Ok prepared ->
  exists w',
    tables w' !! table_target cfg = Some prepared /\
    files w' = files w /\
    Load.load cfg stamp w
    = (match Load.table_statistics prepared with
       | Ok statistics => Ok statistics
       | Raise e => Raise e
       end, w').
Proof.
  intros Hread Hval Hprep. unfold Load.load. rewrite Hread.
  pose proof (validate_data_before_load_frame df) as Hframe.
  destruct (Load.validate_data_before_load df) as [res df'].
  simpl in Hval, Hframe. subst res df'. cbn [negb]. cbv iota. rewrite Hprep.
  rewrite load_to_database_replace. cbn [default].
  set (w0 := {| tables := <[table_target cfg := prepared]>
                            (tables (Load.backup_existing_data cfg stamp w));
                indexes := _; files := _ |}).
  assert (Htable : tables (Load.create_indexes cfg w0) !! table_target cfg
                   = Some prepared).
  { rewrite (proj1 (create_indexes_tables cfg w0)). unfold w0. simpl.
    by rewrite lookup_insert_eq. }
  exists (Load.create_indexes cfg w0). split_and!; [done| |].
  - rewrite (proj2 (create_indexes_tables cfg w0)). unfold w0. simpl.
    apply backup_existing_data_files.
  - unfold Load.generate_load_statistics. rewrite Htable.
    by destruct (Load.table_statistics prepared).
Qed.

(** What a successful [load] has done: it read the artifact, passed the
    validation, prepared the batch, and left the prepared batch as the
    target table; the artifacts are as they were. *)
Lemma load_ok_inv (cfg : config) (stamp : string) (w w' : world)
  (statistics : Load.load_statistics) :
  Load.load cfg stamp w = (Ok statistics, w') ->
  exists df prepared,
    Load.load_transformed_data cfg w = Ok df /\
    fst (Load.validate_data_before_load df) = Ok true /\
    Load.prepare_data_for_load df = Ok prepared /\
    Load.table_statistics prepared = Ok statistics /\
    tables w' !! table_target cfg = Some prepared /\
    files w' = files w.
Proof.
  intros Hl.
  destruct (Load.load_transformed_data cfg w) as [df|] eqn:Hread.
  2:{ unfold Load.load in Hl. rewrite Hread in Hl. by inversion Hl. }
  destruct (fst (Load.validate_data_before_load df)) as [[|]|] eqn:Hval.
  2,3: exfalso; unfold Load.load in Hl; rewrite Hread in Hl;
       destruct (Load.validate_data_before_load df) as [res df'];
       simpl in Hval; subst res; by inversion Hl.
  destruct (Load.prepare_data_for_load df) as [prepared|] eqn:Hprep.
  2:{ exfalso. unfold Load.load in Hl. rewrite Hread in Hl.
      pose proof (validate_data_before_load_frame df) as Hframe.
      destruct (Load.validate_data_before_load df) as [res df'].
      simpl in Hval, Hframe. subst res df'. cbn [negb] in Hl. cbv iota in Hl.
      rewrite Hprep in Hl. by inversion Hl. }
  destruct (load_prepared cfg stamp w df prepared Hread Hval Hprep)
    as (w0 & Htable & Hfiles & Hload).
  rewrite Hload in Hl. exists df, prepared.
  destruct (Load.table_statistics prepared) as [st|]; inversion Hl; subst.
  done.
Qed.

(** Conversely, [load] succeeds on every store that holds the same
    artifact, whatever its tables are. *)
Lemma load_ok_intro (cfg : config) (stamp : string) (w : world)
  (df prepared : DataFrame) (statistics : Load.load_statistics) :
  Load.load_transformed_data cfg w = Ok df ->
  fst (Load.validate_data_before_load df) = Ok true ->
  Load.prepare_data_for_load df = Ok prepared ->
  Load.table_statistics prepared = Ok statistics ->
  exists w', Load.load cfg stamp w = (Ok statistics, w') /\
             tables w' !! table_target cfg = Some prepared.
Proof.
  intros Hread Hval Hprep Hstat.
  destruct (load_prepared cfg stamp w df prepared Hread Hval Hprep)
    as (w0 & Htable & Hfiles & Hload).
  rewrite Hstat in Hload. by exists w0.
Qed.

End Replace.

(** C4.  Idempotent replace.  [load_to_database] in replace mode leaves
    the table equal to the batch, with [len(df)] rows, and doing it again
    leaves the store as the first load left it.  Likewise for the whole of
    [load]: when a run succeeds, the target table is the prepared batch and
    has as many rows as the aggregated artifact, and a second run (at any
    time stamp) succeeds with the same statistics and leaves the same
    target table. *)
Theorem load_replace_idempotent `{Scalars}
  (cfg : config) (df : DataFrame) (name : option string) (w : world) :
  (forall r1 w1 r2 w2,
     Load.load_to_database cfg df name Load.if_exists_replace w = (r1, w1) ->
     Load.load_to_database cfg df name Load.if_exists_replace w1 = (r2, w2) ->
     r1 = Ok (len df) /\ r2 = Ok (len df) /\
     tables w1 !! default (table_target cfg) name = Some df /\
     tables w2 !! default (table_target cfg) name = Some df /\
     w2 = w1) /\
  (forall stamp1 stamp2 statistics w1,
     Load.load_transformed_data cfg w = Ok df ->
     Load.load cfg stamp1 w = (Ok statistics, w1) ->
     exists prepared w2,
       Load.prepare_data_for_load df = Ok prepared /\
       len prepared = len df /\
       tables w1 !! table_target cfg = Some prepared /\
       Load.load cfg stamp2 w1 = (Ok statistics, w2) /\
       tables w2 !! table_target cfg = Some prepared).
Proof.
  split.
  - intros r1 w1 r2 w2. rewrite load_to_database_replace.
    intros H1. inversion H1; subst r1 w1; clear H1.
    rewrite load_to_database_replace. simpl.
    intros H2. inversion H2; subst r2 w2; clear H2. simpl.
    rewrite insert_insert_eq, delete_delete_eq, lookup_insert_eq. done.
  - intros stamp1 stamp2 statistics w1 Hread Hload.
    destruct (load_ok_inv _ _ _ _ _ Hload)
      as (df0 & prepared & Hread0 & Hval & Hprep & Hstat & Htable & Hfiles).
    rewrite Hread in Hread0. inversion Hread0; subst df0.
    assert (Hread1 : Load.load_transformed_data cfg w1 = Ok df).
    { unfold Load.load_transformed_data, read_csv in *. by rewrite Hfiles. }
    destruct (load_ok_intro cfg stamp2 w1 df prepared statistics
                Hread1 Hval Hprep Hstat) as (w2 & Hload2 & Htable2).
    exists prepared, w2. split_and!; try done.
    by apply prepare_data_for_load_len.
Qed.

Lemma load_replace_idempotent_witness :
  exists prepared w2,
    Load.prepare_data_for_load (transformed_dataframe 20 0.05) = Ok prepared /\
    len prepared = len (transformed_dataframe 20 0.05) /\
    tables (snd (Load.load default_config "20230101_000000"
                   (artifact_world (transformed_dataframe 20 0.05))))
      !! table_target default_config = Some prepared /\
    Load.load default_config "20230101_000001"
      (snd (Load.load default_config "20230101_000000"
              (artifact_world (transformed_dataframe 20 0.05))))
    = (Ok {| Load.total_records := 3; Load.total_sales := 11725 |}, w2) /\
    tables w2 !! table_target default_config = Some prepared.
Proof.
  apply (proj2 (load_replace_idempotent default_config
                  (transformed_dataframe 20 0.05) None
                  (artifact_world (transformed_dataframe 20 0.05)))
           "20230101_000000" "20230101_000001").
  - vm_compute. reflexivity.
  - vm_compute. reflexivity.
Defined.

(** ** Group by *)

Lemma traverse_elem_inv {A B} (f : A -> result B) (l : list A) (l' : list B) (y : B) :
  traverse f l = Ok l' -> y ∈ l' -> exists x, x ∈ l /\ f x = Ok y.
Proof.
  intros Ht Hy. apply list_elem_of_lookup in Hy as [i Hi].
  destruct (traverse_lookup _ _ _ _ _ Ht Hi) as (x & Hx & Hf).
  exists x. split; [by eapply list_elem_of_lookup_2 | done].
Qed.

Lemma filter_elem {A} (f : A -> bool) (l : list A) (x : A) :
  x ∈ List.filter f l <-> x ∈ l /\ f x = true.
Proof. rewrite !list_elem_of_In. apply filter_In. Qed.

Lemma uniq_subset (ks : list (list cell)) (k : list cell) :
  k ∈ uniq ks -> k ∈ ks.
Proof.
  induction ks as [|k0 ks IH]; simpl; [done|].
  rewrite !elem_of_cons, filter_elem. intros [->|[Hk _]]; auto.
Qed.

Lemma key_of_some (keys : list string) (r : row) (k : list cell) :
  key_of keys r = Some k ->
  k = map (cell_of r) keys /\ existsb is_null k = false.
Proof.
  unfold key_of. destruct (existsb is_null (map (cell_of r) keys)) eqn:Hnull;
    [discriminate|].
  intros Hk. by inversion Hk; subst.
Qed.

(** A group of [groupby] is a key carried by some row, with all the rows of
    the batch that carry it. *)
Lemma groupby_elem (df : DataFrame) (keys : list string)
  (groups : list (list cell * list row)) (k : list cell) (rs : list row) :
  groupby df keys = Ok groups -> (k, rs) ∈ groups ->
  rs = List.filter (same_key keys k) (rows df) /\
  exists r0, r0 ∈ rows df /\ key_of keys r0 = Some k.
Proof.
  unfold groupby. intros Hg Hin. bind_inv Hg as u Hu.
  inversion Hg; subst groups; clear Hg.
  apply list_elem_of_fmap in Hin as (k' & Heq & Hk').
  inversion Heq; subst k' rs; clear Heq. split; [done|].
  rewrite merge_sort_Permutation in Hk'. apply uniq_subset in Hk'.
  apply list_elem_of_omap in Hk' as (r0 & Hr0 & Hkey). eauto.
Qed.

Lemma rename_rows (old new : string) (df : DataFrame) :
  rows (rename old new df) = map (rename_row old new) (rows df).
Proof. done. Qed.

Lemma zip_with_map_self {A B C} (f : A -> B -> C) (g : A -> B) (l : list A) :
  zip_with f l (map g l) = map (fun x => f x (g x)) l.
Proof. induction l as [|x l IH]; simpl; [done|]. by rewrite IH. Qed.

Lemma round_column_rows (c : string) (d : nat) (df df' : DataFrame) :
  Transform.round_column c d df = Ok df' ->
  rows df' = map (fun r => <[c := round_cell d (cell_of r c)]> r) (rows df).
Proof.
  unfold Transform.round_column. intros Hr. bind_inv Hr as s Hs.
  inversion Hr; subst. apply getcol_ok in Hs as [_ ->].
  unfold setcol, series_round. simpl.
  rewrite map_map. apply zip_with_map_self.
Qed.

(** The aggregated batch, row by row. *)
Lemma aggregate_data_rows (df aggregated : DataFrame) :
  Transform.aggregate_data df = Ok aggregated ->
  exists groups agg_rows,
    groupby df Transform.group_keys = Ok groups /\
    traverse Transform.agg_group groups = Ok agg_rows /\
    rows aggregated = map Transform.aggregated_row agg_rows.
Proof.
  unfold Transform.aggregate_data. intros Ha.
  bind_inv Ha as groups Hgroups. bind_inv Ha as u Hu.
  bind_inv Ha as agg_rows Hagg.
  bind_inv Ha as d1 H1. bind_inv Ha as d2 H2. bind_inv Ha as d3 H3.
  destruct (len df =? 0); [discriminate|]. inversion Ha; subst d3; clear Ha.
  exists groups, agg_rows. split_and!; [done..|].
  rewrite (round_column_rows _ _ _ _ H3), (round_column_rows _ _ _ _ H2),
    (round_column_rows _ _ _ _ H1), !rename_rows. simpl.
  rewrite !map_map. done.
Qed.

Lemma aggregated_row_cells (k1 k2 k3 k4 v1 v2 v3 v4 v5 : cell) :
  map (cell_of (Transform.aggregated_row
                  (make_row (Transform.group_keys ++ Transform.agg_columns)
                     [k1; k2; k3; k4; v1; v2; v3; v4; v5])))
      Transform.group_keys = [k1; k2; k3; k4] /\
  cell_of (Transform.aggregated_row
             (make_row (Transform.group_keys ++ Transform.agg_columns)
                [k1; k2; k3; k4; v1; v2; v3; v4; v5])) "total_venta"
    = round_cell 2 v4 /\
  cell_of (Transform.aggregated_row
             (make_row (Transform.group_keys ++ Transform.agg_columns)
                [k1; k2; k3; k4; v1; v2; v3; v4; v5])) "num_transacciones"
    = v5.
Proof. split_and!; vm_compute; reflexivity. Qed.

(** An aggregated row comes from one group: it carries the key of the
    group, the rounded sum of the [total_venta] of its rows, and the count
    of their non-null ids. *)
Lemma aggregate_data_elem (df aggregated : DataFrame) (a : row) :
  Transform.aggregate_data df = Ok aggregated -> a ∈ rows aggregated ->
  exists k total,
    map (cell_of a) Transform.group_keys = k /\
    (exists r0, r0 ∈ rows df /\ key_of Transform.group_keys r0 = Some k) /\
    series_sum (map (fun r => cell_of r "total_venta") (Transform.rows_of_group df a))
      = Ok total /\
    cell_of a "total_venta" = round_cell 2 total /\
    cell_of a "num_transacciones"
      = series_count (map (fun r => cell_of r "id") (Transform.rows_of_group df a)).
Proof.
  intros Hagg Ha.
  destruct (aggregate_data_rows _ _ Hagg) as (groups & agg_rows & Hg & Ht & Hrows).
  rewrite Hrows in Ha. apply list_elem_of_fmap in Ha as (a0 & -> & Ha0).
  destruct (traverse_elem_inv _ _ _ _ Ht Ha0) as ([k rs] & Hin & Hgroup).
  destruct (groupby_elem _ _ _ _ _ Hg Hin) as (Hrs & r0 & Hr0 & Hkey).
  unfold Transform.agg_group in Hgroup.
  bind_inv Hgroup as cantidad Hcantidad. bind_inv Hgroup as precio Hprecio.
  bind_inv Hgroup as descuento Hdescuento. bind_inv Hgroup as total Htotal.
  destruct (key_of_some _ _ _ Hkey) as [Hk _].
  unfold Transform.group_keys in Hk. simpl in Hk.
  assert (Ea0 : a0 = make_row (Transform.group_keys ++ Transform.agg_columns)
                  [cell_of r0 "fecha"; cell_of r0 "producto";
                   cell_of r0 "categoria"; cell_of r0 "region";
                   cantidad; precio; descuento; total;
                   series_count (map (fun r => cell_of r "id") rs)]).
  { inversion Hgroup. by rewrite Hk. }
  clear Hgroup Ha0. subst a0.
  destruct (aggregated_row_cells (cell_of r0 "fecha") (cell_of r0 "producto")
              (cell_of r0 "categoria") (cell_of r0 "region")
              cantidad precio descuento total
              (series_count (map (fun r => cell_of r "id") rs)))
    as (Ekey & Etotal & Ecount).
  assert (Egroup : Transform.rows_of_group df
            (Transform.aggregated_row
               (make_row (Transform.group_keys ++ Transform.agg_columns)
                  [cell_of r0 "fecha"; cell_of r0 "producto";
                   cell_of r0 "categoria"; cell_of r0 "region";
                   cantidad; precio; descuento; total;
                   series_count (map (fun r => cell_of r "id") rs)])) = rs).
  { unfold Transform.rows_of_group. rewrite Ekey, Hrs, Hk. done. }
  exists k, total. rewrite Egroup, Ekey.
  split_and!.
  - by rewrite Hk.
  - exists r0. split; [exact Hr0|exact Hkey].
  - exact Htotal.
  - exact Etotal.
  - exact Ecount.
Qed.

Lemma filter_map_length {A B} (p : B -> bool) (f : A -> B) (l : list A) :
  length (List.filter p (map f l)) = length (List.filter (fun x => p (f x)) l).
Proof.
  induction l as [|x l IH]; simpl; [done|].
  destruct (p (f x)); simpl; by rewrite IH.
Qed.

Lemma filter_all {A} (p : A -> bool) (l : list A) :
  (forall x, x ∈ l -> p x = true) -> List.filter p l = l.
Proof.
  induction l as [|x l IH]; intros Hall; simpl; [done|].
  rewrite (Hall x) by apply list_elem_of_here.
  rewrite IH; [done|]. intros y Hy. apply Hall. by apply list_elem_of_further.
Qed.

(** What [num_transacciones] is on every batch: for every row of the
    aggregated batch, the number of rows of its group whose [id] is not
    null; hence the number of rows of the group when no [id] of the group
    is null. *)
Lemma num_transacciones_counts_ids (df aggregated : DataFrame) (a : row) :
  Transform.aggregate_data df = Ok aggregated ->
  a ∈ rows aggregated ->
  cell_of a "num_transacciones"
    = Num (count_Q (length (List.filter
                              (fun r => negb (is_null (cell_of r "id")))
                              (Transform.rows_of_group df a)))) /\
  ((forall r, r ∈ Transform.rows_of_group df a -> cell_of r "id" <> Null) ->
   cell_of a "num_transacciones"
     = Num (count_Q (length (Transform.rows_of_group df a)))).
Proof.
  intros Hagg Ha.
  destruct (aggregate_data_elem _ _ _ Hagg Ha)
    as (k & total & _ & _ & _ & _ & Hcount).
  assert (Hn : cell_of a "num_transacciones"
    = Num (count_Q (length (List.filter
                              (fun r => negb (is_null (cell_of r "id")))
                              (Transform.rows_of_group df a))))).
  { rewrite Hcount. unfold series_count. by rewrite filter_map_length. }
  split; [done|]. intros Hids. rewrite Hn. rewrite filter_all; [done|].
  intros r Hr. specialize (Hids r Hr). by destruct (cell_of r "id").
Qed.

Example num_transacciones_counts_ids_null_id :
  cell_of null_id_group "num_transacciones"
    = Num (count_Q (length (List.filter
                              (fun r => negb (is_null (cell_of r "id")))
                              (Transform.rows_of_group null_id_batch null_id_group)))) /\
  ((forall r, r ∈ Transform.rows_of_group null_id_batch null_id_group ->
              cell_of r "id" <> Null) ->
   cell_of null_id_group "num_transacciones"
     = Num (count_Q (length (Transform.rows_of_group null_id_batch null_id_group)))).
Proof.
  apply (num_transacciones_counts_ids null_id_batch null_id_aggregated null_id_group).
  - vm_compute. reflexivity.
  - assert (rows null_id_aggregated = [null_id_group]) as ->
      by (vm_compute; reflexivity).
    apply list_elem_of_here.
Qed.

(** ** Conservation of the cleaning stage, away from null totals *)

Lemma select_mask_not_length {A} (m : list bool) (l : list A) :
  length m = length l ->
  length (select (mask_not m) l) + mask_sum m = length l.
Proof.
  revert l. induction m as [|b m IH]; intros [|x l] Hlen; simpl in *;
    try done.
  injection Hlen as Hlen. specialize (IH l Hlen). unfold mask_sum in *.
  destruct b; simpl; lia.
Qed.

Lemma mask_sum_zero_select {A} (m : list bool) (l : list A) :
  length m = length l -> mask_sum m = 0 -> select (mask_not m) l = l.
Proof.
  revert l. induction m as [|b m IH]; intros [|x l] Hlen Hsum; simpl in *;
    try done.
  injection Hlen as Hlen. unfold mask_sum in *.
  destruct b; simpl in *; [lia|]. by rewrite IH.
Qed.

Lemma duplicated_from_length (cols : list string) (seen rs : list row) :
  length (duplicated_from cols seen rs) = length rs.
Proof.
  revert seen. induction rs as [|r rs IH]; intros seen; simpl; [done|].
  by rewrite IH.
Qed.

(** On a series without nulls, [> k] is the complement of [<= k]. *)
Lemma series_gt_complement (s : list cell) (k : Q) (bad good : list bool) :
  (forall c, c ∈ s -> c <> Null) ->
  series_le s (Some k) = Ok bad ->
  series_gt s (Some k) = Ok good ->
  good = mask_not bad.
Proof.
  unfold series_le, series_gt. revert bad good.
  induction s as [|c s IH]; intros bad good Hnn Hbad Hgood; simpl in *.
  - inversion Hbad. by inversion Hgood.
  - bind_inv Hbad as b Hb. bind_inv Hbad as bs Hbs.
    bind_inv Hgood as g Hg. bind_inv Hgood as gs Hgs.
    inversion Hbad; inversion Hgood; subst. simpl. f_equal.
    + destruct c; simpl in *; try discriminate.
      * exfalso. apply (Hnn Null); [apply list_elem_of_here|done].
      * inversion Hb; inversion Hg. done.
    + apply IH; try done. intros c' Hc'. apply Hnn. by apply list_elem_of_further.
Qed.

(** On a series without nulls, and between two fences that are numbers,
    the filter of [remove_outliers] is the complement of its count. *)
Lemma outlier_masks_complement (s : list cell) (lo hi : Q)
  (below above not_below not_above : list bool) :
  (forall c, c ∈ s -> c <> Null) ->
  series_lt s (Some lo) = Ok below ->
  series_gt s (Some hi) = Ok above ->
  series_ge s (Some lo) = Ok not_below ->
  series_le s (Some hi) = Ok not_above ->
  mask_and not_below not_above = mask_not (mask_or below above).
Proof.
  unfold series_lt, series_gt, series_ge, series_le.
  revert below above not_below not_above.
  induction s as [|c s IH]; intros below above not_below not_above
    Hnn H1 H2 H3 H4; simpl in *.
  - inversion H1; inversion H2; inversion H3; inversion H4. done.
  - bind_inv H1 as b1 Hb1. bind_inv H1 as bs1 Hbs1.
    bind_inv H2 as b2 Hb2. bind_inv H2 as bs2 Hbs2.
    bind_inv H3 as b3 Hb3. bind_inv H3 as bs3 Hbs3.
    bind_inv H4 as b4 Hb4. bind_inv H4 as bs4 Hbs4.
    inversion H1; inversion H2; inversion H3; inversion H4; subst.
    unfold mask_and, mask_or, mask_not in *. simpl. f_equal.
    + destruct c; simpl in *; try discriminate.
      * exfalso. apply (Hnn Null); [apply list_elem_of_here|done].
      * inversion Hb1; inversion Hb2; inversion Hb3; inversion Hb4.
        unfold Qgt_bool, Qge_bool, Qlt_bool.
        by destruct (Qle_bool lo q), (Qle_bool q hi).
    + apply (IH bs1 bs2 bs3 bs4); try done.
      intros c' Hc'. apply Hnn. by apply list_elem_of_further.
Qed.

Section Conservation.
Context `{Scalars} `{Float64}.

(** When the column has no null and the two fences are numbers, the rows
    [remove_outliers] keeps and the rows it counts are all the rows. *)
Lemma remove_outliers_conservation (df d : DataFrame) (column : string) (n : nat) :
  Transform.remove_outliers df column = Ok (d, n) ->
  (forall r, r ∈ rows df -> cell_of r column <> Null) ->
  (forall s, getcol df column = Ok s ->
             exists lo hi, Transform.outlier_bounds s = Ok (Some lo, Some hi)) ->
  len d + n = len df.
Proof.
  unfold Transform.remove_outliers. intros Hr Hnn Hfences.
  bind_inv Hr as s Hs. bind_inv Hr as [lower upper] Hbounds.
  bind_inv Hr as below Hbelow. bind_inv Hr as above Habove.
  bind_inv Hr as not_below Hge. bind_inv Hr as not_above Hle.
  inversion Hr; subst d n; clear Hr.
  destruct (Hfences s Hs) as (lo & hi & Hnum). rewrite Hnum in Hbounds.
  inversion Hbounds; subst lower upper; clear Hbounds.
  apply getcol_ok in Hs as [_ Hs].
  assert (Hs_nn : forall c, c ∈ s -> c <> Null).
  { intros c Hc. rewrite Hs in Hc.
    apply list_elem_of_fmap in Hc as (r & -> & Hr). by apply Hnn. }
  assert (Hlen : length (mask_or below above) = length (rows df)).
  { unfold mask_or. rewrite length_zip_with_l_eq.
    - rewrite (traverse_length _ _ _ Hbelow), Hs. apply length_map.
    - by rewrite (traverse_length _ _ _ Hbelow), (traverse_length _ _ _ Habove). }
  unfold len, df_select. simpl.
  rewrite (outlier_masks_complement _ _ _ _ _ _ _ Hs_nn Hbelow Habove Hge Hle).
  by apply select_mask_not_length.
Qed.

Lemma normalize_text_len (cols : list string) (df d : DataFrame) :
  Transform.normalize_text cols df = Ok d -> len d = len df.
Proof.
  revert df. induction cols as [|col cols IH]; intros df Hn; simpl in Hn.
  - by inversion Hn.
  - destruct (has_column df col); [|by apply IH].
    bind_inv Hn as s Hs. rewrite (IH _ Hn). apply setcol_len.
    unfold str_strip_title. rewrite length_map. by eapply getcol_length.
Qed.

(** A row that [dropna] keeps has no null in the listed columns; when the
    count of rows with a null is zero, no row has one. *)
Lemma any_null_kept (df : DataFrame) (cols : list string) (m : list bool)
  (r : row) (c : string) :
  any_null df cols = Ok m ->
  r ∈ select (mask_not m) (rows df) -> c ∈ cols -> cell_of r c <> Null.
Proof.
  unfold any_null. intros Hm Hr Hc. bind_inv Hm as u Hu.
  inversion Hm; subst m; clear Hm.
  destruct (select_elem _ _ _ Hr) as (i & Hmask & Hrow).
  unfold mask_not in Hmask. rewrite !list_lookup_fmap, Hrow in Hmask.
  simpl in Hmask. inversion Hmask as [Hex]. apply negb_true_iff in Hex.
  intros Hnull.
  assert (Htrue : existsb (fun c => is_null (cell_of r c)) cols = true).
  { apply existsb_exists. exists c. split; [by apply list_elem_of_In|].
    by rewrite Hnull. }
  congruence.
Qed.

Lemma any_null_length (df : DataFrame) (cols : list string) (m : list bool) :
  any_null df cols = Ok m -> length m = length (rows df).
Proof.
  unfold any_null. intros Hm. bind_inv Hm as u Hu.
  inversion Hm. apply length_map.
Qed.

(** Steps 1 to 4: the rows left, the duplicates, the rows with a null in a
    critical column, the bad quantities and the bad prices add up to the
    rows received; and a row that is left agrees with a row received on
    every column but [fecha] and [descuento]. *)
Lemma clean_before_outliers_conservation (df pre : DataFrame)
  (n1 n2 n3 n4 n5 : nat) :
  Transform.clean_before_outliers df = Ok (pre, (n1, n2, n3, n4, n5)) ->
  len pre + n1 + n3 + n4 + n5 = len df /\
  forall r', r' ∈ rows pre ->
    exists r, r ∈ rows df /\
      forall c, c <> "fecha" -> c <> "descuento" -> cell_of r' c = cell_of r c.
Proof.
  unfold Transform.clean_before_outliers. intros Hc.
  bind_inv Hc as fecha0 Hfecha0. bind_inv Hc as fecha Hfecha.
  set (df1 := setcol df "fecha" fecha) in *.
  assert (L1 : len df1 = len df).
  { apply setcol_len. rewrite (traverse_length _ _ _ Hfecha).
    by eapply getcol_length. }
  assert (R1 : forall r', r' ∈ rows df1 -> exists r, r ∈ rows df /\
            forall c, c <> "fecha" -> c <> "descuento" -> cell_of r' c = cell_of r c).
  { intros r' Hr'. apply setcol_elem in Hr' as (r & v & Hr & _ & ->).
    exists r. split; [done|]. intros c Hne _. by apply cell_of_insert_ne. }
  clearbody df1. clear Hfecha0 Hfecha.
  set (n_dup := mask_sum (duplicated df1)) in *.
  set (df2 := if 0 <? n_dup then drop_duplicates df1 else df1) in *.
  assert (L2 : len df2 + n_dup = len df1).
  { unfold df2. destruct (0 <? n_dup) eqn:Hpos.
    - unfold drop_duplicates, len, df_select. simpl.
      apply select_mask_not_length. apply duplicated_from_length.
    - apply Nat.ltb_ge in Hpos. lia. }
  assert (R2 : forall r, r ∈ rows df2 -> r ∈ rows df1).
  { unfold df2. destruct (0 <? n_dup); [|done].
    intros r. apply df_select_elem. }
  clearbody df2 n_dup.
  bind_inv Hc as [df3 nd] Hdesc.
  assert (L3 : len df3 = len df2 /\
               forall r', r' ∈ rows df3 -> exists r, r ∈ rows df2 /\
                 forall c, c <> "descuento" -> cell_of r' c = cell_of r c).
  { destruct (has_column df2 "descuento").
    - bind_inv Hdesc as s Hs. inversion Hdesc; subst df3 nd; clear Hdesc.
      destruct (0 <? mask_sum (map is_null s)); [|by eauto].
      split.
      + apply setcol_len. unfold fillna. rewrite length_map.
        by eapply getcol_length.
      + intros r' Hr'. apply setcol_elem in Hr' as (r & v & Hr & _ & ->).
        exists r. split; [done|]. intros c Hne. by apply cell_of_insert_ne.
    - inversion Hdesc; subst. by eauto. }
  destruct L3 as [L3 R3]. clear Hdesc.
  bind_inv Hc as nulls Hnulls. bind_inv Hc as df4 Hdrop.
  assert (L4 : len df4 + mask_sum nulls = len df3 /\
               (forall r, r ∈ rows df4 -> r ∈ rows df3) /\
               forall r c, r ∈ rows df4 -> c ∈ Transform.critical_columns ->
                           cell_of r c <> Null).
  { pose proof (any_null_length _ _ _ Hnulls) as Hlen.
    destruct (0 <? mask_sum nulls) eqn:Hpos.
    - unfold dropna in Hdrop. rewrite Hnulls in Hdrop. simpl in Hdrop.
      inversion Hdrop; subst df4. unfold len, df_select. simpl.
      split_and!.
      + by apply select_mask_not_length.
      + intros r Hr. destruct (select_elem _ _ _ Hr) as (i & _ & Hi).
        by eapply list_elem_of_lookup_2.
      + intros r c Hr Hcol. by eapply any_null_kept.
    - inversion Hdrop; subst df4. apply Nat.ltb_ge in Hpos.
      assert (Hz : mask_sum nulls = 0) by lia.
      split_and!; [lia|done|].
      intros r c Hr Hcol. eapply any_null_kept; [exact Hnulls| |exact Hcol].
      by rewrite mask_sum_zero_select. }
  destruct L4 as (L4 & R4 & N4). clear Hdrop Hnulls.
  bind_inv Hc as cantidad Hcantidad. bind_inv Hc as bad_qty Hbad_qty.
  bind_inv Hc as df5 Hqty.
  assert (L5 : len df5 + mask_sum bad_qty = len df4 /\
               forall r, r ∈ rows df5 -> r ∈ rows df4).
  { pose proof (getcol_length _ _ _ Hcantidad) as Hlen.
    rewrite <-(traverse_length _ _ _ Hbad_qty) in Hlen.
    destruct (0 <? mask_sum bad_qty) eqn:Hpos.
    - bind_inv Hqty as good_qty Hgood. inversion Hqty; subst df5.
      assert (Hcompl : good_qty = mask_not bad_qty).
      { eapply series_gt_complement; [|exact Hbad_qty|exact Hgood].
        intros c Hc'. apply getcol_ok in Hcantidad as [_ ->].
        apply list_elem_of_fmap in Hc' as (r & -> & Hr).
        apply N4; [done|]. unfold Transform.critical_columns. set_solver. }
      subst good_qty. unfold len, df_select. simpl. split.
      + by apply select_mask_not_length.
      + intros r. apply df_select_elem.
    - inversion Hqty; subst df5. apply Nat.ltb_ge in Hpos. split; [lia|done]. }
  destruct L5 as [L5 R5]. clear Hqty Hbad_qty Hcantidad.
  bind_inv Hc as precio Hprecio. bind_inv Hc as bad_price Hbad_price.
  bind_inv Hc as df6 Hprice.
  inversion Hc; subst pre n1 n2 n3 n4 n5; clear Hc.
  assert (L6 : len df6 + mask_sum bad_price = len df5 /\
               forall r, r ∈ rows df6 -> r ∈ rows df5).
  { pose proof (getcol_length _ _ _ Hprecio) as Hlen.
    rewrite <-(traverse_length _ _ _ Hbad_price) in Hlen.
    destruct (0 <? mask_sum bad_price) eqn:Hpos.
    - bind_inv Hprice as good_price Hgood. inversion Hprice; subst df6.
      assert (Hcompl : good_price = mask_not bad_price).
      { eapply series_gt_complement; [|exact Hbad_price|exact Hgood].
        intros c Hc'. apply getcol_ok in Hprecio as [_ ->].
        apply list_elem_of_fmap in Hc' as (r & -> & Hr).
        apply N4; [by apply R5|]. unfold Transform.critical_columns. set_solver. }
      subst good_price. unfold len, df_select. simpl. split.
      + by apply select_mask_not_length.
      + intros r. apply df_select_elem.
    - inversion Hprice; subst df6. apply Nat.ltb_ge in Hpos. split; [lia|done]. }
  destruct L6 as [L6 R6]. split; [lia|].
  intros r' Hr'. apply R6, R5, R4 in Hr'.
  destruct (R3 _ Hr') as (r3 & Hr3 & E3). apply R2 in Hr3.
  destruct (R1 _ Hr3) as (r & Hr & E1).
  exists r. split; [done|]. intros c Hf Hd. rewrite E3, E1; done.
Qed.

(** Conservation of [clean_data] on the batches in which every row has a
    [total_venta] and the two fences of the outlier filter are numbers
    (neither is NaN): the rows returned and the counts of the five removing
    steps add up to the rows received. *)
Lemma clean_data_conservation (df cleaned : DataFrame) (log : Transform.clean_log) :
  Transform.clean_data_logged df = Ok (cleaned, log) ->
  (forall r, r ∈ rows df -> cell_of r "total_venta" <> Null) ->
  (forall pre counts s,
     Transform.clean_before_outliers df = Ok (pre, counts) ->
     getcol pre "total_venta" = Ok s ->
     exists lo hi, Transform.outlier_bounds s = Ok (Some lo, Some hi)) ->
  Transform.initial_rows log = len df /\
  Transform.final_rows log = len cleaned /\
  len cleaned + Transform.duplicates log + Transform.null_critical log
    + Transform.invalid_qty log + Transform.invalid_price log
    + Transform.outliers_removed log = len df.
Proof.
  unfold Transform.clean_data_logged. intros Hc Hnn Hfences.
  bind_inv Hc as [pre counts] Hpre.
  specialize (Hfences pre counts).
  destruct counts as [[[[n1 n2] n3] n4] n5].
  bind_inv Hc as [filtered n6] Hout. bind_inv Hc as normalized Hnorm.
  destruct (len df =? 0); [discriminate|].
  inversion Hc; subst cleaned log; clear Hc. simpl.
  destruct (clean_before_outliers_conservation _ _ _ _ _ _ _ Hpre) as [Lpre Rpre].
  apply normalize_text_len in Hnorm.
  assert (Lout : len filtered + n6 = len pre).
  { destruct (has_column pre "total_venta").
    - eapply remove_outliers_conservation; [exact Hout| |].
      + intros r' Hr'. destruct (Rpre _ Hr') as (r & Hr & E).
        rewrite E; [by apply Hnn|done..].
      + intros s Hs. by apply Hfences.
    - inversion Hout; subst. lia. }
  split_and!; try done. lia.
Qed.

End Conservation.

Lemma clean_data_conservation_witness :
  view ["cantidad"] invalid_quantity_batch = [[Num 1]; [Num 0]; [Num (-1)]] /\
  Transform.invalid_qty (snd (cleaned_logged invalid_quantity_batch)) = 2 /\
  Transform.initial_rows (snd (cleaned_logged invalid_quantity_batch))
    = len invalid_quantity_batch /\
  Transform.final_rows (snd (cleaned_logged invalid_quantity_batch))
    = len (fst (cleaned_logged invalid_quantity_batch)) /\
  len (fst (cleaned_logged invalid_quantity_batch))
    + Transform.duplicates (snd (cleaned_logged invalid_quantity_batch))
    + Transform.null_critical (snd (cleaned_logged invalid_quantity_batch))
    + Transform.invalid_qty (snd (cleaned_logged invalid_quantity_batch))
    + Transform.invalid_price (snd (cleaned_logged invalid_quantity_batch))
    + Transform.outliers_removed (snd (cleaned_logged invalid_quantity_batch))
    = len invalid_quantity_batch.
Proof.
  split; [vm_compute; reflexivity|]. split; [vm_compute; reflexivity|].
  apply (clean_data_conservation invalid_quantity_batch).
  - vm_compute. reflexivity.
  - intros r Hr. unfold invalid_quantity_batch in Hr. cbn [rows] in Hr.
    repeat (apply elem_of_cons in Hr as [->|Hr]; [vm_compute; discriminate|]).
    by apply elem_of_nil in Hr.
  - intros pre counts s Hpre Hs. vm_compute in Hpre.
    injection Hpre as <- <-. vm_compute in Hs. injection Hs as <-.
    eexists _, _. vm_compute. reflexivity.
Defined.

(** ** Rounding and sums *)

Lemma rint_error (x : Q) : (Qabs (inject_Z (rint x) - x) <= 1 # 2)%Q.
Proof.
  pose proof (Qfloor_le x) as Hlo. pose proof (Qlt_floor x) as Hhi.
  rewrite inject_Z_plus in Hhi. change (inject_Z 1) with 1%Q in Hhi.
  apply Qabs_Qle_condition. unfold rint.
  destruct (Qcompare_spec (x - inject_Z (Qfloor x)) (1 # 2)) as [Heq|Hlt|Hgt].
  - destruct (Z.even (Qfloor x)).
    + split; lra.
    + rewrite inject_Z_plus. change (inject_Z 1) with 1%Q. split; lra.
  - split; lra.
  - rewrite inject_Z_plus. change (inject_Z 1) with 1%Q. split; lra.
Qed.

(** Rounding to two decimals moves a number by at most 0.005. *)
Lemma round_to_2_error (x : Q) : (Qabs (round_to 2 x - x) <= 0.005)%Q.
Proof.
  unfold round_to. change (inject_Z (10 ^ Z.of_nat 2)) with 100%Q.
  pose proof (rint_error (x * 100)) as Herr.
  apply Qabs_Qle_condition in Herr as [Hlo Hhi]. apply Qabs_Qle_condition.
  set (y := inject_Z (rint (x * 100))) in *. clearbody y.
  unfold Qdiv. change (/ 100)%Q with (1 # 100)%Q.
  split; lra.
Qed.

Lemma count_Q_S (n : nat) : (count_Q (S n) == count_Q n + 1)%Q.
Proof.
  unfold count_Q. rewrite Nat2Z.inj_succ, <-Z.add_1_r, inject_Z_plus. done.
Qed.

Lemma count_Q_nonneg (n : nat) : (0 <= count_Q n)%Q.
Proof.
  unfold count_Q. change 0%Q with (inject_Z 0). rewrite <-Zle_Qle. lia.
Qed.

Lemma sumQ_nil : sumQ [] = 0%Q.
Proof. reflexivity. Qed.

Lemma sumQ_cons (x : Q) (l : list Q) : sumQ (x :: l) = (x + sumQ l)%Q.
Proof. reflexivity. Qed.

Lemma sum_round_error (l : list Q) :
  (Qabs (sumQ (map (round_to 2) l) - sumQ l) <= 0.005 * count_Q (length l))%Q.
Proof.
  induction l as [|x l IH]; cbn [map length].
  - rewrite sumQ_nil. change (count_Q 0) with 0%Q.
    apply Qabs_Qle_condition. split; lra.
  - rewrite !sumQ_cons, count_Q_S.
    pose proof (round_to_2_error x) as Hx.
    apply Qabs_Qle_condition in Hx as [Hx1 Hx2].
    apply Qabs_Qle_condition in IH as [IH1 IH2].
    apply Qabs_Qle_condition. split; lra.
Qed.

Lemma sumQ_ext {A} (f g : A -> Q) (l : list A) :
  (forall x, x ∈ l -> (f x == g x)%Q) ->
  (sumQ (map f l) == sumQ (map g l))%Q.
Proof.
  induction l as [|x l IH]; intros Hfg; cbn [map]; [reflexivity|].
  rewrite !sumQ_cons.
  rewrite (Hfg x) by apply list_elem_of_here.
  rewrite IH; [reflexivity|].
  intros y Hy. apply Hfg. by apply list_elem_of_further.
Qed.

Lemma sumQ_zero {A} (f : A -> Q) (l : list A) :
  (forall x, x ∈ l -> (f x == 0)%Q) -> (sumQ (map f l) == 0)%Q.
Proof.
  induction l as [|x l IH]; intros Hf; cbn [map]; [reflexivity|].
  rewrite sumQ_cons.
  rewrite (Hf x) by apply list_elem_of_here.
  rewrite IH; [lra|]. intros y Hy. apply Hf. by apply list_elem_of_further.
Qed.

Lemma sumQ_filter {A} (p : A -> bool) (f : A -> Q) (l : list A) :
  (sumQ (map f (List.filter p l))
   == sumQ (map (fun x => if p x then f x else 0) l))%Q.
Proof.
  induction l as [|x l IH]; cbn [map List.filter]; [reflexivity|].
  rewrite sumQ_cons.
  destruct (p x); cbn [map]; rewrite ?sumQ_cons, IH; lra.
Qed.

Lemma sumQ_plus {A} (f g : A -> Q) (l : list A) :
  (sumQ (map (fun x => f x + g x) l) == sumQ (map f l) + sumQ (map g l))%Q.
Proof.
  induction l as [|x l IH]; cbn [map].
  - rewrite sumQ_nil. lra.
  - rewrite !sumQ_cons, IH. lra.
Qed.

Lemma sumQ_swap {A B} (g : A -> B -> Q) (ks : list A) (l : list B) :
  (sumQ (map (fun k => sumQ (map (g k) l)) ks)
   == sumQ (map (fun x => sumQ (map (fun k => g k x) ks)) l))%Q.
Proof.
  induction ks as [|k ks IH]; cbn [map].
  - rewrite sumQ_nil. symmetry. apply sumQ_zero. intros x _. reflexivity.
  - rewrite sumQ_cons, IH.
    rewrite <-sumQ_plus. apply sumQ_ext. intros x _. reflexivity.
Qed.

Lemma sumQ_Permutation (l1 l2 : list Q) :
  l1 ≡ₚ l2 -> (sumQ l1 == sumQ l2)%Q.
Proof.
  induction 1 as [|x l1 l2 _ IH|x y l|l1 l2 l3 _ IH1 _ IH2].
  - reflexivity.
  - by rewrite !sumQ_cons, IH.
  - rewrite !sumQ_cons. lra.
  - by rewrite IH1.
Qed.

(** ** Keys are compared by an equivalence *)

Lemma cell_eqb_refl (c : cell) : cell_eqb c c = true.
Proof.
  destruct c; simpl; [done|apply Qeq_bool_refl|apply String.eqb_refl|apply Z.eqb_refl].
Qed.

Lemma cell_eqb_sym (a b : cell) : cell_eqb a b = cell_eqb b a.
Proof.
  destruct a, b; simpl; try done;
    [apply Qeq_bool_comm|apply String.eqb_sym|apply Z.eqb_sym].
Qed.

Lemma cell_eqb_trans (a b c : cell) :
  cell_eqb a b = true -> cell_eqb b c = true -> cell_eqb a c = true.
Proof.
  destruct a, b, c; simpl; try done.
  - apply Qeq_bool_trans.
  - intros E1 E2. apply String.eqb_eq in E1, E2. subst. apply String.eqb_refl.
  - intros E1 E2. apply Z.eqb_eq in E1, E2. subst. apply Z.eqb_refl.
Qed.

Lemma key_eqb_refl (k : list cell) : key_eqb k k = true.
Proof.
  induction k as [|c k IH]; simpl; [done|]. by rewrite cell_eqb_refl, IH.
Qed.

Lemma key_eqb_sym (k1 k2 : list cell) : key_eqb k1 k2 = key_eqb k2 k1.
Proof.
  revert k2. induction k1 as [|a k1 IH]; intros [|b k2]; simpl; try done.
  by rewrite cell_eqb_sym, IH.
Qed.

Lemma key_eqb_trans (k1 k2 k3 : list cell) :
  key_eqb k1 k2 = true -> key_eqb k2 k3 = true -> key_eqb k1 k3 = true.
Proof.
  revert k2 k3. induction k1 as [|a k1 IH]; intros [|b k2] [|c k3]; simpl;
    try done.
  rewrite !andb_true_iff. intros [E1 F1] [E2 F2]. split.
  - by eapply cell_eqb_trans.
  - by eapply IH.
Qed.

(** Among the distinct keys, exactly one matches a key that occurs. *)
Lemma uniq_match_sum (k' : list cell) (c : Q) (ks : list (list cell)) :
  (sumQ (map (fun k => if key_eqb k' k then c else 0) (uniq ks))
   == if existsb (key_eqb k') ks then c else 0)%Q.
Proof.
  induction ks as [|k0 ks IH]; cbn [uniq map existsb]; [reflexivity|].
  rewrite sumQ_cons, sumQ_filter.
  destruct (key_eqb k' k0) eqn:E0; cbn [orb].
  - rewrite sumQ_zero; [lra|]. intros k _.
    destruct (key_eqb k k0) eqn:En; cbn [negb]; [reflexivity|].
    destruct (key_eqb k' k) eqn:Ek; [|reflexivity].
    exfalso. rewrite key_eqb_sym in Ek.
    rewrite (key_eqb_trans _ _ _ Ek E0) in En. discriminate.
  - rewrite <-IH, Qplus_0_l. apply sumQ_ext. intros k _.
    destruct (key_eqb k k0) eqn:En; cbn [negb]; [|reflexivity].
    destruct (key_eqb k' k) eqn:Ek; [|reflexivity].
    exfalso. rewrite (key_eqb_trans _ _ _ Ek En) in E0. discriminate.
Qed.

(** The groups partition the rows that have a key: summing a quantity
    group by group gives its sum over the batch. *)
Lemma groups_sum_partition (keys : list string) (val : row -> Q)
  (rs : list row) (ks : list (list cell)) :
  ks ≡ₚ uniq (omap (key_of keys) rs) ->
  (forall r, r ∈ rs -> key_of keys r <> None) ->
  (sumQ (map (fun k => sumQ (map val (List.filter (same_key keys k) rs))) ks)
   == sumQ (map val rs))%Q.
Proof.
  intros Hperm Hkeys.
  rewrite (sumQ_Permutation _
             (map (fun k => sumQ (map val (List.filter (same_key keys k) rs)))
                (uniq (omap (key_of keys) rs))))
    by (by apply Permutation_map).
  transitivity
    (sumQ (map (fun k => sumQ (map (fun r => if same_key keys k r then val r else 0%Q) rs))
             (uniq (omap (key_of keys) rs)))).
  { apply sumQ_ext. intros k _. apply sumQ_filter. }
  rewrite (sumQ_swap (fun k r => if same_key keys k r then val r else 0%Q)).
  apply sumQ_ext. intros r Hr.
  destruct (key_of keys r) as [k'|] eqn:Hk; [|by destruct (Hkeys r Hr)].
  transitivity
    (sumQ (map (fun k => if key_eqb k' k then val r else 0%Q)
             (uniq (omap (key_of keys) rs)))).
  { apply sumQ_ext. intros k _. unfold same_key. by rewrite Hk. }
  rewrite uniq_match_sum.
  assert (Hex : existsb (key_eqb k') (omap (key_of keys) rs) = true).
  { apply existsb_exists. exists k'. split; [|apply key_eqb_refl].
    apply list_elem_of_In, list_elem_of_omap. by exists r. }
  rewrite Hex. reflexivity.
Qed.

Lemma uniq_representative (ks : list (list cell)) (k' : list cell) :
  k' ∈ ks -> exists k, k ∈ uniq ks /\ key_eqb k' k = true.
Proof.
  induction ks as [|k0 ks IH]; intros Hin; [by apply elem_of_nil in Hin|].
  cbn [uniq]. apply elem_of_cons in Hin as [->|Hin].
  - exists k0. split; [apply list_elem_of_here|apply key_eqb_refl].
  - destruct (IH Hin) as (k & Hk & E).
    destruct (key_eqb k k0) eqn:En.
    + exists k0. split; [apply list_elem_of_here|by eapply key_eqb_trans].
    + exists k. split; [|done]. apply list_elem_of_further, filter_elem.
      split; [done|]. by rewrite En.
Qed.

(** ** Aggregation keeps the sum, away from null keys *)

Lemma numeric_values_sum (s : list cell) (vals : list Q) :
  numeric_values s = Ok vals ->
  (sumQ vals == sumQ (map number_or_zero s))%Q.
Proof.
  unfold numeric_values. intros Hv. bind_inv Hv as l Hl.
  inversion Hv; subst vals; clear Hv. revert l Hl.
  induction s as [|c s IH]; intros l Hl; cbn [traverse] in Hl.
  - inversion Hl. reflexivity.
  - bind_inv Hl as o Ho. bind_inv Hl as os Hos.
    inversion Hl; subst l; clear Hl. specialize (IH _ Hos).
    cbn [map]. rewrite sumQ_cons.
    destruct c as [|q| |]; simpl in Ho; inversion Ho; subst o.
    + change (omap id (None :: os)) with (omap id os).
      change (number_or_zero Null) with 0%Q. rewrite IH. lra.
    + change (omap id (Some q :: os)) with (q :: omap id os).
      change (number_or_zero (Num q)) with q. by rewrite sumQ_cons, IH.
Qed.

Lemma numeric_values_nums {A} (f : A -> Q) (l : list A) :
  numeric_values (map (fun x => Num (f x)) l) = Ok (map f l).
Proof.
  unfold numeric_values.
  assert (Ht : traverse cell_number (map (fun x => Num (f x)) l)
               = Ok (map (fun x => Some (f x)) l)).
  { induction l as [|x l IH]; cbn [map traverse]; [done|].
    rewrite IH. done. }
  rewrite Ht. unfold Py.bind. f_equal. clear Ht.
  induction l as [|x l IH]; [done|].
  change (omap id (map (fun x => Some (f x)) (x :: l)))
    with (f x :: omap id (map (fun x => Some (f x)) l)).
  by rewrite IH.
Qed.

Lemma groupby_ok (df : DataFrame) (keys : list string)
  (groups : list (list cell * list row)) :
  groupby df keys = Ok groups ->
  groups = map (fun k => (k, List.filter (same_key keys k) (rows df)))
             (merge_sort key_le (uniq (omap (key_of keys) (rows df)))).
Proof.
  unfold groupby. intros Hg. bind_inv Hg as u Hu. by inversion Hg.
Qed.

(** The [total_venta] of an aggregated row is the rounded sum of the
    [total_venta] of its group. *)
Lemma agg_group_total (df : DataFrame) (groups : list (list cell * list row))
  (k : list cell) (rs : list row) (a0 : row) :
  groupby df Transform.group_keys = Ok groups -> (k, rs) ∈ groups ->
  Transform.agg_group (k, rs) = Ok a0 ->
  exists vals,
    numeric_values (map (fun r => cell_of r "total_venta") rs) = Ok vals /\
    cell_of (Transform.aggregated_row a0) "total_venta"
      = Num (round_to 2 (sumQ vals)).
Proof.
  intros Hg Hin Hgroup.
  destruct (groupby_elem _ _ _ _ _ Hg Hin) as (Hrs & r0 & Hr0 & Hkey).
  unfold Transform.agg_group in Hgroup.
  bind_inv Hgroup as cantidad Hcantidad. bind_inv Hgroup as precio Hprecio.
  bind_inv Hgroup as descuento Hdescuento. bind_inv Hgroup as total Htotal.
  destruct (key_of_some _ _ _ Hkey) as [Hk _].
  unfold Transform.group_keys in Hk. simpl in Hk.
  assert (Ea0 : a0 = make_row (Transform.group_keys ++ Transform.agg_columns)
                  [cell_of r0 "fecha"; cell_of r0 "producto";
                   cell_of r0 "categoria"; cell_of r0 "region";
                   cantidad; precio; descuento; total;
                   series_count (map (fun r => cell_of r "id") rs)]).
  { inversion Hgroup. by rewrite Hk. }
  subst a0.
  destruct (aggregated_row_cells (cell_of r0 "fecha") (cell_of r0 "producto")
              (cell_of r0 "categoria") (cell_of r0 "region")
              cantidad precio descuento total
              (series_count (map (fun r => cell_of r "id") rs)))
    as (_ & Etotal & _).
  unfold series_sum in Htotal. bind_inv Htotal as vals Hvals.
  inversion Htotal; subst total. exists vals. split; [done|].
  by rewrite Etotal.
Qed.

Lemma aggregate_data_has_total_venta (df aggregated : DataFrame) :
  Transform.aggregate_data df = Ok aggregated ->
  has_column df "total_venta" = true /\
  has_column aggregated "total_venta" = true.
Proof.
  unfold Transform.aggregate_data. intros Ha.
  bind_inv Ha as groups Hgroups. bind_inv Ha as u Hu.
  bind_inv Ha as agg_rows Hagg.
  bind_inv Ha as d1 H1. bind_inv Ha as d2 H2. bind_inv Ha as d3 H3.
  destruct (len df =? 0); [discriminate|]. inversion Ha; subst d3; clear Ha.
  split.
  - unfold check_columns in Hu.
    destruct (forallb (has_column df) Transform.agg_columns) eqn:Hall;
      [|discriminate].
    unfold Transform.agg_columns in Hall. simpl in Hall.
    rewrite !andb_true_iff in Hall. tauto.
  - unfold Transform.round_column in H1, H2, H3.
    bind_inv H1 as s1 Hs1. bind_inv H2 as s2 Hs2. bind_inv H3 as s3 Hs3.
    inversion H3; subst aggregated. unfold has_column.
    apply getcol_ok in Hs3 as [Hc3 _].
    rewrite has_column_setcol; done.
Qed.

(** Sum preservation of [aggregate_data] on the batches in which every row
    has its four key cells: the sum of [total_venta] over the aggregated
    rows differs from the sum over the batch by at most 0.005 per group,
    hence by at most 0.01 per group. *)
Lemma aggregate_data_sum_preserved (df aggregated : DataFrame) :
  Transform.aggregate_data df = Ok aggregated ->
  (forall r, r ∈ rows df -> key_of Transform.group_keys r <> None) ->
  exists sum_cleaned sum_aggregated,
    Transform.total_venta_sum df = Ok (Num sum_cleaned) /\
    Transform.total_venta_sum aggregated = Ok (Num sum_aggregated) /\
    (Qabs (sum_aggregated - sum_cleaned) <= 0.005 * count_Q (len aggregated))%Q /\
    (Qabs (sum_aggregated - sum_cleaned) <= 0.01 * count_Q (len aggregated))%Q.
Proof.
  intros Hagg Hkeys.
  destruct (aggregate_data_rows _ _ Hagg) as (groups & agg_rows & Hg & Ht & Hrows).
  destruct (aggregate_data_has_total_venta _ _ Hagg) as [Hcol Hcol'].
  pose proof (groupby_ok _ _ _ Hg) as Hgroups.
  set (tv := fun r : row => cell_of r "total_venta") in *.
  set (ks := merge_sort key_le (uniq (omap (key_of Transform.group_keys) (rows df)))) in *.
  set (s_of := fun g : list cell * list row =>
                 sumQ (value_or [] (numeric_values (map tv (snd g))))).
  (* every group was aggregated *)
  assert (Hgroup_ok : forall g, g ∈ groups ->
            exists vals a0, numeric_values (map tv (snd g)) = Ok vals /\
                            Transform.agg_group g = Ok a0).
  { intros [k rs] Hin.
    destruct (traverse_elem _ _ _ _ Ht Hin) as (a0 & _ & Ha0).
    destruct (agg_group_total _ _ _ _ _ Hg Hin Ha0) as (vals & Hvals & _).
    by exists vals, a0. }
  (* the aggregated column *)
  assert (Hcolumn : map tv (rows aggregated)
                    = map (fun g => Num (round_to 2 (s_of g))) groups).
  { rewrite Hrows. apply list_eq. intros i.
    rewrite !list_lookup_fmap.
    destruct (agg_rows !! i) as [a0|] eqn:Ha0; simpl.
    - destruct (traverse_lookup _ _ _ _ _ Ht Ha0) as ([k rs] & Hgi & Hgroup).
      rewrite Hgi. simpl. f_equal.
      assert (Hin : (k, rs) ∈ groups) by by eapply list_elem_of_lookup_2.
      destruct (agg_group_total _ _ _ _ _ Hg Hin Hgroup) as (vals & Hvals & Hcell).
      fold tv in Hvals. unfold s_of. cbn [snd]. rewrite Hvals.
      exact Hcell.
    - apply lookup_ge_None in Ha0.
      rewrite (traverse_length _ _ _ Ht) in Ha0.
      apply lookup_ge_None in Ha0. by rewrite Ha0. }
  (* the sum over the batch *)
  assert (Hall : exists vals, numeric_values (map tv (rows df)) = Ok vals).
  { unfold numeric_values.
    destruct (traverse_all_ok cell_number (map tv (rows df))) as [l Hl];
      [|rewrite Hl; by eexists].
    intros c Hc. apply list_elem_of_fmap in Hc as (r & -> & Hr).
    destruct (key_of Transform.group_keys r) as [k'|] eqn:Hk;
      [|by destruct (Hkeys r Hr)].
    assert (Hk' : k' ∈ omap (key_of Transform.group_keys) (rows df))
      by (apply list_elem_of_omap; by exists r).
    destruct (uniq_representative _ _ Hk') as (k & Hku & E).
    assert (Hin : (k, List.filter (same_key Transform.group_keys k) (rows df))
                  ∈ groups).
    { rewrite Hgroups.
      apply (list_elem_of_fmap_2
               (fun k => (k, List.filter (same_key Transform.group_keys k) (rows df)))).
      unfold ks. by rewrite merge_sort_Permutation. }
    destruct (Hgroup_ok _ Hin) as (vals & a0 & Hvals & _).
    unfold numeric_values in Hvals. bind_inv Hvals as l Hl.
    assert (Hr' : tv r ∈ map tv (List.filter (same_key Transform.group_keys k) (rows df))).
    { apply (list_elem_of_fmap_2 tv), filter_elem. split; [done|].
      unfold same_key. by rewrite Hk. }
    destruct (traverse_elem _ _ _ _ Hl Hr') as (o & _ & Ho). by exists o. }
  destruct Hall as [vals_all Hvals_all].
  exists (sumQ vals_all), (sumQ (map (round_to 2) (map s_of groups))).
  assert (Hsum : (sumQ (map s_of groups) == sumQ vals_all)%Q).
  { rewrite (numeric_values_sum _ _ Hvals_all), map_map.
    rewrite <-(groups_sum_partition Transform.group_keys
                 (fun r => number_or_zero (tv r)) (rows df) ks);
      [|apply merge_sort_Permutation|done].
    rewrite Hgroups, map_map. apply sumQ_ext. intros k Hk.
    assert (Hin : (k, List.filter (same_key Transform.group_keys k) (rows df))
                  ∈ groups).
    { rewrite Hgroups.
      by apply (list_elem_of_fmap_2
               (fun k => (k, List.filter (same_key Transform.group_keys k) (rows df)))). }
    destruct (Hgroup_ok _ Hin) as (vals & a0 & Hvals & _).
    unfold s_of. cbn [snd] in *. rewrite Hvals.
    change (value_or [] (Ok vals)) with vals.
    rewrite (numeric_values_sum _ _ Hvals), map_map. reflexivity. }
  assert (Hlen : len aggregated = length (map s_of groups)).
  { unfold len. rewrite Hrows, !length_map. by eapply traverse_length. }
  assert (Herr : (Qabs (sumQ (map (round_to 2) (map s_of groups)) - sumQ vals_all)
                  <= 0.005 * count_Q (len aggregated))%Q).
  { rewrite <-Hsum, Hlen. apply sum_round_error. }
  split_and!.
  - unfold Transform.total_venta_sum, getcol. rewrite Hcol. simpl.
    unfold series_sum. fold tv. by rewrite Hvals_all.
  - unfold Transform.total_venta_sum, getcol. rewrite Hcol'. simpl.
    unfold series_sum. fold tv. rewrite Hcolumn.
    rewrite (numeric_values_nums (fun g => round_to 2 (s_of g)) groups).
    simpl. by rewrite map_map.
  - exact Herr.
  - pose proof (count_Q_nonneg (len aggregated)) as Hn.
    eapply Qle_trans; [exact Herr|]. lra.
Qed.

(** ** The model on the batches of the repository's tests *)

(** [test_clean_data_removes_nulls]: no null [descuento] is left. *)
Example clean_fixture_fills_descuento :
  view ["descuento"] (value_or transform_fixture
                        (Transform.clean_data transform_fixture))
  = [[Num 0.1]; [Num 0]; [Num 0]; [Num 0.05]; [Num 0]].
Proof. vm_compute. reflexivity. Qed.

(** [test_clean_data_removes_duplicates] *)
Example clean_duplicate_batch :
  exists cleaned log,
    Transform.clean_data_logged duplicate_batch = Ok (cleaned, log) /\
    len cleaned = 2 /\ Transform.duplicates log = 1.
Proof. eexists _, _. split; [vm_compute; reflexivity|]. by split. Qed.

(** [test_clean_data_removes_invalid_quantities] *)
Example clean_invalid_quantity_batch :
  exists cleaned log,
    Transform.clean_data_logged invalid_quantity_batch = Ok (cleaned, log) /\
    view ["cantidad"] cleaned = [[Num 1]] /\ Transform.invalid_qty log = 2.
Proof.
  eexists _, _. split; [vm_compute; reflexivity|].
  split; [vm_compute; reflexivity | reflexivity].
Qed.

(** [test_validate_extracted_data_valid], [_empty], [_missing_columns] *)
Example validate_extracted_data_tests :
  fst (Extract.validate_extracted_data sample_dataframe) = true /\
  fst (Extract.validate_extracted_data {| columns := []; rows := [] |}) = false /\
  fst (Extract.validate_extracted_data id_fecha_batch) = false.
Proof. split_and!; vm_compute; reflexivity. Qed.

(** [test_validate_data_before_load_valid], [_empty], [_negative_values] *)
Example validate_data_before_load_tests :
  fst (Load.validate_data_before_load (transformed_dataframe 20 0.05)) = Ok true /\
  fst (Load.validate_data_before_load {| columns := []; rows := [] |}) = Ok false /\
  fst (Load.validate_data_before_load (transformed_dataframe (-20) 0.05)) = Ok false.
Proof. split_and!; vm_compute; reflexivity. Qed.

(** The log lines of [clean_data] and [aggregate_data] divide by the
    number of rows received: on a batch without rows both raise. *)
Example no_rows_batch_raises :
  Transform.clean_data no_rows_batch = Raise ZeroDivisionError /\
  Transform.aggregate_data no_rows_batch = Raise ZeroDivisionError.
Proof. split; vm_compute; reflexivity. Qed.

(** ** Check 4 of the extraction-side validation cannot fail *)

Section NumericCheck.
Context `{Scalars}.

(** Whatever the column holds, check 4 records nothing or [True]. *)
Lemma check_numeric_records_true (df df' : DataFrame) (v v' : list bool)
  (col : string) :
  Extract.check_numeric (df, v) col = (df', v') ->
  v' = v \/ v' = v ++ [true].
Proof.
  unfold Extract.check_numeric.
  destruct (has_column df col); [|intros Heq; inversion Heq; by left].
  destruct (getcol df col) as [s|]; [|intros Heq; inversion Heq; by left].
  destruct (negb (is_numeric_dtype s)); [|intros Heq; inversion Heq; by left].
  destruct (to_numeric_coerce_ok s) as [s' Hs']. rewrite Hs'.
  intros Heq; inversion Heq; by right.
Qed.

(** A text that is no number, in a column that is present: the check is
    recorded as [True] and the cell becomes NaN. *)
Lemma check_numeric_text (df : DataFrame) (v : list bool) (col : string)
  (r : row) (t : string) :
  has_column df col = true -> r ∈ rows df -> cell_of r col = Str t ->
  parse_numeric t = None ->
  exists s',
    Extract.check_numeric (df, v) col = (setcol df col s', v ++ [true]) /\
    to_numeric errors_coerce (map (fun r => cell_of r col) (rows df)) = Ok s' /\
    Null ∈ s'.
Proof.
  intros Hcol Hr Hcell Hparse. unfold Extract.check_numeric, getcol.
  rewrite Hcol.
  assert (Hdtype : is_numeric_dtype (map (fun r => cell_of r col) (rows df)) = false).
  { apply not_true_is_false. intros Hnum. unfold is_numeric_dtype in Hnum.
    rewrite forallb_forall in Hnum.
    specialize (Hnum (cell_of r col)). rewrite Hcell in Hnum.
    assert (false = true); [|discriminate]. apply Hnum.
    rewrite <-Hcell. apply list_elem_of_In.
    by apply (list_elem_of_fmap_2 (fun r => cell_of r col)). }
  rewrite Hdtype. simpl.
  destruct (to_numeric_coerce_ok (map (fun r => cell_of r col) (rows df)))
    as [s' Hs'].
  rewrite Hs'. exists s'. split_and!; try done.
  assert (Hin : cell_of r col ∈ map (fun r => cell_of r col) (rows df))
    by by apply (list_elem_of_fmap_2 (fun r => cell_of r col)).
  destruct (traverse_elem _ _ _ _ Hs' Hin) as (y & Hy & Hconv).
  rewrite Hcell in Hconv. simpl in Hconv. rewrite Hparse in Hconv.
  by inversion Hconv; subst.
Qed.

End NumericCheck.


(** * Further properties of the three stages *)

(** ** The rows [clean_data] returns *)

Lemma mask_sum_zero (m : list bool) (b : bool) :
  mask_sum m = 0 -> b ∈ m -> b = false.
Proof.
  unfold mask_sum. induction m as [|b0 m IH]; intros Hs Hb;
    [by apply elem_of_nil in Hb|].
  destruct b0; simpl in Hs; [discriminate|].
  apply elem_of_cons in Hb as [->|Hb]; [done|by apply IH].
Qed.

Lemma Qle_bool_false_lt (x y : Q) : Qle_bool x y = false -> (y < x)%Q.
Proof.
  intros Hle. apply Qnot_le_lt. intros Hxy.
  apply Qle_bool_iff in Hxy. congruence.
Qed.

Lemma fillna_elem (v c : cell) (s : list cell) :
  v <> Null -> c ∈ fillna v s -> c <> Null.
Proof.
  intros Hv Hc. unfold fillna in Hc.
  apply list_elem_of_fmap in Hc as (c0 & -> & _).
  by destruct c0.
Qed.

(** The filters of step 4: [df[df[col] > 0]] when some cell is [<= 0]. *)
Lemma keep_positive (df df' : DataFrame) (col : string) (s : list cell)
  (bad : list bool) :
  getcol df col = Ok s ->
  series_le s (Some 0%Q) = Ok bad ->
  (if 0 <? mask_sum bad
   then let* good := series_gt s (Some 0%Q) in Ok (df_select df good)
   else Ok df) = Ok df' ->
  (forall r, r ∈ rows df -> cell_of r col <> Null) ->
  (forall r, r ∈ rows df' -> r ∈ rows df) /\
  forall r, r ∈ rows df' -> exists v, cell_of r col = Num v /\ (0 < v)%Q.
Proof.
  intros Hs Hbad Hsel Hnn. apply getcol_ok in Hs as [_ ->].
  destruct (0 <? mask_sum bad) eqn:Hpos.
  - bind_inv Hsel as good Hgood. inversion Hsel; subst df'; clear Hsel.
    split; [intros r; apply df_select_elem|].
    intros r Hr. destruct (select_elem _ _ _ Hr) as (i & Hm & Hrow).
    destruct (traverse_lookup _ _ _ _ _ Hgood Hm) as (c & Hc & Hcmp).
    rewrite list_lookup_fmap, Hrow in Hc. simpl in Hc.
    inversion Hc; subst c; clear Hc.
    destruct (cell_cmp_true _ _ _ Hcmp) as (v & y & Hv & Hy & Hop).
    inversion Hy; subst y. exists v. split; [done|].
    unfold Qgt_bool, Qlt_bool in Hop. apply negb_true_iff in Hop.
    by apply Qle_bool_false_lt.
  - inversion Hsel; subst df'; clear Hsel. split; [done|].
    intros r Hr. apply Nat.ltb_ge in Hpos.
    assert (Hz : mask_sum bad = 0) by lia.
    assert (Hc : cell_of r col ∈ map (fun r => cell_of r col) (rows df))
      by by apply (list_elem_of_fmap_2 (fun r => cell_of r col)).
    destruct (traverse_elem _ _ _ _ Hbad Hc) as (b & Hb & Hcmp).
    rewrite (mask_sum_zero _ _ Hz Hb) in Hcmp.
    specialize (Hnn r Hr).
    destruct (cell_of r col) as [|v| |]; simpl in Hcmp; try done.
    exists v. split; [done|]. inversion Hcmp as [Hle].
    by apply Qle_bool_false_lt.
Qed.

Section CleanedRows.
Context `{Scalars} `{Float64}.

Lemma to_datetime_cells (s s' : list cell) (v : cell) :
  to_datetime s = Ok s' -> v ∈ s' -> v = Null \/ exists t, v = Date t.
Proof.
  intros Ht Hv. destruct (traverse_elem_inv _ _ _ _ Ht Hv) as (c & _ & Hc).
  destruct c as [|x|t|d]; simpl in Hc.
  - inversion Hc. by left.
  - destruct (datetime_of_number x); inversion Hc. right. eauto.
  - destruct (parse_datetime t); inversion Hc. right. eauto.
  - inversion Hc. right. eauto.
Qed.

(** What steps 1 to 4 of [clean_data] leave in a row: a timestamp, a
    positive quantity, a positive price and, when the batch has the column,
    a discount. *)
Lemma clean_before_outliers_rows (df pre : DataFrame) counts (r : row) :
  Transform.clean_before_outliers df = Ok (pre, counts) ->
  r ∈ rows pre ->
  (exists t, cell_of r "fecha" = Date t) /\
  (exists q, cell_of r "cantidad" = Num q /\ (0 < q)%Q) /\
  (exists p, cell_of r "precio_unitario" = Num p /\ (0 < p)%Q) /\
  (has_column df "descuento" = true -> cell_of r "descuento" <> Null).
Proof.
  unfold Transform.clean_before_outliers. intros Hc Hin.
  bind_inv Hc as fecha0 Hfecha0. bind_inv Hc as fecha Hfecha.
  apply getcol_ok in Hfecha0 as [Hhas _].
  set (df1 := setcol df "fecha" fecha) in *.
  assert (C1 : columns df1 = columns df) by by apply has_column_setcol.
  assert (F1 : forall r, r ∈ rows df1 ->
            cell_of r "fecha" = Null \/ exists t, cell_of r "fecha" = Date t).
  { intros r1 Hr1. apply setcol_elem in Hr1 as (r0 & v & _ & Hv & ->).
    rewrite cell_of_insert_eq. by eapply to_datetime_cells. }
  clearbody df1. clear Hfecha Hhas.
  set (df2 := if 0 <? mask_sum (duplicated df1)
              then drop_duplicates df1 else df1) in *.
  assert (C2 : columns df2 = columns df).
  { unfold df2. by destruct (0 <? _). }
  assert (R2 : forall r, r ∈ rows df2 -> r ∈ rows df1).
  { unfold df2. destruct (0 <? _); [|done]. intros r2. apply df_select_elem. }
  clearbody df2. bind_inv Hc as [df3 nd] Hdesc.
  assert (F3 : columns df3 = columns df /\
            forall r, r ∈ rows df3 ->
              (cell_of r "fecha" = Null \/ exists t, cell_of r "fecha" = Date t) /\
              (has_column df "descuento" = true -> cell_of r "descuento" <> Null)).
  { assert (Hsame : has_column df2 "descuento" = has_column df "descuento")
      by (unfold has_column; by rewrite C2).
    rewrite Hsame in Hdesc.
    destruct (has_column df "descuento") eqn:Hd.
    - bind_inv Hdesc as s Hs. inversion Hdesc; subst df3 nd; clear Hdesc.
      destruct (0 <? mask_sum (map is_null s)) eqn:Hpos.
      + split; [rewrite has_column_setcol; [exact C2|exact Hsame]|].
        intros r3 Hr3. apply setcol_elem in Hr3 as (r2 & v & Hr2 & Hv & ->).
        split.
        * rewrite cell_of_insert_ne by done. by apply F1, R2.
        * intros _. rewrite cell_of_insert_eq.
          apply (fillna_elem (Num 0) v s); [done|exact Hv].
      + split; [done|]. intros r3 Hr3. split; [by apply F1, R2|].
        intros _ Hnull. apply Nat.ltb_ge in Hpos.
        assert (Hz : mask_sum (map is_null s) = 0) by lia.
        apply getcol_ok in Hs as [_ ->].
        assert (Hb : is_null (cell_of r3 "descuento")
                     ∈ map is_null (map (fun r => cell_of r "descuento") (rows df2))).
        { apply (list_elem_of_fmap_2 is_null).
          by apply (list_elem_of_fmap_2 (fun r => cell_of r "descuento")). }
        apply (mask_sum_zero _ _ Hz) in Hb. by rewrite Hnull in Hb.
    - inversion Hdesc; subst df3 nd. split; [done|].
      intros r3 Hr3. split; [by apply F1, R2|done]. }
  destruct F3 as [C3 F3]. clear Hdesc F1 R2 C2.
  bind_inv Hc as nulls Hnulls. bind_inv Hc as df4 Hdrop.
  assert (F4 : (forall r, r ∈ rows df4 -> r ∈ rows df3) /\
               forall r c, r ∈ rows df4 -> c ∈ Transform.critical_columns ->
                           cell_of r c <> Null).
  { pose proof (any_null_length _ _ _ Hnulls) as Hlen.
    destruct (0 <? mask_sum nulls) eqn:Hpos.
    - unfold dropna in Hdrop. rewrite Hnulls in Hdrop. simpl in Hdrop.
      inversion Hdrop; subst df4. split.
      + intros r4. apply df_select_elem.
      + intros r4 c Hr4 Hcol. by eapply any_null_kept.
    - inversion Hdrop; subst df4. apply Nat.ltb_ge in Hpos.
      assert (Hz : mask_sum nulls = 0) by lia.
      split; [done|].
      intros r4 c Hr4 Hcol. eapply any_null_kept; [exact Hnulls| |exact Hcol].
      by rewrite mask_sum_zero_select. }
  destruct F4 as [R4 N4]. clear Hdrop Hnulls.
  bind_inv Hc as cantidad Hcantidad. bind_inv Hc as bad_qty Hbad_qty.
  bind_inv Hc as df5 Hqty.
  destruct (keep_positive _ _ _ _ _ Hcantidad Hbad_qty Hqty) as [R5 P5].
  { intros r4 Hr4. apply N4; [done|]. unfold Transform.critical_columns.
    in_list. }
  clear Hqty Hbad_qty Hcantidad.
  bind_inv Hc as precio Hprecio. bind_inv Hc as bad_price Hbad_price.
  bind_inv Hc as df6 Hprice.
  destruct (keep_positive _ _ _ _ _ Hprecio Hbad_price Hprice) as [R6 P6].
  { intros r5 Hr5. apply N4; [by apply R5|]. unfold Transform.critical_columns.
    in_list. }
  inversion Hc; subst pre counts; clear Hc.
  pose proof (R6 _ Hin) as H5. pose proof (R5 _ H5) as H4.
  pose proof (R4 _ H4) as H3. destruct (F3 _ H3) as [Hfecha Hdesc].
  split_and!; [|by apply P5|by apply P6|done].
  destruct Hfecha as [Hnull|Hdate]; [|done].
  exfalso. revert Hnull. apply N4; [done|].
  unfold Transform.critical_columns. in_list.
Qed.

Lemma remove_outliers_rows (df d : DataFrame) (column : string) (n : nat) :
  Transform.remove_outliers df column = Ok (d, n) ->
  columns d = columns df /\ forall r, r ∈ rows d -> r ∈ rows df.
Proof.
  unfold Transform.remove_outliers. intros Hr.
  bind_inv Hr as s Hs. bind_inv Hr as [lower upper] Hbounds.
  bind_inv Hr as below Hbelow. bind_inv Hr as above Habove.
  bind_inv Hr as ge Hge. bind_inv Hr as le Hle.
  inversion Hr; subst; clear Hr. split; [done|].
  intros r. apply df_select_elem.
Qed.

Lemma normalize_text_columns (cols : list string) (df d : DataFrame) :
  Transform.normalize_text cols df = Ok d -> columns d = columns df.
Proof.
  revert df. induction cols as [|col cols IH]; intros df Hn; simpl in Hn.
  - by inversion Hn.
  - destruct (has_column df col) eqn:Hcol; [|by apply IH].
    bind_inv Hn as s Hs. rewrite (IH _ Hn). by apply has_column_setcol.
Qed.

(** The stages of [clean_data], one after the other. *)
Lemma clean_data_stages (df cleaned : DataFrame) :
  Transform.clean_data df = Ok cleaned ->
  exists pre counts filtered n,
    Transform.clean_before_outliers df = Ok (pre, counts) /\
    (if has_column pre "total_venta"
     then Transform.remove_outliers pre "total_venta"
     else Ok (pre, 0)) = Ok (filtered, n) /\
    Transform.normalize_text Transform.text_columns filtered = Ok cleaned /\
    len df <> 0.
Proof.
  unfold Transform.clean_data. intros Hclean.
  bind_inv Hclean as [d log] Hlogged. inversion Hclean; subst d; clear Hclean.
  unfold Transform.clean_data_logged in Hlogged.
  bind_inv Hlogged as [pre counts] Hpre.
  destruct counts as [[[[n1 n2] n3] n4] n5].
  bind_inv Hlogged as [filtered n6] Hout.
  bind_inv Hlogged as normalized Hnorm.
  destruct (len df =? 0) eqn:Hlen; [discriminate|].
  inversion Hlogged; subst; clear Hlogged.
  exists pre, (n1, n2, n3, n4, n5), filtered, n6.
  split_and!; try done. by apply Nat.eqb_neq.
Qed.

Lemma clean_data_row (df cleaned : DataFrame) (r : row) :
  Transform.clean_data df = Ok cleaned -> r ∈ rows cleaned ->
  exists pre counts r0,
    Transform.clean_before_outliers df = Ok (pre, counts) /\
    r0 ∈ rows pre /\
    forall c, c ∉ Transform.text_columns -> cell_of r c = cell_of r0 c.
Proof.
  intros Hclean Hr.
  destruct (clean_data_stages _ _ Hclean)
    as (pre & counts & filtered & n & Hpre & Hout & Hnorm & _).
  destruct (normalize_text_elem _ _ _ _ Hnorm Hr) as (r0 & Hr0 & Hsame).
  exists pre, counts, r0. split_and!; try done.
  destruct (has_column pre "total_venta").
  - by apply (proj2 (remove_outliers_rows _ _ _ _ Hout)).
  - by inversion Hout; subst.
Qed.

End CleanedRows.

(** X1.  [clean_data] never returns a row without a date, nor a row with
    a quantity or a price that is not a positive number: in every row it
    returns, [fecha] is a timestamp, [cantidad] is a number above zero and
    [precio_unitario] is a number above zero; and when the batch has a
    [descuento] column, no returned row has a null discount. *)
Theorem clean_data_valid_rows `{Scalars} `{Float64} (df cleaned : DataFrame) (r : row) :
  Transform.clean_data df = Ok cleaned ->
  r ∈ rows cleaned ->
  (exists t, cell_of r "fecha" = Date t) /\
  (exists q, cell_of r "cantidad" = Num q /\ (0 < q)%Q) /\
  (exists p, cell_of r "precio_unitario" = Num p /\ (0 < p)%Q) /\
  (has_column df "descuento" = true -> cell_of r "descuento" <> Null).
Proof.
  intros Hclean Hr.
  destruct (clean_data_row _ _ _ Hclean Hr) as (pre & counts & r0 & Hpre & Hr0 & Hsame).
  destruct (clean_before_outliers_rows _ _ _ _ Hpre Hr0) as (Hf & Hq & Hp & Hd).
  rewrite !Hsame; [done|unfold Transform.text_columns; not_in_list..].
Qed.

Lemma clean_data_valid_rows_witness :
  view ["fecha"; "cantidad"; "precio_unitario"; "descuento"] transform_fixture
    = [[Date 20230101; Num 1; Num 1000; Num 0.1];
       [Date 20230102; Num 2; Num 25; Num 0];
       [Date 20230103; Num 3; Num 75; Null];
       [Date 20230104; Num 1; Num 500; Num 0.05];
       [Date 20230105; Num 2; Num 100; Num 0]] /\
  (exists t, cell_of (nth_row 2 (cleaned transform_fixture)) "fecha" = Date t) /\
  (exists q, cell_of (nth_row 2 (cleaned transform_fixture)) "cantidad" = Num q /\
             (0 < q)%Q) /\
  (exists p, cell_of (nth_row 2 (cleaned transform_fixture)) "precio_unitario" = Num p /\
             (0 < p)%Q) /\
  (has_column transform_fixture "descuento" = true ->
   cell_of (nth_row 2 (cleaned transform_fixture)) "descuento" <> Null).
Proof.
  split; [vm_compute; reflexivity|].
  apply (clean_data_valid_rows transform_fixture (cleaned transform_fixture)).
  - vm_compute. reflexivity.
  - apply list_elem_of_lookup. exists 2. vm_compute. reflexivity.
Defined.

Section NoRows.
Context `{Scalars} `{Float64}.

Lemma clean_before_outliers_no_rows (df : DataFrame) :
  rows df = [] ->
  forallb (has_column df) Transform.critical_columns = true ->
  Transform.clean_before_outliers df = Ok (df, (0, 0, 0, 0, 0)).
Proof.
  intros Hrows Hcols. unfold Transform.critical_columns in Hcols.
  simpl in Hcols. rewrite !andb_true_iff in Hcols.
  destruct Hcols as (Hfecha & Hproducto & Hcantidad & Hprecio & _).
  destruct df as [cols rs]. simpl in Hrows. subst rs.
  unfold has_column in *. cbn [columns] in *.
  unfold Transform.clean_before_outliers, getcol, has_column, setcol, any_null,
    check_columns, dropna, duplicated, drop_duplicates, series_le, series_gt,
    Transform.critical_columns, has_column.
  cbn [columns rows map zip_with traverse to_datetime Py.bind].
  rewrite Hfecha. cbn [columns rows map zip_with traverse to_datetime Py.bind duplicated_from mask_sum List.filter length Nat.ltb Nat.leb].
  destruct (bool_decide ("descuento" ∈ cols));
    cbn [columns rows map zip_with traverse Py.bind mask_sum List.filter length
         Nat.ltb Nat.leb forallb];
    rewrite Hfecha, Hproducto, Hcantidad, Hprecio;
    cbn [columns rows map zip_with traverse Py.bind mask_sum List.filter length
         Nat.ltb Nat.leb forallb andb];
    rewrite ?Hcantidad;
    cbn [columns rows map zip_with traverse Py.bind mask_sum List.filter length
         Nat.ltb Nat.leb forallb andb];
    rewrite ?Hprecio;
    cbn [columns rows map zip_with traverse Py.bind mask_sum List.filter length
         Nat.ltb Nat.leb forallb andb];
    reflexivity.
Qed.

Lemma remove_outliers_no_rows (df : DataFrame) (column : string) :
  rows df = [] -> has_column df column = true ->
  Transform.remove_outliers df column = Ok (df, 0).
Proof.
  intros Hrows Hcol. destruct df as [cols rs]. simpl in Hrows. subst rs.
  unfold Transform.remove_outliers, getcol. rewrite Hcol. reflexivity.
Qed.

Lemma normalize_text_no_rows (cols : list string) (df : DataFrame) :
  rows df = [] -> exists d, Transform.normalize_text cols df = Ok d /\ rows d = [].
Proof.
  revert df. induction cols as [|col cols IH]; intros df Hrows; simpl.
  - by exists df.
  - destruct (has_column df col) eqn:Hcol; [|by apply IH].
    unfold getcol. rewrite Hcol. simpl. apply IH.
    unfold setcol. simpl. by rewrite Hrows.
Qed.

End NoRows.

(** X2.  A batch without rows.  [clean_data] never returns on it: the
    last line of its log divides by the number of rows it received.  When the
    four critical columns are present, the exception is
    [ZeroDivisionError]. *)
Theorem clean_data_no_rows `{Scalars} `{Float64} (df : DataFrame) :
  rows df = [] ->
  (exists e, Transform.clean_data df = Raise e) /\
  (forallb (has_column df) Transform.critical_columns = true ->
   Transform.clean_data df = Raise ZeroDivisionError).
Proof.
  intros Hrows. split.
  - destruct (Transform.clean_data df) as [cleaned|e] eqn:Hclean; [|by exists e].
    destruct (clean_data_stages _ _ Hclean) as (_ & _ & _ & _ & _ & _ & _ & Hlen).
    unfold len in Hlen. by rewrite Hrows in Hlen.
  - intros Hcols. unfold Transform.clean_data, Transform.clean_data_logged.
    rewrite (clean_before_outliers_no_rows _ Hrows Hcols).
    cbn [Py.bind].
    assert (Hout : exists n,
              (if has_column df "total_venta"
               then Transform.remove_outliers df "total_venta"
               else Ok (df, 0)) = Ok (df, n)).
    { destruct (has_column df "total_venta") eqn:Htv; [|by exists 0].
      exists 0. by apply remove_outliers_no_rows. }
    destruct Hout as [n ->]. cbn [Py.bind].
    destruct (normalize_text_no_rows Transform.text_columns df Hrows) as (d & -> & _).
    cbn [Py.bind]. unfold len. by rewrite Hrows.
Qed.

Lemma clean_data_no_rows_witness :
  (exists e, Transform.clean_data no_rows_batch = Raise e) /\
  (forallb (has_column no_rows_batch) Transform.critical_columns = true ->
   Transform.clean_data no_rows_batch = Raise ZeroDivisionError).
Proof. apply (clean_data_no_rows no_rows_batch). reflexivity. Defined.

(** X3.  [clean_data] returns the columns it was given, in the same order,
    and never more rows than it was given. *)
Theorem clean_data_shape `{Scalars} `{Float64} (df cleaned : DataFrame) :
  Transform.clean_data df = Ok cleaned ->
  columns cleaned = columns df /\ len cleaned <= len df.
Proof.
  intros Hclean.
  destruct (clean_data_stages _ _ Hclean)
    as (pre & counts & filtered & n & Hpre & Hout & Hnorm & _).
  destruct counts as [[[[n1 n2] n3] n4] n5].
  pose proof (clean_before_outliers_columns _ _ _ Hpre) as C1.
  destruct (clean_before_outliers_conservation _ _ _ _ _ _ _ Hpre) as [L1 _].
  rewrite (normalize_text_columns _ _ _ Hnorm), (normalize_text_len _ _ _ Hnorm).
  destruct (has_column pre "total_venta").
  - destruct (remove_outliers_rows _ _ _ _ Hout) as [C2 _]. split; [congruence|].
    unfold Transform.remove_outliers in Hout.
    bind_inv Hout as s Hs. bind_inv Hout as [lower upper] Hbounds.
    bind_inv Hout as below Hbelow. bind_inv Hout as above Habove.
    bind_inv Hout as ge Hge. bind_inv Hout as le Hle.
    inversion Hout; subst; clear Hout. unfold len, df_select in *. simpl.
    pose proof (select_length_le (mask_and ge le) (rows pre)). lia.
  - inversion Hout; subst. split; [done|lia].
Qed.

Lemma clean_data_shape_witness :
  len duplicate_batch = 3 /\ len (cleaned duplicate_batch) = 2 /\
  columns (cleaned duplicate_batch) = columns duplicate_batch /\
  len (cleaned duplicate_batch) <= len duplicate_batch.
Proof.
  split; [reflexivity|]. split; [vm_compute; reflexivity|].
  apply (clean_data_shape duplicate_batch). vm_compute. reflexivity.
Defined.


(** ** The batch [aggregate_data] returns *)

Lemma round_column_columns (c : string) (d : nat) (df df' : DataFrame) :
  Transform.round_column c d df = Ok df' -> columns df' = columns df.
Proof.
  unfold Transform.round_column. intros Hr. bind_inv Hr as s Hs.
  inversion Hr; subst. apply getcol_ok in Hs as [Hc _].
  by apply has_column_setcol.
Qed.

Lemma aggregate_data_column_names (df aggregated : DataFrame) :
  Transform.aggregate_data df = Ok aggregated ->
  columns aggregated
    = ["fecha"; "producto"; "categoria"; "region"; "cantidad_total";
       "precio_promedio"; "descuento_promedio"; "total_venta";
       "num_transacciones"].
Proof.
  unfold Transform.aggregate_data. intros Ha.
  bind_inv Ha as groups Hgroups. bind_inv Ha as u Hu.
  bind_inv Ha as agg_rows Hagg.
  bind_inv Ha as d1 H1. bind_inv Ha as d2 H2. bind_inv Ha as d3 H3.
  destruct (len df =? 0); [discriminate|]. inversion Ha; subst d3; clear Ha.
  apply round_column_columns in H1, H2, H3.
  rewrite H3, H2, H1. reflexivity.
Qed.

(** X6.  The columns of the aggregated batch are the four keys and the five
    aggregates under their new names, in this order; none of the columns
    that [validate_data_before_load] requires is missing. *)
Theorem aggregate_data_columns (df aggregated : DataFrame) :
  Transform.aggregate_data df = Ok aggregated ->
  columns aggregated
    = ["fecha"; "producto"; "categoria"; "region"; "cantidad_total";
       "precio_promedio"; "descuento_promedio"; "total_venta";
       "num_transacciones"] /\
  List.filter (fun col => negb (has_column aggregated col)) Load.required_columns = [].
Proof.
  intros Hagg. pose proof (aggregate_data_column_names _ _ Hagg) as Hcols.
  split; [done|]. unfold has_column. rewrite Hcols. reflexivity.
Qed.

Lemma aggregate_data_columns_witness :
  columns (aggregated transform_fixture)
    = ["fecha"; "producto"; "categoria"; "region"; "cantidad_total";
       "precio_promedio"; "descuento_promedio"; "total_venta";
       "num_transacciones"] /\
  List.filter
    (fun col => negb (has_column (aggregated transform_fixture) col))
    Load.required_columns = [].
Proof.
  apply (aggregate_data_columns transform_fixture). vm_compute. reflexivity.
Defined.

Lemma uniq_length_le (ks : list (list cell)) : length (uniq ks) <= length ks.
Proof.
  induction ks as [|k ks IH]; simpl; [done|].
  pose proof (List.filter_length_le (fun k' => negb (key_eqb k' k)) (uniq ks)). lia.
Qed.

Lemma omap_length_le {A B} (f : A -> option B) (l : list A) :
  length (omap f l) <= length l.
Proof.
  induction l as [|x l IH]; [done|]. csimpl. destruct (f x); simpl; lia.
Qed.

(** X7.  [aggregate_data] returns at most one row per row it was given
    (and it was given at least one: the last line of its log divides by their
    number). *)
Theorem aggregate_data_reduces_rows (df aggregated : DataFrame) :
  Transform.aggregate_data df = Ok aggregated ->
  len aggregated <= len df /\ 0 < len df.
Proof.
  intros Hagg.
  destruct (aggregate_data_rows _ _ Hagg) as (groups & agg_rows & Hg & Ht & Hrows).
  split.
  - unfold len. rewrite Hrows, length_map, (traverse_length _ _ _ Ht).
    rewrite (groupby_ok _ _ _ Hg), length_map.
    rewrite merge_sort_Permutation.
    pose proof (uniq_length_le (omap (key_of Transform.group_keys) (rows df))).
    pose proof (omap_length_le (key_of Transform.group_keys) (rows df)). lia.
  - unfold Transform.aggregate_data in Hagg.
    bind_inv Hagg as g Hgroups. bind_inv Hagg as u Hu.
    bind_inv Hagg as a Ha.
    bind_inv Hagg as d1 H1. bind_inv Hagg as d2 H2. bind_inv Hagg as d3 H3.
    destruct (len df =? 0) eqn:Hlen; [discriminate|].
    apply Nat.eqb_neq in Hlen. lia.
Qed.

Lemma aggregate_data_reduces_rows_witness :
  len (aggregated transform_fixture)
    <= len transform_fixture /\ 0 < len transform_fixture.
Proof.
  apply (aggregate_data_reduces_rows transform_fixture). vm_compute. reflexivity.
Defined.

(** X8.  A batch without rows.  [aggregate_data] never returns on it; when
    the key columns and the aggregated columns are present, the exception
    is [ZeroDivisionError]. *)
Theorem aggregate_data_no_rows (df : DataFrame) :
  rows df = [] ->
  (exists e, Transform.aggregate_data df = Raise e) /\
  (forallb (has_column df) (Transform.group_keys ++ Transform.agg_columns) = true ->
   Transform.aggregate_data df = Raise ZeroDivisionError).
Proof.
  intros Hrows. split.
  - destruct (Transform.aggregate_data df) as [a|e] eqn:Hagg; [|by exists e].
    unfold Transform.aggregate_data in Hagg.
    bind_inv Hagg as g Hgroups. bind_inv Hagg as u Hu.
    bind_inv Hagg as a0 Ha.
    bind_inv Hagg as d1 H1. bind_inv Hagg as d2 H2. bind_inv Hagg as d3 H3.
    unfold len in Hagg. by rewrite Hrows in Hagg.
  - intros Hcols. rewrite forallb_app in Hcols.
    apply andb_true_iff in Hcols as [Hkeys Hagg].
    unfold Transform.aggregate_data, groupby, check_columns.
    rewrite Hkeys, Hagg, Hrows. unfold len. rewrite Hrows. reflexivity.
Qed.

Lemma aggregate_data_no_rows_witness :
  (exists e, Transform.aggregate_data no_rows_batch = Raise e) /\
  (forallb (has_column no_rows_batch) (Transform.group_keys ++ Transform.agg_columns)
     = true ->
   Transform.aggregate_data no_rows_batch = Raise ZeroDivisionError).
Proof. apply (aggregate_data_no_rows no_rows_batch). reflexivity. Defined.


(** *** One row per key *)

Lemma ForallOrdPairs_filter {A} (R : A -> A -> Prop) (f : A -> bool) (l : list A) :
  ForallOrdPairs R l -> ForallOrdPairs R (List.filter f l).
Proof.
  induction 1 as [|a l Ha Hl IH]; simpl; [constructor|].
  destruct (f a); [|done]. constructor; [|done].
  apply Forall_forall. intros x Hx. apply filter_elem in Hx as [Hx _].
  by eapply Forall_forall in Ha.
Qed.

Lemma ForallOrdPairs_Permutation {A} (R : A -> A -> Prop) (l l' : list A) :
  (forall x y, R x y -> R y x) ->
  l ≡ₚ l' -> ForallOrdPairs R l -> ForallOrdPairs R l'.
Proof.
  intros Hsym Hperm. induction Hperm as [|x l l' Hperm IH|x y l|l l' l'' _ IH1 _ IH2];
    intros Hl.
  - done.
  - inversion Hl as [|? ? Hx Hl']; subst. constructor; [|by apply IH].
    by rewrite <-Hperm.
  - inversion Hl as [|? ? Hy Hl']; subst.
    inversion Hl' as [|? ? Hx Hl'']; subst.
    inversion Hy as [|? ? Hyx Hy']; subst.
    constructor; [constructor; [by apply Hsym|done]|].
    by constructor.
  - by apply IH2, IH1.
Qed.

Lemma ForallOrdPairs_middle {A} (R : A -> A -> Prop) (l1 l2 : list A) (x y : A) :
  ForallOrdPairs R (l1 ++ x :: l2) -> y ∈ l1 -> R y x.
Proof.
  induction l1 as [|a l1 IH]; intros Hl Hy; [by apply elem_of_nil in Hy|].
  simpl in Hl. inversion Hl as [|? ? Ha Hl']; subst.
  apply elem_of_cons in Hy as [->|Hy]; [|by apply IH].
  eapply Forall_forall in Ha; [exact Ha|]. apply elem_of_app. right.
  apply list_elem_of_here.
Qed.

(** The keys [uniq] keeps are different from one another. *)
Lemma uniq_distinct (ks : list (list cell)) :
  ForallOrdPairs (fun k1 k2 => key_eqb k1 k2 = false) (uniq ks).
Proof.
  induction ks as [|k ks IH]; cbn [uniq]; [constructor|].
  constructor; [|by apply ForallOrdPairs_filter].
  apply Forall_forall. intros k' Hk'. apply filter_elem in Hk' as [_ Hne].
  apply negb_true_iff in Hne. by rewrite key_eqb_sym.
Qed.

Lemma row_eqb_key_eqb (keys : list string) (r1 r2 : row) :
  row_eqb keys r1 r2 = key_eqb (map (cell_of r1) keys) (map (cell_of r2) keys).
Proof.
  unfold row_eqb. induction keys as [|c keys IH]; simpl; [done|].
  by rewrite IH.
Qed.

(** [duplicated] marks no row of a batch whose keys are different from one
    another. *)
Lemma duplicated_from_distinct (keys : list string) (seen rs : list row) :
  ForallOrdPairs (fun k1 k2 => key_eqb k1 k2 = false)
    (map (fun r => map (cell_of r) keys) (seen ++ rs)) ->
  mask_sum (duplicated_from keys seen rs) = 0.
Proof.
  revert seen. induction rs as [|r rs IH]; intros seen Hd; [done|].
  cbn [duplicated_from].
  assert (Hnew : existsb (row_eqb keys r) seen = false).
  { apply not_true_is_false. intros Hex.
    apply existsb_exists in Hex as (r0 & Hr0 & Heq).
    rewrite row_eqb_key_eqb, key_eqb_sym in Heq.
    rewrite map_app in Hd. cbn [map] in Hd.
    pose proof (ForallOrdPairs_middle _ _ _ _ (map (cell_of r0) keys) Hd) as Hne.
    cbv beta in Hne. rewrite Hne in Heq; [done|].
    apply (list_elem_of_fmap_2 (fun r => map (cell_of r) keys)).
    by apply list_elem_of_In. }
  rewrite Hnew. unfold mask_sum in *. cbn [List.filter id].
  apply IH. by rewrite <-app_assoc.
Qed.

(** The keys of the aggregated rows, in order, are the keys of the groups. *)
Lemma aggregate_data_keys (df aggregated : DataFrame) :
  Transform.aggregate_data df = Ok aggregated ->
  map (fun a => map (cell_of a) Transform.group_keys) (rows aggregated)
  = merge_sort key_le (uniq (omap (key_of Transform.group_keys) (rows df))).
Proof.
  intros Hagg.
  destruct (aggregate_data_rows _ _ Hagg) as (groups & agg_rows & Hg & Ht & Hrows).
  pose proof (groupby_ok _ _ _ Hg) as Hgroups.
  set (ks := merge_sort key_le (uniq (omap (key_of Transform.group_keys) (rows df)))) in *.
  rewrite Hrows, map_map. apply list_eq. intros i.
  rewrite list_lookup_fmap.
  destruct (agg_rows !! i) as [a0|] eqn:Ha0; simpl.
  - destruct (traverse_lookup _ _ _ _ _ Ht Ha0) as ([k rs] & Hgi & Hgroup).
    assert (Hin : (k, rs) ∈ groups) by by eapply list_elem_of_lookup_2.
    destruct (groupby_elem _ _ _ _ _ Hg Hin) as (Hrs & r0 & Hr0 & Hkey).
    rewrite Hgroups, list_lookup_fmap in Hgi.
    destruct (ks !! i) as [k'|] eqn:Hk'; simpl in Hgi; [|discriminate].
    inversion Hgi; subst k'. f_equal.
    unfold Transform.agg_group in Hgroup.
    bind_inv Hgroup as cantidad Hcantidad. bind_inv Hgroup as precio Hprecio.
    bind_inv Hgroup as descuento Hdescuento. bind_inv Hgroup as total Htotal.
    destruct (key_of_some _ _ _ Hkey) as [Hk _].
    unfold Transform.group_keys in Hk. simpl in Hk.
    assert (Ea0 : a0 = make_row (Transform.group_keys ++ Transform.agg_columns)
                    [cell_of r0 "fecha"; cell_of r0 "producto";
                     cell_of r0 "categoria"; cell_of r0 "region";
                     cantidad; precio; descuento; total;
                     series_count (map (fun r => cell_of r "id") rs)]).
    { inversion Hgroup. by rewrite Hk. }
    subst a0.
    destruct (aggregated_row_cells (cell_of r0 "fecha") (cell_of r0 "producto")
                (cell_of r0 "categoria") (cell_of r0 "region")
                cantidad precio descuento total
                (series_count (map (fun r => cell_of r "id") rs)))
      as (Ekey & _ & _).
    rewrite Hk. exact Ekey.
  - apply lookup_ge_None in Ha0.
    rewrite (traverse_length _ _ _ Ht), Hgroups, length_map in Ha0.
    apply lookup_ge_None in Ha0. by rewrite Ha0.
Qed.

(** X9.  One row per key: no two rows of the aggregated batch agree on
    [fecha], [producto], [categoria] and [region], so the duplicate count
    of [validate_data_before_load] (check 5) is zero on it. *)
Theorem aggregate_data_keys_distinct (df aggregated : DataFrame) :
  Transform.aggregate_data df = Ok aggregated ->
  exists m,
    duplicated_subset aggregated Transform.group_keys = Ok m /\
    length m = len aggregated /\ mask_sum m = 0.
Proof.
  intros Hagg.
  exists (duplicated_from Transform.group_keys [] (rows aggregated)).
  split_and!.
  - unfold duplicated_subset, check_columns, has_column.
    rewrite (aggregate_data_column_names _ _ Hagg). reflexivity.
  - apply duplicated_from_length.
  - apply duplicated_from_distinct. cbn [app].
    rewrite (aggregate_data_keys _ _ Hagg).
    eapply ForallOrdPairs_Permutation; [|symmetry; apply merge_sort_Permutation|apply uniq_distinct].
    intros k1 k2 Hne. by rewrite key_eqb_sym.
Qed.

Lemma aggregate_data_keys_distinct_witness :
  len null_id_batch = 2 /\
  exists m,
    duplicated_subset (aggregated null_id_batch) Transform.group_keys = Ok m /\
    length m = len (aggregated null_id_batch) /\ mask_sum m = 0.
Proof.
  split; [reflexivity|].
  apply (aggregate_data_keys_distinct null_id_batch). vm_compute. reflexivity.
Defined.


(** ** The extraction stage *)

Lemma missing_columns_forallb (df : DataFrame) (cols : list string) :
  match List.filter (fun col => negb (has_column df col)) cols with
  | [] => true
  | _ :: _ => false
  end = forallb (has_column df) cols.
Proof.
  induction cols as [|c cols IH]; simpl; [done|].
  destruct (has_column df c); simpl; [exact IH|done].
Qed.

Lemma getcol_setcol (df : DataFrame) (c : string) (vals : list cell) :
  length vals = len df -> getcol (setcol df c vals) c = Ok vals.
Proof.
  intros Hlen. unfold getcol.
  assert (Hcol : has_column (setcol df c vals) c = true).
  { unfold has_column at 1. unfold setcol. cbn [columns].
    apply bool_decide_eq_true.
    destruct (has_column df c) eqn:Hc.
    - by apply bool_decide_eq_true in Hc.
    - apply elem_of_app. right. apply list_elem_of_here. }
  rewrite Hcol. clear Hcol. f_equal. unfold setcol, len in *. simpl.
  revert vals Hlen. induction (rows df) as [|r rs IH]; intros [|v vals] Hlen;
    simpl in *; try done.
  rewrite cell_of_insert_eq. f_equal. apply IH. lia.
Qed.

Lemma numeric_dtype_values (s : list cell) :
  is_numeric_dtype s = true -> exists vals, numeric_values s = Ok vals.
Proof.
  intros Hs. unfold numeric_values.
  destruct (traverse_all_ok cell_number s) as [l Hl]; [|rewrite Hl; by eexists].
  intros c Hc. unfold is_numeric_dtype in Hs. rewrite forallb_forall in Hs.
  specialize (Hs c). destruct c; simpl; eauto;
    assert (false = true) by (apply Hs; by apply list_elem_of_In); discriminate.
Qed.

Section ExtractStage.
Context `{Scalars}.

Lemma to_numeric_coerce_cells (s s' : list cell) :
  to_numeric errors_coerce s = Ok s' -> is_numeric_dtype s' = true.
Proof.
  intros Hs. unfold is_numeric_dtype. apply forallb_forall. intros c Hc.
  apply list_elem_of_In in Hc.
  destruct (traverse_elem_inv _ _ _ _ Hs Hc) as (c0 & _ & Hconv).
  destruct c0 as [|x|t|d]; simpl in Hconv.
  - by inversion Hconv.
  - by inversion Hconv.
  - destruct (parse_numeric t); by inversion Hconv.
  - by inversion Hconv.
Qed.

(** Check 4 leaves the verdict as it was. *)
Lemma check_numeric_all_verdict (cols : list string) (df df' : DataFrame)
  (v v' : list bool) :
  foldl Extract.check_numeric (df, v) cols = (df', v') ->
  forallb id v' = forallb id v.
Proof.
  revert df v. induction cols as [|col cols IH]; intros df v Heq;
    cbn [foldl] in Heq.
  - by inversion Heq.
  - destruct (Extract.check_numeric (df, v) col) as [df1 v1] eqn:H1.
    rewrite (IH _ _ Heq).
    destruct (check_numeric_records_true _ _ _ _ _ H1) as [->| ->]; [done|].
    rewrite forallb_app. simpl. by rewrite andb_true_r.
Qed.

Lemma check_numeric_shape (df df' : DataFrame) (v v' : list bool) (col : string) :
  Extract.check_numeric (df, v) col = (df', v') ->
  columns df' = columns df /\ len df' = len df.
Proof.
  intros Heq. destruct (check_numeric_rows _ _ _ _ _ Heq) as [Hc Hr].
  split; [done|]. unfold len. symmetry. by eapply Forall2_length.
Qed.

Lemma check_numeric_all_shape (cols : list string) (df df' : DataFrame)
  (v v' : list bool) :
  foldl Extract.check_numeric (df, v) cols = (df', v') ->
  columns df' = columns df /\ len df' = len df.
Proof.
  revert df v. induction cols as [|col cols IH]; intros df v Heq;
    cbn [foldl] in Heq.
  - by inversion Heq.
  - destruct (Extract.check_numeric (df, v) col) as [df1 v1] eqn:H1.
    destruct (IH _ _ Heq) as [-> ->]. by eapply check_numeric_shape.
Qed.

(** After check 4 on a column that is present, the column holds numbers and
    NaN only. *)
Lemma check_numeric_numeric (df df' : DataFrame) (v v' : list bool) (col : string) :
  Extract.check_numeric (df, v) col = (df', v') ->
  has_column df col = true ->
  exists s, getcol df' col = Ok s /\ is_numeric_dtype s = true.
Proof.
  unfold Extract.check_numeric. intros Heq Hcol. rewrite Hcol in Heq.
  destruct (getcol df col) as [s|] eqn:Hs.
  2:{ unfold getcol in Hs. by rewrite Hcol in Hs. }
  destruct (is_numeric_dtype s) eqn:Hnum; simpl in Heq.
  - inversion Heq; subst. eauto.
  - destruct (to_numeric_coerce_ok s) as [s' Hs']. rewrite Hs' in Heq.
    inversion Heq; subst. exists s'. split.
    + apply getcol_setcol. rewrite (traverse_length _ _ _ Hs').
      by eapply getcol_length.
    + by eapply to_numeric_coerce_cells.
Qed.

(** The batch [validate_extracted_data] leaves: the columns and the number
    of rows it was given, and a [total_venta] of numbers and NaN. *)
Lemma validate_extracted_data_leaves (df : DataFrame) :
  columns (snd (Extract.validate_extracted_data df)) = columns df /\
  len (snd (Extract.validate_extracted_data df)) = len df /\
  (has_column df "total_venta" = true ->
   exists s, getcol (snd (Extract.validate_extracted_data df)) "total_venta" = Ok s /\
             is_numeric_dtype s = true).
Proof.
  unfold Extract.validate_extracted_data, Extract.validate_extracted_data_checks.
  cbv zeta.
  set (v0 := ([] ++ [negb (empty df)]) ++ _). clearbody v0.
  destruct (match (let* fecha := getcol df "fecha" in to_datetime fecha) with
            | Ok fecha => (setcol df "fecha" fecha, v0 ++ [true])
            | Raise _ => (df, v0 ++ [false])
            end) as [df1 v1] eqn:H1.
  destruct (to_datetime_rows _ _ _ _ H1) as [C1 R1].
  assert (L1 : len df1 = len df) by (unfold len; symmetry; by eapply Forall2_length).
  clear H1 R1. unfold Extract.numeric_columns. cbn [foldl].
  destruct (Extract.check_numeric (df1, v1) "cantidad") as [df2 v2] eqn:H2.
  destruct (Extract.check_numeric (df2, v2) "precio_unitario") as [df3 v3] eqn:H3.
  destruct (Extract.check_numeric (df3, v3) "total_venta") as [df4 v4] eqn:H4.
  destruct (check_numeric_shape _ _ _ _ _ H2) as [C2 L2].
  destruct (check_numeric_shape _ _ _ _ _ H3) as [C3 L3].
  destruct (check_numeric_shape _ _ _ _ _ H4) as [C4 L4].
  cbn [snd]. split_and!; [congruence|congruence|].
  intros Hcol. eapply check_numeric_numeric; [exact H4|].
  unfold has_column in *. by rewrite C3, C2, C1.
Qed.

End ExtractStage.

(** The verdict of [validate_extracted_data], as one boolean. *)
Lemma validate_extracted_data_bool `{Scalars} (df : DataFrame) :
  fst (Extract.validate_extracted_data df)
  = negb (empty df) && forallb (has_column df) Extract.required_columns
    && match (let* fecha := getcol df "fecha" in to_datetime fecha) with
       | Ok _ => true
       | Raise _ => false
       end.
Proof.
  unfold Extract.validate_extracted_data, Extract.validate_extracted_data_checks.
  cbv zeta. rewrite missing_columns_forallb.
  set (req := forallb (has_column df) Extract.required_columns). clearbody req.
  destruct (match (let* fecha := getcol df "fecha" in to_datetime fecha) with
            | Ok fecha =>
                (setcol df "fecha" fecha,
                 (([] ++ [negb (empty df)]) ++ [req]) ++ [true])
            | Raise _ =>
                (df, (([] ++ [negb (empty df)]) ++ [req]) ++ [false])
            end) as [df1 v1] eqn:H1.
  destruct (foldl Extract.check_numeric (df1, v1) Extract.numeric_columns)
    as [df2 v2] eqn:H2.
  cbn [fst]. rewrite (check_numeric_all_verdict _ _ _ _ _ H2).
  destruct (let* fecha := getcol df "fecha" in to_datetime fecha);
    inversion H1; subst; simpl; by destruct (empty _), req.
Qed.

Lemma validate_extracted_data_passed `{Scalars} (df : DataFrame) :
  fst (Extract.validate_extracted_data df) = true ->
  empty df = false /\
  forall col, col ∈ Extract.required_columns -> has_column df col = true.
Proof.
  rewrite validate_extracted_data_bool, !andb_true_iff, negb_true_iff.
  intros [[Hempty Hreq] _]. split; [done|].
  rewrite forallb_forall in Hreq. intros col Hcol. apply Hreq.
  by apply list_elem_of_In.
Qed.

(** X10.  The verdict of [validate_extracted_data] is [True] exactly when
    the batch is not empty, the six required columns are present and
    [pd.to_datetime] converts the [fecha] column; the numeric check (check
    4) and the null report never change it. *)
Theorem validate_extracted_data_verdict `{Scalars} (df : DataFrame) :
  fst (Extract.validate_extracted_data df) = true <->
  empty df = false /\
  (forall col, col ∈ Extract.required_columns -> has_column df col = true) /\
  (exists fecha,
     to_datetime (map (fun r => cell_of r "fecha") (rows df)) = Ok fecha).
Proof.
  rewrite validate_extracted_data_bool, !andb_true_iff, negb_true_iff.
  assert (Hreq : forallb (has_column df) Extract.required_columns = true <->
                 forall col, col ∈ Extract.required_columns -> has_column df col = true).
  { rewrite forallb_forall. split; intros Hall col Hcol; apply Hall;
      by apply list_elem_of_In. }
  rewrite Hreq. unfold getcol. split.
  - intros [[Hempty Hall] Hfecha]. split_and!; [done..|].
    rewrite (Hall "fecha") in Hfecha
      by (unfold Extract.required_columns; in_list).
    cbn [Py.bind] in Hfecha.
    destruct (to_datetime (map (fun r => cell_of r "fecha") (rows df))) as [fecha|];
      [by exists fecha|discriminate].
  - intros (Hempty & Hall & fecha & Hfecha). split_and!; [done..|].
    rewrite (Hall "fecha") by (unfold Extract.required_columns; in_list).
    cbn [Py.bind]. by rewrite Hfecha.
Qed.

(** X11.  [extract] either raises and leaves the database and the artifacts
    as they were, or returns the path of [extracted_data.csv] after writing
    that one file; it never changes a table or an index. *)
Theorem extract_all_or_nothing `{Scalars} (cfg : config) (w : world) :
  match Extract.extract cfg w with
  | (Raise _, w') => w' = w
  | (Ok path, w') =>
      path = path_join (data_output_path cfg) "extracted_data.csv" /\
      tables w' = tables w /\ indexes w' = indexes w /\
      exists df, files w' = <[path := df]> (files w)
  end.
Proof.
  unfold Extract.extract.
  destruct (Extract.extract_data_from_db cfg w) as [df|e] eqn:Hdb; [|done].
  pose proof (validate_extracted_data_leaves df) as (Hcols & _ & Htotal).
  pose proof (validate_extracted_data_passed df) as Hverdict.
  destruct (Extract.validate_extracted_data df) as [valid df'].
  cbn [fst snd] in *. destruct valid; simpl; [|done].
  destruct (Hverdict eq_refl) as (_ & Hreq).
  assert (Hfecha : has_column df' "fecha" = true).
  { unfold has_column. rewrite Hcols. apply Hreq.
    unfold Extract.required_columns. in_list. }
  assert (Htv : has_column df "total_venta" = true).
  { apply Hreq. unfold Extract.required_columns. in_list. }
  destruct (Htotal Htv) as (s & Hs & Hnum).
  destruct (numeric_dtype_values _ Hnum) as [vals Hvals].
  unfold Extract.get_extraction_summary. unfold getcol at 1. rewrite Hfecha.
  cbn [Py.bind]. rewrite Hs. cbn [Py.bind]. unfold series_sum. rewrite Hvals.
  cbn [Py.bind]. split_and!; try done. by eexists.
Qed.

(** X12.  The hand-over from [extract] to [transform]: after a successful
    [extract], [load_extracted_data] finds the artifact, with the columns and
    the number of rows of the source table. *)
Theorem extract_then_load_extracted_data `{Scalars}
  (cfg : config) (w : world) (path : string) :
  fst (Extract.extract cfg w) = Ok path ->
  exists source df,
    tables w !! table_source cfg = Some source /\
    TransformStage.load_extracted_data cfg (snd (Extract.extract cfg w)) = Ok df /\
    columns df = columns source /\ len df = len source.
Proof.
  unfold Extract.extract, Extract.extract_data_from_db.
  destruct (tables w !! table_source cfg) as [source|] eqn:Hsrc; [|discriminate].
  destruct (getcol source "fecha") as [fecha|]; [|discriminate].
  cbn [Py.bind].
  pose proof (validate_extracted_data_leaves source) as (Hcols & Hlen & _).
  pose proof (validate_extracted_data_passed source) as Hverdict.
  destruct (Extract.validate_extracted_data source) as [valid df'].
  cbn [fst snd] in *. destruct valid; simpl; [|discriminate].
  destruct (Hverdict eq_refl) as (Hempty & _).
  destruct (Extract.get_extraction_summary df'); simpl; [|discriminate].
  intros _.
  exists source, {| columns := columns df'; rows := map (fmap csv_cell) (rows df') |}.
  split; [done|].
  unfold TransformStage.load_extracted_data, read_csv,
    Extract.save_extracted_data, to_csv. simpl.
  rewrite lookup_insert_eq. simpl. rewrite Hcols.
  destruct (columns source) as [|c cols] eqn:Hsource.
  { unfold empty in Hempty. rewrite Hsource in Hempty. by destruct (rows source). }
  split_and!; [done|done|].
  unfold len in *. simpl. by rewrite length_map.
Qed.

Lemma extract_then_load_extracted_data_witness :
  exists source df,
    tables (source_world sample_dataframe) !! table_source default_config
      = Some source /\
    TransformStage.load_extracted_data default_config
      (snd (Extract.extract default_config (source_world sample_dataframe))) = Ok df /\
    columns df = columns source /\ len df = len source.
Proof.
  apply (extract_then_load_extracted_data default_config
           (source_world sample_dataframe)
           (path_join (data_output_path default_config) "extracted_data.csv")).
  vm_compute. reflexivity.
Defined.


(** ** The loading stage *)

Lemma forallb_false_elem {A} (p : A -> bool) (l : list A) (x : A) :
  x ∈ l -> p x = false -> forallb p l = false.
Proof.
  intros Hx Hp. apply not_true_is_false. intros Hall.
  rewrite forallb_forall in Hall. rewrite Hall in Hp; [done|].
  by apply list_elem_of_In.
Qed.

(** X13.  A batch with rows but without one of [fecha], [producto],
    [total_venta], [categoria], [region]: [validate_data_before_load] does
    not return [False], it raises; for the first three the exception is the
    [KeyError] of [df[critical_columns]]. *)
Theorem validate_data_before_load_missing_column (df : DataFrame) (col : string) :
  empty df = false ->
  col ∈ ["fecha"; "producto"; "total_venta"; "categoria"; "region"] ->
  has_column df col = false ->
  (exists e, fst (Load.validate_data_before_load df) = Raise e) /\
  (col ∈ Load.critical_columns ->
   fst (Load.validate_data_before_load df) = Raise KeyError).
Proof.
  intros Hempty Hcol Hmissing. unfold Load.validate_data_before_load.
  rewrite Hempty. cbn [fst].
  assert (Hcrit : col ∈ Load.critical_columns ->
            Load.validate_data_before_load_checks df = Raise KeyError).
  { intros Hin.
    unfold Load.validate_data_before_load_checks, Load.null_count, check_columns.
    by rewrite (forallb_false_elem _ _ _ Hin Hmissing). }
  split.
  - destruct (Load.validate_data_before_load_checks df) as [v|e] eqn:Hv;
      [|by exists e].
    exfalso. unfold Load.validate_data_before_load_checks in Hv.
    bind_inv Hv as nulls Hnulls. bind_inv Hv as v1 Hv1. bind_inv Hv as dups Hdups.
    unfold Load.null_count in Hnulls. bind_inv Hnulls as u1 Hu1.
    unfold duplicated_subset in Hdups. bind_inv Hdups as u2 Hu2.
    unfold check_columns in Hu1, Hu2.
    destruct (forallb (has_column df) Load.critical_columns) eqn:H1; [|discriminate].
    destruct (forallb (has_column df) Transform.group_keys) eqn:H2; [|discriminate].
    rewrite forallb_forall in H1, H2.
    assert (Hhas : has_column df col = true); [|congruence].
    cbv [Load.critical_columns Transform.group_keys] in H1, H2.
    repeat (apply elem_of_cons in Hcol as [->|Hcol]);
      [apply H1|apply H1|apply H1|apply H2|apply H2|by apply elem_of_nil in Hcol];
      apply list_elem_of_In; in_list.
  - intros Hin. by rewrite (Hcrit Hin).
Qed.

Lemma validate_data_before_load_missing_column_witness :
  (exists e, fst (Load.validate_data_before_load no_producto_batch) = Raise e) /\
  ("producto" ∈ Load.critical_columns ->
   fst (Load.validate_data_before_load no_producto_batch) = Raise KeyError).
Proof.
  apply (validate_data_before_load_missing_column no_producto_batch "producto").
  - reflexivity.
  - in_list.
  - reflexivity.
Defined.

(** A batch that passed [validate_data_before_load] has rows and the eight
    required columns. *)
Lemma validate_data_before_load_passed (df : DataFrame) :
  fst (Load.validate_data_before_load df) = Ok true ->
  empty df = false /\
  forall col, col ∈ Load.required_columns -> has_column df col = true.
Proof.
  unfold Load.validate_data_before_load.
  destruct (empty df); [discriminate|]. cbn [fst]. intros Hv. split; [done|].
  destruct (Load.validate_data_before_load_checks df) as [v|] eqn:Hchecks;
    [|discriminate].
  simpl in Hv. injection Hv as Hall.
  unfold Load.validate_data_before_load_checks in Hchecks.
  rewrite missing_columns_forallb in Hchecks.
  bind_inv Hchecks as nulls Hnulls. bind_inv Hchecks as v1 Hv1.
  bind_inv Hchecks as dups Hdups. inversion Hchecks; subst v1; clear Hchecks.
  destruct (forallb (has_column df) Load.required_columns) eqn:Hreq.
  - rewrite forallb_forall in Hreq. intros col Hcol. apply Hreq.
    by apply list_elem_of_In.
  - rewrite (check_all_non_negative_false _ _ _ _ Hv1) in Hall; [done|].
    reflexivity.
Qed.

(** *** The prepared batch *)

Lemma foldr_delete_cell (cols : list string) (r : row) (c : string) :
  c ∉ cols -> cell_of (foldr delete r cols) c = cell_of r c.
Proof.
  induction cols as [|c0 cols IH]; intros Hc; [done|].
  apply not_elem_of_cons in Hc as [Hne Hc]. simpl. unfold cell_of in *.
  rewrite lookup_delete_ne by done. by apply IH.
Qed.

Section Prepared.
Context `{Scalars}.

Lemma coerce_numeric_columns (cols : list string) (df d : DataFrame) :
  Load.coerce_numeric cols df = Ok d -> columns d = columns df.
Proof.
  revert df. induction cols as [|col cols IH]; intros df Hc; simpl in Hc.
  - by inversion Hc.
  - destruct (has_column df col) eqn:Hcol; [|by apply IH].
    bind_inv Hc as s Hs. bind_inv Hc as s' Hs'.
    rewrite (IH _ Hc). by apply has_column_setcol.
Qed.

(** A row of the coerced batch comes from a row of the batch: the columns
    that are not listed are as they were, the listed ones that are present
    hold numbers and NaN only, and what was a number still is. *)
Lemma coerce_numeric_rows (cols : list string) (df d : DataFrame) (r' : row) :
  Load.coerce_numeric cols df = Ok d -> r' ∈ rows d ->
  exists r, r ∈ rows df /\
    forall c,
      (c ∉ cols -> cell_of r' c = cell_of r c) /\
      (c ∈ cols -> has_column df c = true ->
       is_numeric_dtype [cell_of r' c] = true) /\
      (is_numeric_dtype [cell_of r c] = true ->
       is_numeric_dtype [cell_of r' c] = true).
Proof.
  revert df. induction cols as [|col cols IH]; intros df Hc Hr'; simpl in Hc.
  - inversion Hc; subst d. exists r'. split; [done|]. intros c.
    split_and!; [done| |done]. intros Hin. by apply elem_of_nil in Hin.
  - destruct (has_column df col) eqn:Hcol.
    + bind_inv Hc as s Hs. bind_inv Hc as s' Hs'.
      destruct (IH _ Hc Hr') as (r1 & Hr1 & Hcells).
      apply setcol_elem in Hr1 as (r & v & Hr & Hv & ->).
      exists r. split; [done|]. intros c.
      destruct (Hcells c) as (Hother & Hlisted & Hkept).
      assert (Hnum : is_numeric_dtype [v] = true).
      { pose proof (to_numeric_coerce_cells _ _ Hs') as Hall.
        unfold is_numeric_dtype in *. rewrite forallb_forall in Hall.
        simpl. rewrite andb_true_r. apply Hall. by apply list_elem_of_In. }
      split_and!.
      * intros Hc'. apply not_elem_of_cons in Hc' as [Hne Hc'].
        rewrite (Hother Hc'). by apply cell_of_insert_ne.
      * intros Hin Hhas. destruct (decide (c ∈ cols)) as [Hc'|Hc'].
        -- apply Hlisted; [done|]. unfold has_column in *.
           by rewrite has_column_setcol.
        -- apply elem_of_cons in Hin as [->|Hin]; [|done].
           apply Hkept. by rewrite cell_of_insert_eq.
      * intros Hwas. apply Hkept. destruct (decide (c = col)) as [->|Hne].
        -- by rewrite cell_of_insert_eq.
        -- by rewrite cell_of_insert_ne.
    + destruct (IH _ Hc Hr') as (r & Hr & Hcells).
      exists r. split; [done|]. intros c.
      destruct (Hcells c) as (Hother & Hlisted & Hkept).
      split_and!; [|  |done].
      * intros Hc'. apply not_elem_of_cons in Hc' as [_ Hc']. by apply Hother.
      * intros Hin Hhas. apply elem_of_cons in Hin as [->|Hin]; [congruence|].
        by apply Hlisted.
Qed.

(** The steps of [prepare_data_for_load], one after the other. *)
Lemma prepare_data_for_load_steps (df prepared : DataFrame) :
  Load.prepare_data_for_load df = Ok prepared ->
  exists fecha df1 df2,
    has_column df "fecha" = true /\
    to_datetime (map (fun r => cell_of r "fecha") (rows df)) = Ok fecha /\
    df1 = setcol df "fecha" (strftime fecha) /\
    Load.coerce_numeric Load.prepared_numeric_columns df1 = Ok df2 /\
    columns df2 = columns df /\
    columns prepared
      = List.filter (fun c => negb (bool_decide (c ∈ ["Unnamed: 0"; "index"])))
          (columns df) /\
    rows prepared
      = merge_sort
          (fun r1 r2 => Is_true (Load.cell_leb_na_last (cell_of r1 "fecha")
                                                  (cell_of r2 "fecha")))
          (map (fun r => foldr delete r
                           (List.filter (has_column df2) ["Unnamed: 0"; "index"]))
               (rows df2)).
Proof.
  unfold Load.prepare_data_for_load. intros Hp.
  bind_inv Hp as df1 H1. bind_inv Hp as df2 H2.
  unfold Load.sort_values_by in Hp. bind_inv Hp as s Hs.
  inversion Hp; subst prepared; clear Hp. cbn [columns rows drop_columns] in *.
  apply getcol_ok in Hs as [Hfecha3 _].
  pose proof (coerce_numeric_columns _ _ _ H2) as C2.
  assert (C1 : columns df1 = columns df).
  { destruct (has_column df "fecha") eqn:Hf; [|by inversion H1].
    bind_inv H1 as f0 Hf0. bind_inv H1 as f1 Hf1. inversion H1; subst.
    by apply has_column_setcol. }
  assert (Hdrop : forall c, c ∈ columns df2 ->
            negb (bool_decide (c ∈ List.filter (has_column df2) ["Unnamed: 0"; "index"]))
            = negb (bool_decide (c ∈ ["Unnamed: 0"; "index"]))).
  { intros c Hc. f_equal. apply bool_decide_ext. rewrite filter_elem.
    unfold has_column. rewrite bool_decide_eq_true. tauto. }
  assert (Hfecha : has_column df "fecha" = true).
  { unfold has_column in *. cbn [columns drop_columns] in Hfecha3.
    apply bool_decide_eq_true in Hfecha3. apply bool_decide_eq_true.
    apply filter_elem in Hfecha3 as [Hin _]. by rewrite <-C1, <-C2. }
  rewrite Hfecha in H1. bind_inv H1 as fecha0 Hf0. bind_inv H1 as fecha Hf.
  inversion H1; subst df1; clear H1.
  apply getcol_ok in Hf0 as [_ ->].
  exists fecha, (setcol df "fecha" (strftime fecha)), df2.
  split_and!; try done; [congruence|].
  rewrite <-C1, <-C2. apply List.filter_ext_in. intros c Hc. apply Hdrop.
  by apply list_elem_of_In.
Qed.

End Prepared.

(** X14.  What [prepare_data_for_load] leaves in the batch it returns: in
    every row, [fecha] is a date written as text, or null, and each of the five
    numeric columns that is present holds a number or NaN, never a text. *)
Theorem prepare_data_for_load_types `{Scalars} (df prepared : DataFrame) (r : row) :
  Load.prepare_data_for_load df = Ok prepared ->
  r ∈ rows prepared ->
  (cell_of r "fecha" = Null \/ exists t, cell_of r "fecha" = Str (strftime_ymd t)) /\
  forall col, col ∈ Load.prepared_numeric_columns ->
    has_column prepared col = true ->
    cell_of r col = Null \/ exists q, cell_of r col = Num q.
Proof.
  intros Hp Hr.
  destruct (prepare_data_for_load_steps _ _ Hp)
    as (fecha & df1 & df2 & Hfecha & Hconv & -> & H2 & C2 & Hcols & Hrows).
  rewrite Hrows, merge_sort_Permutation in Hr.
  apply list_elem_of_fmap in Hr as (r2 & -> & Hr2).
  destruct (coerce_numeric_rows _ _ _ _ H2 Hr2) as (r1 & Hr1 & Hcells).
  apply setcol_elem in Hr1 as (r0 & v & Hr0 & Hv & ->).
  assert (Hkeep : forall c, c <> "Unnamed: 0" -> c <> "index" ->
            cell_of (foldr delete r2
                       (List.filter (has_column df2) ["Unnamed: 0"; "index"])) c
            = cell_of r2 c).
  { intros c H1 H2'. apply foldr_delete_cell. rewrite filter_elem.
    intros [Hin _]. repeat (apply elem_of_cons in Hin as [->|Hin]); try done.
    by apply elem_of_nil in Hin. }
  split.
  - rewrite Hkeep by done.
    rewrite (proj1 (Hcells "fecha"))
      by (unfold Load.prepared_numeric_columns; not_in_list).
    rewrite cell_of_insert_eq. unfold strftime in Hv.
    apply list_elem_of_fmap in Hv as (c & -> & _).
    destruct c; eauto.
  - intros col Hcol Hhas.
    assert (Hnum : is_numeric_dtype [cell_of r2 col] = true).
    { apply (proj1 (proj2 (Hcells col))); [done|].
      unfold has_column in *. rewrite has_column_setcol by done.
      rewrite Hcols in Hhas. apply bool_decide_eq_true in Hhas.
      apply filter_elem in Hhas as [Hin _]. by apply bool_decide_eq_true. }
    rewrite Hkeep.
    + destruct (cell_of r2 col); simpl in Hnum; try done; eauto.
    + intros ->. unfold Load.prepared_numeric_columns in Hcol.
      repeat (apply elem_of_cons in Hcol as [Hcol|Hcol]; [discriminate|]).
      by apply elem_of_nil in Hcol.
    + intros ->. unfold Load.prepared_numeric_columns in Hcol.
      repeat (apply elem_of_cons in Hcol as [Hcol|Hcol]; [discriminate|]).
      by apply elem_of_nil in Hcol.
Qed.

Lemma prepare_data_for_load_types_witness :
  view ["fecha"; "cantidad_total"] text_total_batch
    = [[Str "2023-01-01"; Str "10"]; [Str "2023-01-02"; Str "many"]] /\
  view ["fecha"; "cantidad_total"] (prepared text_total_batch)
    = [[Str "2023-01-01"; Num 10]; [Str "2023-01-02"; Null]] /\
  (cell_of (nth_row 1 (prepared text_total_batch)) "fecha" = Null \/
   exists t, cell_of (nth_row 1 (prepared text_total_batch)) "fecha"
             = Str (strftime_ymd t)) /\
  forall col, col ∈ Load.prepared_numeric_columns ->
    has_column (prepared text_total_batch) col = true ->
    cell_of (nth_row 1 (prepared text_total_batch)) col = Null \/
    exists q, cell_of (nth_row 1 (prepared text_total_batch)) col = Num q.
Proof.
  split; [vm_compute; reflexivity|]. split; [vm_compute; reflexivity|].
  apply (prepare_data_for_load_types text_total_batch (prepared text_total_batch)).
  - vm_compute. reflexivity.
  - apply list_elem_of_lookup. exists 1. vm_compute. reflexivity.
Defined.

(** X16.  [prepare_data_for_load] keeps the number of rows and the columns,
    except [Unnamed: 0] and [index], which it drops. *)
Theorem prepare_data_for_load_shape `{Scalars} (df prepared : DataFrame) :
  Load.prepare_data_for_load df = Ok prepared ->
  columns prepared
    = List.filter (fun c => negb (bool_decide (c ∈ ["Unnamed: 0"; "index"])))
        (columns df) /\
  len prepared = len df /\
  has_column prepared "Unnamed: 0" = false /\ has_column prepared "index" = false.
Proof.
  intros Hp.
  destruct (prepare_data_for_load_steps _ _ Hp)
    as (fecha & df1 & df2 & _ & _ & _ & _ & _ & Hcols & _).
  split_and!; [done|by apply prepare_data_for_load_len| |];
    unfold has_column; rewrite Hcols; apply bool_decide_eq_false;
    rewrite filter_elem; intros [_ Hin]; done.
Qed.

Lemma prepare_data_for_load_shape_witness :
  columns indexed_batch = aggregated_columns ++ ["Unnamed: 0"] /\
  columns (prepared indexed_batch)
    = List.filter (fun c => negb (bool_decide (c ∈ ["Unnamed: 0"; "index"])))
        (columns indexed_batch) /\
  len (prepared indexed_batch) = len indexed_batch /\
  has_column (prepared indexed_batch) "Unnamed: 0" = false /\
  has_column (prepared indexed_batch) "index" = false.
Proof.
  split; [reflexivity|].
  apply (prepare_data_for_load_shape indexed_batch). vm_compute. reflexivity.
Defined.
